(** * validate-hook.py: the hook validator, embedded and verified

    A shallow embedding of [skills/create-hook/scripts/validate-hook.py]:
    the event schema registry, the installation locator
    ([find_hook_in_settings], [check_installation_status]), event inference
    ([detect_hook_event]), script validation ([validate_hook_script]) and
    settings validation ([validate_settings]).

    Python [str] values are modelled as [string], one character per byte:
    the model is that of the validator on ASCII text.  On text with other
    characters Python counts and slices code points and also treats the
    Unicode white space as space and the Unicode letters and digits as
    word characters, where [Py.split], [Py.strip], [Py.take] and
    [search_event] below see bytes and the ASCII classes only.  Everything
    the validator asks of the outside (the file system, [ast.parse], the
    subprocesses, [json.loads], [pathlib]) is read from a [World] record, and
    every parser or subprocess call made on the script under validation is
    logged in a trace.

    Settings documents are taken as parsed and well typed (a [hooks] object
    of lists of objects with string fields).  Exceptions that the script does
    not catch, and that would end the validator itself, are outside the
    model: [resolve()] on the script under validation, an [OSError] while a
    settings file is read by [validate_settings], and failures of [bash -n]
    other than a timeout or a missing [bash].  The report printer
    ([print_report]), project validation ([validate_project]) and the
    command line ([main], after the arguments are parsed) return what they
    print as a list of lines. *)

From Stdlib Require Import Ascii ZArith Lia.
From stdpp Require Import strings pretty list gmap sorting.

(** ** Python string primitives *)

Module Py.

(** The double-quote character, and the one-character strings used below. *)
Definition dquote : string := String "034"%char EmptyString.
Definition squote : string := String "039"%char EmptyString.
Definition newline : ascii := "010"%char.

(** [str.isspace] on ASCII: tab, LF, VT, FF, CR, FS, GS, RS, US, space. *)
Definition isspace (c : ascii) : bool :=
  match c with
  | "009" | "010" | "011" | "012" | "013"
  | "028" | "029" | "030" | "031" | " " => true
  | _ => false
  end%char.

(** The regular expression class [\w] on ASCII: letters, digits, underscore. *)
Definition isword (c : ascii) : bool :=
  let n := nat_of_ascii c in
  ((48 <=? n) && (n <=? 57) || (65 <=? n) && (n <=? 90)
   || (97 <=? n) && (n <=? 122) || (n =? 95))%nat.

Definition is_empty (s : string) : bool :=
  match s with EmptyString => true | String _ _ => false end.

(** [s.startswith(pre)] *)
Definition startswith (s pre : string) : bool := String.prefix pre s.

(** [sub in s] *)
Fixpoint contains (s sub : string) : bool :=
  String.prefix sub s
  || match s with
     | EmptyString => false
     | String _ t => contains t sub
     end.

(** [s.endswith(suf)]: some tail of [s] is [suf]. *)
Fixpoint endswith (s suf : string) : bool :=
  String.eqb s suf
  || match s with
     | EmptyString => false
     | String _ t => endswith t suf
     end.

(** [s.replace(old, new)] for a non-empty [old]: one pass from the left,
    occurrences do not overlap.  [skip] counts the characters of a matched
    occurrence that are still to be dropped. *)
Fixpoint replace_go (old new : string) (skip : nat) (s : string) : string :=
  match s with
  | EmptyString => EmptyString
  | String c t =>
      match skip with
      | S k => replace_go old new k t
      | O =>
          if String.prefix old s
          then new +:+ replace_go old new (String.length old - 1) t
          else String c (replace_go old new 0 t)
      end
  end.

(** With an empty [old], Python puts [new] before every character and at
    the end. *)
Fixpoint interleave (new s : string) : string :=
  match s with
  | EmptyString => new
  | String c t => new +:+ String c (interleave new t)
  end.

Definition replace (s old new : string) : string :=
  if is_empty old then interleave new s else replace_go old new 0 s.

(** [s.replace(c, '')] for a one-character [c]: used to strip quotes. *)
Definition remove (s c : string) : string := replace s c EmptyString.

(** [s.split()]: the maximal runs of non-space characters. [tok] is the run
    being read. *)
Fixpoint split_go (tok s : string) : list string :=
  match s with
  | EmptyString => if is_empty tok then [] else [tok]
  | String c t =>
      if isspace c
      then (if is_empty tok then split_go EmptyString t
            else tok :: split_go EmptyString t)
      else split_go (tok +:+ String c EmptyString) t
  end.

Definition split (s : string) : list string := split_go EmptyString s.

Fixpoint lstrip (s : string) : string :=
  match s with
  | EmptyString => EmptyString
  | String c t => if isspace c then lstrip t else s
  end.

Fixpoint rstrip (s : string) : string :=
  match s with
  | EmptyString => EmptyString
  | String c t =>
      let t' := rstrip t in
      if isspace c && is_empty t' then EmptyString else String c t'
  end.

(** [s.strip()] *)
Definition strip (s : string) : string := rstrip (lstrip s).

(** [s[:n]] *)
Fixpoint take (n : nat) (s : string) : string :=
  match n, s with
  | S k, String c t => String c (take k t)
  | _, _ => EmptyString
  end.

(** [s[n:]] *)
Fixpoint drop (n : nat) (s : string) : string :=
  match n, s with
  | S k, String _ t => drop k t
  | _, _ => s
  end.

(** [s.split('\n')[0]]: the text before the first line feed. *)
Fixpoint first_line (s : string) : string :=
  match s with
  | EmptyString => EmptyString
  | String c t =>
      if Ascii.eqb c newline then EmptyString else String c (first_line t)
  end.

(** The leading run of [\w] characters. *)
Fixpoint take_word (s : string) : string :=
  match s with
  | EmptyString => EmptyString
  | String c t => if isword c then String c (take_word t) else EmptyString
  end.

(** [', '.join(l)] *)
Fixpoint join (sep : string) (l : list string) : string :=
  match l with
  | [] => EmptyString
  | [x] => x
  | x :: rest => x +:+ sep +:+ join sep rest
  end.

End Py.

(** ** InstallationInfo: where a hook is registered *)

Record InstallationInfo := {
  project : bool;
  local : bool;
  user : bool;
  events : list string;
  matchers : list string;
}.

Definition new_InstallationInfo : InstallationInfo :=
  {| project := false; local := false; user := false;
     events := []; matchers := [] |}.

Definition is_installed (self : InstallationInfo) : bool :=
  project self || local self || user self.

Definition level_description (self : InstallationInfo) : string :=
  let levels := [] in
  let levels :=
    if project self then levels ++ ["PROJECT (.claude/settings.json)"] else levels in
  let levels :=
    if local self then levels ++ ["LOCAL (.claude/settings.local.json)"] else levels in
  let levels :=
    if user self then levels ++ ["USER (~/.claude/settings.json)"] else levels in
  match levels with
  | [] => "NOT INSTALLED"
  | _ => Py.join ", " levels
  end.

Definition scope_description (self : InstallationInfo) : string :=
  if user self then "Will run in ALL projects"
  else if project self || local self then "Will run in THIS project only"
  else "Will NOT run (not registered in any settings file)".

(** ** ValidationResult: the report *)

Record ValidationResult := {
  errors : list string;
  warnings : list string;
  passed : list string;
  installation : option InstallationInfo;
}.

Definition new_ValidationResult : ValidationResult :=
  {| errors := []; warnings := []; passed := []; installation := None |}.

Definition error (msg : string) (self : ValidationResult) : ValidationResult :=
  {| errors := errors self ++ ["❌ " +:+ msg];
     warnings := warnings self;
     passed := passed self;
     installation := installation self |}.

Definition warn (msg : string) (self : ValidationResult) : ValidationResult :=
  {| errors := errors self;
     warnings := warnings self ++ ["⚠️  " +:+ msg];
     passed := passed self;
     installation := installation self |}.

Definition ok (msg : string) (self : ValidationResult) : ValidationResult :=
  {| errors := errors self;
     warnings := warnings self;
     passed := passed self ++ ["✓ " +:+ msg];
     installation := installation self |}.

Definition info (msg : string) (self : ValidationResult) : ValidationResult :=
  {| errors := errors self;
     warnings := warnings self;
     passed := passed self ++ ["ℹ️  " +:+ msg];
     installation := installation self |}.

Definition set_installation (i : InstallationInfo) (self : ValidationResult)
  : ValidationResult :=
  {| errors := errors self;
     warnings := warnings self;
     passed := passed self;
     installation := Some i |}.

(** [len(self.errors) == 0] *)
Definition success (self : ValidationResult) : bool :=
  (length (errors self) =? 0)%nat.

(** ** The event schema registry *)

Record EventSpec := {
  required : list string;
  optional : list string;
  has_matcher : bool;
  can_block : bool;
}.

(** The entries of the [EVENT_SCHEMAS] dict literal, in source order. *)
Definition EVENT_SCHEMAS_items : list (string * EventSpec) :=
  [
    ("PreToolUse",
      {| required := ["tool_name"; "tool_input"];
         optional := ["tool_use_id"; "session_id"];
         has_matcher := true; can_block := true |});
    ("PostToolUse",
      {| required := ["tool_name"; "tool_input"; "tool_response"];
         optional := ["tool_use_id"; "session_id"];
         has_matcher := true; can_block := false |});
    ("UserPromptSubmit",
      {| required := ["prompt"];
         optional := ["session_id"];
         has_matcher := false; can_block := true |});
    ("Stop",
      {| required := ["stop_hook_active"];
         optional := ["transcript_path"; "session_id"];
         has_matcher := false; can_block := true |});
    ("SubagentStop",
      {| required := ["stop_hook_active"];
         optional := ["transcript_path"; "session_id"];
         has_matcher := false; can_block := true |});
    ("SessionStart",
      {| required := ["source"];
         optional := ["session_id"];
         has_matcher := true; can_block := false |});
    ("SessionEnd",
      {| required := ["reason"];
         optional := ["session_id"];
         has_matcher := false; can_block := false |});
    ("PermissionRequest",
      {| required := ["tool_name"; "tool_input"];
         optional := ["tool_use_id"; "session_id"];
         has_matcher := true; can_block := true |});
    ("PreCompact",
      {| required := [];
         optional := ["session_id"];
         has_matcher := true; can_block := false |});
    ("Notification",
      {| required := ["message"; "notification_type"];
         optional := ["session_id"];
         has_matcher := true; can_block := false |})
  ].

Definition EVENT_SCHEMAS : gmap string EventSpec :=
  list_to_map EVENT_SCHEMAS_items.

(** [event in EVENT_SCHEMAS] *)
Definition in_EVENT_SCHEMAS (event : string) : bool :=
  bool_decide (is_Some (EVENT_SCHEMAS !! event)).

(** ** The sample payloads *)

#[warnings="-register-all"]
Inductive Json :=
| JStr (s : string)
| JBool (b : bool)
| JObj (fields : list (string * Json)).

Definition TEST_INPUTS : gmap string Json :=
  list_to_map [
    ("PreToolUse", JObj [
      ("hook_event_name", JStr "PreToolUse");
      ("tool_name", JStr "Write");
      ("tool_input", JObj [("file_path", JStr "/tmp/test.txt"); ("content", JStr "test")]);
      ("tool_use_id", JStr "test-123");
      ("session_id", JStr "session-abc")]);
    ("PostToolUse", JObj [
      ("hook_event_name", JStr "PostToolUse");
      ("tool_name", JStr "Write");
      ("tool_input", JObj [("file_path", JStr "/tmp/test.txt"); ("content", JStr "test")]);
      ("tool_response", JObj [("success", JBool true)]);
      ("tool_use_id", JStr "test-123");
      ("session_id", JStr "session-abc")]);
    ("UserPromptSubmit", JObj [
      ("hook_event_name", JStr "UserPromptSubmit");
      ("prompt", JStr "Hello, world!");
      ("session_id", JStr "session-abc")]);
    ("Stop", JObj [
      ("hook_event_name", JStr "Stop");
      ("stop_hook_active", JBool false);
      ("transcript_path", JStr "/tmp/transcript.json");
      ("session_id", JStr "session-abc")]);
    ("SubagentStop", JObj [
      ("hook_event_name", JStr "SubagentStop");
      ("stop_hook_active", JBool false);
      ("transcript_path", JStr "/tmp/transcript.json");
      ("session_id", JStr "session-abc")]);
    ("SessionStart", JObj [
      ("hook_event_name", JStr "SessionStart");
      ("source", JStr "startup");
      ("session_id", JStr "session-abc")]);
    ("SessionEnd", JObj [
      ("hook_event_name", JStr "SessionEnd");
      ("reason", JStr "logout");
      ("session_id", JStr "session-abc")]);
    ("PermissionRequest", JObj [
      ("hook_event_name", JStr "PermissionRequest");
      ("tool_name", JStr "Bash");
      ("tool_input", JObj [("command", JStr "ls -la")]);
      ("tool_use_id", JStr "test-123");
      ("session_id", JStr "session-abc")]);
    ("PreCompact", JObj [
      ("hook_event_name", JStr "PreCompact");
      ("session_id", JStr "session-abc")]);
    ("Notification", JObj [
      ("hook_event_name", JStr "Notification");
      ("message", JStr "Test notification");
      ("notification_type", JStr "idle_prompt");
      ("session_id", JStr "session-abc")])
  ].

(** ** Settings documents

    A parsed settings file, as far as the validator reads it.  A field that
    [dict.get] reads with a default is an [option]; the order of the event
    keys is the order of the JSON object. *)

Record HookEntry := {
  h_type : option string;
  h_command : option string;
  h_prompt : option string;
}.

Record HookConfig := {
  c_matcher : option string;
  c_hooks : option (list HookEntry);
}.

Record Settings := {
  s_hooks : option (list (string * list HookConfig));
}.

(** ** The outside world *)

(** A [pathlib.Path] with what the validator reads off it.  [resolved] is
    [str(p.resolve())]; for the script under validation it is taken to
    succeed. *)
Record Path := {
  path_str : string;
  name : string;
  suffix : string;
  resolved : string;
}.

Record SyntaxError := { msg : string; lineno : option Z }.

Record CompletedProcess := {
  returncode : Z;
  stdout : string;
  stderr : string;
}.

(** [subprocess.run(['bash', '-n', ...], timeout=5)] *)
Inductive BashCheck :=
| BashCompleted (proc : CompletedProcess)
| BashTimeoutExpired
| BashFileNotFound.

(** [subprocess.run([interpreter, ...], input=..., timeout=10)] *)
Inductive RunResult :=
| RunCompleted (proc : CompletedProcess)
| RunTimeoutExpired
| RunException (e : string).

Inductive Interpreter := python3 | bash.

(** [json.loads(proc.stdout)] on the output of the probe: a value, a
    [JSONDecodeError], or another exception (a [RecursionError] on output
    that is nested too deeply). *)
Inductive JsonLoads :=
| JsonValue
| JSONDecodeError
| JsonRaises (e : string).

Record World := {
  (** [Path(part)] *)
  Path_ : string → Path;
  (** [str(Path(part).resolve())]; [None] when it raises [OSError] or
      [ValueError] *)
  resolve : string → option string;
  (** [p / child] *)
  joinpath : Path → string → Path;
  (** [Path.home()] *)
  home : Path;
  (** [p.exists()] and [os.access(p, os.X_OK)] *)
  exists_ : Path → bool;
  access_X_OK : Path → bool;
  (** [p.read_text()] of a script: the content, or the text of the exception *)
  read_text : Path → string + string;
  (** [json.loads(p.read_text())] of a settings file: the document, or the
      text of the [JSONDecodeError] *)
  read_settings : Path → string + Settings;
  (** [ast.parse(content)]: [None] when it parses *)
  ast_parse : string → option SyntaxError;
  (** [bash -n] on the script *)
  bash_n : Path → BashCheck;
  (** the script run by [interpreter] on a sample payload, with
      [CLAUDE_PROJECT_DIR] set to the project directory *)
  run_hook : Interpreter → Path → Json → Path → RunResult;
  (** [json.loads] on the standard output of the probe *)
  json_loads : string → JsonLoads;
}.

(** ** The installation locator *)

Definition PLACEHOLDER : string := "$CLAUDE_PROJECT_DIR".

(** [get_settings_paths]: the project, local and user settings files. *)
Record SettingsPaths := {
  sp_project : Path;
  sp_local : Path;
  sp_user : Path;
}.

Definition get_settings_paths (w : World) (project_dir : Path) : SettingsPaths :=
  {| sp_project := joinpath w (joinpath w project_dir ".claude") "settings.json";
     sp_local := joinpath w (joinpath w project_dir ".claude") "settings.local.json";
     sp_user := joinpath w (joinpath w (home w) ".claude") "settings.json" |}.

(** The three accumulators of [find_hook_in_settings]. *)
Definition Found : Type := bool * list string * list string.

(** [found = True; events.append(event); if matcher != "*": matchers.append(matcher)] *)
Definition record_match (event matcher : string) (acc : Found) : Found :=
  let '(_, events, matchers) := acc in
  (true, events ++ [event],
   if bool_decide (matcher ≠ "*") then matchers ++ [matcher] else matchers).

(** The expansion of [$CLAUDE_PROJECT_DIR]: double-quoted, single-quoted,
    then bare. *)
Definition expand_command (command project_dir : string) : string :=
  let expanded :=
    Py.replace command (Py.dquote +:+ PLACEHOLDER +:+ Py.dquote) project_dir in
  let expanded :=
    Py.replace expanded (Py.squote +:+ PLACEHOLDER +:+ Py.squote) project_dir in
  Py.replace expanded PLACEHOLDER project_dir.

(** [for part in clean_expanded.split(): ...], leaving the loop at the first
    match. *)
Fixpoint scan_parts (w : World) (hook_name hook_abs event matcher : string)
    (parts : list string) (acc : Found) : Found :=
  match parts with
  | [] => acc
  | part :: rest =>
      if Py.contains part hook_name then
        (* Try path resolution *)
        let path_match :=
          match resolve w part with
          | Some cmd_path => bool_decide (cmd_path = hook_abs)
          | None => false
          end in
        if path_match then record_match event matcher acc
        else
          (* Fallback: string match on filename *)
          if Py.endswith part hook_name
          then record_match event matcher acc
          else scan_parts w hook_name hook_abs event matcher rest acc
      else scan_parts w hook_name hook_abs event matcher rest acc
  end.

(** The body of [for hook in hook_list]. *)
Definition scan_hook (w : World) (hook_name hook_abs project_dir event matcher : string)
    (acc : Found) (hook : HookEntry) : Found :=
  if bool_decide (default "command" (h_type hook) ≠ "command") then acc
  else
    let command := default EmptyString (h_command hook) in
    if Py.is_empty command then acc
    else
      let expanded := expand_command command project_dir in
      (* Check if this command references our hook by name *)
      if Py.contains expanded hook_name then
        let clean_expanded := Py.remove (Py.remove expanded Py.dquote) Py.squote in
        scan_parts w hook_name hook_abs event matcher (Py.split clean_expanded) acc
      else acc.

(** The body of [for config in configs]. *)
Definition scan_config (w : World) (hook_name hook_abs project_dir event : string)
    (acc : Found) (config : HookConfig) : Found :=
  let matcher := default "*" (c_matcher config) in
  let hook_list := default [] (c_hooks config) in
  fold_left (scan_hook w hook_name hook_abs project_dir event matcher) hook_list acc.

(** The body of [for event, configs in hooks_config.items()]. *)
Definition scan_event (w : World) (hook_name hook_abs project_dir : string)
    (acc : Found) (item : string * list HookConfig) : Found :=
  fold_left (scan_config w hook_name hook_abs project_dir item.1) item.2 acc.

Definition find_hook_in_settings (w : World)
    (settings_path hook_script project_dir : Path) : Found :=
  if negb (exists_ w settings_path) then (false, [], [])
  else
    match read_settings w settings_path with
    | inl _ => (false, [], [])
    | inr settings =>
        match default [] (s_hooks settings) with
        | [] => (false, [], [])
        | hooks_config =>
            let hook_name := name hook_script in
            let hook_abs := resolved hook_script in
            fold_left (scan_event w hook_name hook_abs (path_str project_dir))
              hooks_config (false, [], [])
        end
    end.

(** [info.X = True; info.events.extend(events); info.matchers.extend(matchers)] *)
Definition register (set_level : InstallationInfo → InstallationInfo)
    (res : Found) (info : InstallationInfo) : InstallationInfo :=
  let '(found, evs, ms) := res in
  if found then
    let info := set_level info in
    {| project := project info; local := local info; user := user info;
       events := events info ++ evs; matchers := matchers info ++ ms |}
  else info.

Definition set_project (info : InstallationInfo) : InstallationInfo :=
  {| project := true; local := local info; user := user info;
     events := events info; matchers := matchers info |}.
Definition set_local (info : InstallationInfo) : InstallationInfo :=
  {| project := project info; local := true; user := user info;
     events := events info; matchers := matchers info |}.
Definition set_user (info : InstallationInfo) : InstallationInfo :=
  {| project := project info; local := local info; user := true;
     events := events info; matchers := matchers info |}.

Definition check_installation_status (w : World) (hook_script project_dir : Path)
  : InstallationInfo :=
  let info := new_InstallationInfo in
  let paths := get_settings_paths w project_dir in
  let info :=
    register set_project
      (find_hook_in_settings w (sp_project paths) hook_script project_dir) info in
  let info :=
    register set_local
      (find_hook_in_settings w (sp_local paths) hook_script project_dir) info in
  let info :=
    register set_user
      (find_hook_in_settings w (sp_user paths) hook_script project_dir) info in
  info.

(** ** Event inference *)

(** [re.search(r'Event:\s*(\w+)', content)]: group 1 of the leftmost match. *)
Fixpoint search_event (content : string) : option string :=
  match content with
  | EmptyString => None
  | String _ t =>
      if Py.startswith content "Event:" then
        let word := Py.take_word (Py.lstrip (Py.drop 6 content)) in
        if Py.is_empty word then search_event t else Some word
      else search_event t
  end.

(** The content heuristics, after the [Event:] marker. *)
Definition detect_by_fields (content : string) : option string :=
  if Py.contains content "stop_hook_active" then Some "Stop"
  else if Py.contains content "tool_response" then Some "PostToolUse"
  else if (Py.contains content (Py.dquote +:+ "prompt" +:+ Py.dquote)
           || Py.contains content "prompt")
          && negb (Py.contains content "tool_name")
       then Some "UserPromptSubmit"
  else if Py.contains content "notification_type" then Some "Notification"
  else if Py.contains content (Py.dquote +:+ "source" +:+ Py.dquote)
          && Py.contains content "startup"
       then Some "SessionStart"
  else if Py.contains content (Py.dquote +:+ "reason" +:+ Py.dquote)
          && negb (Py.contains content "tool_name")
       then Some "SessionEnd"
  else if Py.contains content "tool_name" then Some "PreToolUse"
  else None.

Definition detect_hook_event (script_path : Path) (content : string) : option string :=
  match search_event content with
  | Some event =>
      if in_EVENT_SCHEMAS event then Some event else detect_by_fields content
  | None => detect_by_fields content
  end.

(** ** Script validation *)

(** The calls [validate_hook_script] makes on the script under validation
    and on its output: [ast.parse(content)], [bash -n] on the script, the
    run of the script on a sample payload, and [json.loads(proc.stdout)] of
    that run.  What the installation check does with the settings files
    (step 10: [exists], [read_text] and [json.loads] for each of them) is
    not a call on the script; it is read from [exists_] and [read_settings]
    and is not logged. *)
Inductive Call :=
| call_ast_parse
| call_bash_n
| call_run_hook (interpreter : Interpreter) (test_input : Json)
| call_json_loads.

(** The report under construction, with the calls made on the script so
    far. *)
Record Run := {
  result : ValidationResult;
  trace : list Call;
}.

Definition new_Run : Run := {| result := new_ValidationResult; trace := [] |}.

Definition report (f : ValidationResult → ValidationResult) (run : Run) : Run :=
  {| result := f (result run); trace := trace run |}.

Definition call (c : Call) (run : Run) : Run :=
  {| result := result run; trace := trace run ++ [c] |}.

(** Python truth of an [Optional[str]]. *)
Definition truthy (o : option string) : bool :=
  match o with
  | Some s => negb (Py.is_empty s)
  | None => false
  end.

(** 2. Check executable *)
Definition check_executable (w : World) (script_path : Path) (run : Run) : Run :=
  if negb (access_X_OK w script_path)
  then report (error "Script is not executable (run: chmod +x)") run
  else report (ok "Script is executable") run.

(** 4. Check shebang and determine language: [(is_python, is_bash)] *)
Definition check_shebang (script_path : Path) (content : string) (run : Run)
  : bool * bool * Run :=
  let line0 := Py.first_line content in
  if negb (Py.startswith line0 "#!") then
    (false, false,
     report (error "Missing shebang (should start with #!/usr/bin/env python3 or #!/bin/bash)") run)
  else if Py.contains line0 "python" then
    (true, false, report (ok "Valid Python shebang") run)
  else if Py.contains line0 "bash" || Py.contains line0 "sh" then
    (false, true, report (ok "Valid Bash shebang") run)
  else
    let run := report (warn ("Unusual shebang: " +:+ line0)) run in
    (* Try to guess from extension *)
    if bool_decide (suffix script_path = ".py") then (true, false, run)
    else if bool_decide (suffix script_path = ".sh") then (false, true, run)
    else (false, false, run).

Definition lineno_str (e : SyntaxError) : string :=
  match lineno e with
  | Some n => pretty n
  | None => "None"
  end.

(** 5. Syntax check.  The first component is [false] when the function
    returns from inside this step. *)
Definition check_syntax (w : World) (script_path : Path) (content : string)
    (is_python is_bash : bool) (run : Run) : bool * Run :=
  if is_python then
    let run := call call_ast_parse run in
    match ast_parse w content with
    | None => (true, report (ok "Python syntax valid") run)
    | Some e =>
        (* Can't continue with broken syntax *)
        (false,
         report (error ("Python syntax error: " +:+ msg e
                        +:+ " (line " +:+ lineno_str e +:+ ")")) run)
    end
  else if is_bash then
    let run := call call_bash_n run in
    match bash_n w script_path with
    | BashCompleted proc =>
        if bool_decide (returncode proc ≠ 0%Z)
        then (true, report (error ("Bash syntax error: " +:+ Py.strip (stderr proc))) run)
        else (true, report (ok "Bash syntax valid") run)
    | BashTimeoutExpired =>
        (true, report (warn "Bash syntax check timed out") run)
    | BashFileNotFound =>
        (true, report (warn "Cannot check bash syntax (bash not found)") run)
    end
  else (true, run).

(** 6. Check for JSON input handling *)
Definition check_stdin (content : string) (is_python is_bash : bool) (run : Run) : Run :=
  if is_python then
    if Py.contains content "json.load(sys.stdin)" || Py.contains content "json.loads"
    then report (ok "Handles JSON input from stdin") run
    else report (warn "No json.load(sys.stdin) found - may not handle input correctly") run
  else if is_bash then
    if Py.contains content "cat" || Py.contains content "INPUT=$("
       || Py.contains content "read"
    then report (ok "Reads input from stdin") run
    else report (warn "May not read input from stdin") run
  else run.

(** 7. Detect event type, and the reentry guard of Stop hooks *)
Definition check_event (event : option string) (content : string) (run : Run) : Run :=
  if truthy event then
    let ev := default EmptyString event in
    let run := report (ok ("Detected event type: " +:+ ev)) run in
    (* Check for infinite loop protection in Stop hooks *)
    if bool_decide (ev ∈ ["Stop"; "SubagentStop"]) then
      if negb (Py.contains content "stop_hook_active")
      then report (error "Stop hook missing stop_hook_active check (infinite loop risk!)") run
      else report (ok "Has stop_hook_active check (prevents infinite loops)") run
    else run
  else report (warn "Could not detect event type from script content") run.

(** 8. Check exit code usage *)
Definition check_exit_codes (content : string) (is_python is_bash : bool) (run : Run) : Run :=
  if is_python then
    let run :=
      if Py.contains content "sys.exit(2)"
      then report (ok "Uses exit(2) for blocking") run else run in
    let run :=
      if Py.contains content "sys.exit(0)"
      then report (ok "Uses exit(0) for success") run else run in
    if Py.contains content "sys.exit(1)"
    then report (warn "Uses exit(1) - non-blocking error (logged only)") run else run
  else if is_bash then
    let run :=
      if Py.contains content "exit 2"
      then report (ok "Uses exit 2 for blocking") run else run in
    if Py.contains content "exit 0"
    then report (ok "Uses exit 0 for success") run else run
  else run.

(** 9. The output check of an accepted probe.  [inr] is the run at the
    moment [json.loads] raises something other than a [JSONDecodeError],
    with the text of the exception: it leaves the [try] block of the
    runtime test. *)
Definition check_output (w : World) (proc : CompletedProcess) (run : Run)
  : Run + Run * string :=
  if negb (Py.is_empty (Py.strip (stdout proc))) then
    let run := call call_json_loads run in
    match json_loads w (stdout proc) with
    | JsonValue => inl (report (ok "Outputs valid JSON") run)
    | JSONDecodeError =>
        (* Non-JSON output is fine for some hooks *)
        inl (if (String.length (stdout proc) <? 200)%nat
             then report (ok ("Outputs text: " +:+ Py.take 50 (Py.strip (stdout proc)))) run
             else run)
    | JsonRaises e => inr (run, e)
    end
  else inl run.

(** 9. The classification of a finished probe. *)
Definition classify_probe (w : World) (proc : CompletedProcess) (run : Run) : Run :=
  let body :=
    if bool_decide (returncode proc ∈ [0; 1; 2]%Z) then
      check_output w proc
        (report (ok ("Runtime test passed (exit code: "
                     +:+ pretty (returncode proc) +:+ ")")) run)
    else inl (report (error ("Unexpected exit code: " +:+ pretty (returncode proc))) run) in
  match body with
  | inl run =>
      if negb (Py.is_empty (Py.strip (stderr proc))) && bool_decide (returncode proc ≠ 2%Z)
      then report (warn ("Stderr output: " +:+ Py.take 100 (Py.strip (stderr proc)))) run
      else run
  | inr (run, e) =>
      (* except Exception as e *)
      report (error ("Runtime test failed: " +:+ e)) run
  end.

(** [TEST_INPUTS.get(event, {"hook_event_name": "Unknown"})] *)
Definition sample_input (event : string) : Json :=
  default (JObj [("hook_event_name", JStr "Unknown")]) (TEST_INPUTS !! event).

(** 9. Runtime test with sample input *)
Definition runtime_test (w : World) (script_path project_dir : Path)
    (event : option string) (is_python is_bash : bool) (run : Run) : Run :=
  if truthy event && (is_python || is_bash) then
    let test_input := sample_input (default EmptyString event) in
    let interpreter := if is_python then python3 else bash in
    let run := call (call_run_hook interpreter test_input) run in
    match run_hook w interpreter script_path test_input project_dir with
    | RunCompleted proc => classify_probe w proc run
    | RunTimeoutExpired => report (error "Script timed out (>10s) on test input") run
    | RunException e => report (error ("Runtime test failed: " +:+ e)) run
    end
  else run.

(** [event_hint or detect_hook_event(script_path, content)] *)
Definition settled_event (script_path : Path) (event_hint : option string)
    (content : string) : option string :=
  if truthy event_hint then event_hint else detect_hook_event script_path content.

(** Steps 4 to 10 of [validate_hook_script]: what is done with the content
    once it is read. *)
Definition validate_content (w : World) (script_path project_dir : Path)
    (event_hint : option string) (content : string) (run : Run) : Run :=
  (* 4. Check shebang and determine language *)
  let '(is_python, is_bash, run) := check_shebang script_path content run in
  (* 5. Syntax check *)
  let '(continue, run) := check_syntax w script_path content is_python is_bash run in
  if negb continue then run
  else
    (* 6. Check for JSON input handling *)
    let run := check_stdin content is_python is_bash run in
    (* 7. Detect event type *)
    let event := settled_event script_path event_hint content in
    let run := check_event event content run in
    (* 8. Check exit code usage *)
    let run := check_exit_codes content is_python is_bash run in
    (* 9. Runtime test with sample input *)
    let run := runtime_test w script_path project_dir event is_python is_bash run in
    (* 10. Check installation status *)
    report (set_installation (check_installation_status w script_path project_dir)) run.

Definition validate_hook_script (w : World) (script_path project_dir : Path)
    (event_hint : option string) : Run :=
  let run := new_Run in
  (* 1. Check file exists *)
  if negb (exists_ w script_path) then
    report (error ("Script not found: " +:+ path_str script_path)) run
  else
    let run := report (ok ("Script exists: " +:+ name script_path)) run in
    (* 2. Check executable *)
    let run := check_executable w script_path run in
    (* 3. Read content *)
    match read_text w script_path with
    | inr e => report (error ("Cannot read script: " +:+ e)) run
    | inl content => validate_content w script_path project_dir event_hint content run
    end.

(** ** Settings validation *)

(** [f"{event}[{i}].hooks[{j}]"] *)
Definition hook_label (event : string) (i j : nat) : string :=
  event +:+ "[" +:+ pretty i +:+ "].hooks[" +:+ pretty j +:+ "]".

(** The first part that ends in [.py] or [.sh], as a path. *)
Fixpoint find_script (w : World) (parts : list string) : option Path :=
  match parts with
  | [] => None
  | part :: rest =>
      if Py.endswith part ".py" || Py.endswith part ".sh"
      then Some (Path_ w part)
      else find_script w rest
  end.

(** The body of [for j, hook in enumerate(hook_list)]. *)
Definition validate_hook_entry (w : World) (project_dir : Path) (schema : EventSpec)
    (event : string) (i j : nat) (hook : HookEntry) (result : ValidationResult)
  : ValidationResult :=
  let hook_type := default "command" (h_type hook) in
  if bool_decide (hook_type = "command") then
    let command := default EmptyString (h_command hook) in
    if Py.is_empty command then
      error (hook_label event i j +:+ ": Empty command") result
    else
      (* Expand and check script path *)
      let expanded_cmd := Py.replace command PLACEHOLDER (path_str project_dir) in
      let expanded_cmd :=
        Py.replace expanded_cmd (Py.dquote +:+ PLACEHOLDER +:+ Py.dquote)
                   (path_str project_dir) in
      match find_script w (Py.split expanded_cmd) with
      | Some script_path =>
          if exists_ w script_path then
            let result := ok (event +:+ ": Script exists: " +:+ name script_path) result in
            (* Check if executable *)
            if negb (access_X_OK w script_path)
            then error (event +:+ ": Script not executable: " +:+ name script_path) result
            else result
          else error (event +:+ ": Script not found: " +:+ path_str script_path) result
      | None =>
          warn (hook_label event i j +:+ ": Could not identify script in command") result
      end
  else if bool_decide (hook_type = "prompt") then
    let prompt := default EmptyString (h_prompt hook) in
    if Py.is_empty prompt then
      error (hook_label event i j +:+ ": Empty prompt") result
    else
      let result := ok (event +:+ ": Prompt-based hook configured") result in
      if negb (can_block schema)
      then warn (event +:+ ": Prompt hooks on " +:+ event +:+ " cannot block operations") result
      else result
  else result.

Fixpoint validate_hook_list (w : World) (project_dir : Path) (schema : EventSpec)
    (event : string) (i j : nat) (hook_list : list HookEntry)
    (result : ValidationResult) : ValidationResult :=
  match hook_list with
  | [] => result
  | hook :: rest =>
      validate_hook_list w project_dir schema event i (S j) rest
        (validate_hook_entry w project_dir schema event i j hook result)
  end.

(** The body of [for i, config in enumerate(configs)]. *)
Definition validate_config (w : World) (project_dir : Path) (schema : EventSpec)
    (event : string) (i : nat) (config : HookConfig) (result : ValidationResult)
  : ValidationResult :=
  (* Check matcher usage *)
  let result :=
    if bool_decide (is_Some (c_matcher config)) && negb (has_matcher schema)
    then warn (event +:+ "[" +:+ pretty i +:+ "]: Matcher specified but "
               +:+ event +:+ " doesn't support matchers") result
    else result in
  let hook_list := default [] (c_hooks config) in
  validate_hook_list w project_dir schema event i 0 hook_list result.

Fixpoint validate_configs (w : World) (project_dir : Path) (schema : EventSpec)
    (event : string) (i : nat) (configs : list HookConfig)
    (result : ValidationResult) : ValidationResult :=
  match configs with
  | [] => result
  | config :: rest =>
      validate_configs w project_dir schema event (S i) rest
        (validate_config w project_dir schema event i config result)
  end.

(** The body of [for event, configs in hooks.items()]. *)
Definition validate_event (w : World) (project_dir : Path)
    (result : ValidationResult) (item : string * list HookConfig) : ValidationResult :=
  let '(event, configs) := item in
  match EVENT_SCHEMAS !! event with
  | None => error ("Unknown event type: " +:+ event) result
  | Some schema => validate_configs w project_dir schema event 0 configs result
  end.

(** [level_name or settings_path.name] *)
Definition display_name (settings_path : Path) (level_name : string) : string :=
  if Py.is_empty level_name then name settings_path else level_name.

Definition validate_settings (w : World) (settings_path project_dir : Path)
    (level_name : string) : ValidationResult :=
  let result := new_ValidationResult in
  let display_name := display_name settings_path level_name in
  if negb (exists_ w settings_path) then
    info (display_name +:+ ": File not found (no hooks at this level)") result
  else
    match read_settings w settings_path with
    | inl e => error ("Invalid JSON in " +:+ display_name +:+ ": " +:+ e) result
    | inr settings =>
        let result := ok (display_name +:+ ": Valid JSON") result in
        match default [] (s_hooks settings) with
        | [] => info (display_name +:+ ": No hooks configured") result
        | hooks =>
            let result :=
              ok (display_name +:+ ": " +:+ pretty (length hooks)
                  +:+ " event type(s) configured") result in
            fold_left (validate_event w project_dir) hooks result
        end
    end.

(** ** Vocabulary of the statements *)

(** The findings of [b] after those of [a]: the three sequences are appended,
    and the installation record of [b], if it has one, replaces that of
    [a]. *)
Definition result_app (a b : ValidationResult) : ValidationResult :=
  {| errors := errors a ++ errors b;
     warnings := warnings a ++ warnings b;
     passed := passed a ++ passed b;
     installation :=
       match installation b with
       | Some i => Some i
       | None => installation a
       end |}.

Definition run_app (a b : Run) : Run :=
  {| result := result_app (result a) (result b);
     trace := trace a ++ trace b |}.

(** A step that only adds to the run it is given. *)
Definition appends (f : Run → Run) : Prop :=
  ∀ run, f run = run_app run (f new_Run).

Infix "⊕" := run_app (at level 50, left associativity).

(** Steps 3 to 10 of [validate_hook_script], from an empty run. *)
Definition read_and_validate (w : World) (script_path project_dir : Path)
    (event_hint : option string) : Run :=
  match read_text w script_path with
  | inr e => report (error ("Cannot read script: " +:+ e)) new_Run
  | inl content =>
      validate_content w script_path project_dir event_hint content new_Run
  end.

(** A settings check that only adds to the report it is given. *)
Definition adds (f : ValidationResult → ValidationResult) : Prop :=
  ∀ r, f r = result_app r (f new_ValidationResult).

(** What the event keys [hooks] of a settings document contribute. *)
Definition events_report (w : World) (project_dir : Path)
    (hooks : list (string * list HookConfig)) : ValidationResult :=
  fold_left (validate_event w project_dir) hooks new_ValidationResult.

(** A command token that registers the hook: it contains the file name, and
    it resolves to the script's own path or ends with the file name. *)
Definition token_matches (w : World) (hook_name hook_abs part : string) : Prop :=
  Py.contains part hook_name = true
  ∧ (resolve w part = Some hook_abs ∨ Py.endswith part hook_name = true).

#[global] Instance token_matches_dec (w : World) (hook_name hook_abs part : string) :
  Decision (token_matches w hook_name hook_abs part).
Proof. unfold token_matches. apply _. Defined.

(** The three ways a command writes the project-root placeholder. *)
Inductive Form := Double | Single | Bare.

Definition form_text (f : Form) : string :=
  match f with
  | Double => Py.dquote +:+ PLACEHOLDER +:+ Py.dquote
  | Single => Py.squote +:+ PLACEHOLDER +:+ Py.squote
  | Bare => PLACEHOLDER
  end.

(** The text of a command from its first placeholder on: each placeholder
    as [g] writes a placeholder of its form, followed by the text up to the
    next placeholder. *)
Fixpoint render_with (g : Form → string) (holes : list (Form * string)) : string :=
  match holes with
  | [] => EmptyString
  | (f, text) :: rest => g f +:+ text +:+ render_with g rest
  end.

(** The command text itself: each placeholder in its form. *)
Definition render : list (Form * string) → string := render_with form_text.

Definition ends_quote (s : string) : bool :=
  Py.endswith s Py.dquote || Py.endswith s Py.squote.
Definition starts_quote (s : string) : bool :=
  Py.startswith s Py.dquote || Py.startswith s Py.squote.

(** The bare placeholders among [holes] are bare: none stands directly
    between two quote characters.  [left] is the command text before
    [holes]. *)
Fixpoint unquoted (left : string) (holes : list (Form * string)) : Prop :=
  match holes with
  | [] => True
  | (f, text) :: rest =>
      (f = Bare → ends_quote left && starts_quote (text +:+ render rest) = false)
      ∧ unquoted (left +:+ form_text f +:+ text) rest
  end.




(** Two commands that differ in the forms of their placeholders: the same
    text around the same number of placeholders, each placeholder in one of
    its three forms.  The text between the placeholders holds no further
    placeholder, and a bare placeholder is bare. *)
Definition same_up_to_form (c1 c2 : string) : Prop :=
  ∃ head holes1 holes2,
    c1 = head +:+ render holes1
    ∧ c2 = head +:+ render holes2
    ∧ holes1.*2 = holes2.*2
    ∧ Forall (λ text, Py.contains text PLACEHOLDER = false) (head :: holes1.*2)
    ∧ unquoted head holes1
    ∧ unquoted head holes2.






(** The text is empty or begins with a character outside [\w]. *)
Definition starts_nonword (s : string) : Prop :=
  match s with
  | EmptyString => True
  | String c _ => Py.isword c = false
  end.

(** The quoted forms of the placeholder, by their quote character. *)
Definition quoted (q : ascii) : string :=
  String q (PLACEHOLDER +:+ String q EmptyString).

(** A project directory given as an absolute path without a dollar sign. *)
Definition safe_dir (pd : string) : Prop :=
  Py.startswith pd "/" = true ∧ Py.contains pd "$" = false.

(** How often a message occurs in a sequence of findings. *)
Definition occurrences (x : string) (l : list string) : nat :=
  length (filter (λ y, y = x) l).

(** Three of the error lines, as [ValidationResult.error] stores them. *)
Definition NOT_EXECUTABLE : string :=
  "❌ Script is not executable (run: chmod +x)".
Definition MISSING_SHEBANG : string :=
  "❌ Missing shebang (should start with #!/usr/bin/env python3 or #!/bin/bash)".
Definition LOOP_RISK : string :=
  "❌ Stop hook missing stop_hook_active check (infinite loop risk!)".

#[global] Instance Path_eq_dec : EqDecision Path.
Proof. solve_decision. Defined.

(** The world [w] after [chmod +x] on [script_path]. *)
Definition chmod_x (w : World) (script_path : Path) : World :=
  {| Path_ := Path_ w;
     resolve := resolve w;
     joinpath := joinpath w;
     home := home w;
     exists_ := exists_ w;
     access_X_OK := λ p, if decide (p = script_path) then true else access_X_OK w p;
     read_text := read_text w;
     read_settings := read_settings w;
     ast_parse := ast_parse w;
     bash_n := bash_n w;
     run_hook := run_hook w;
     json_loads := json_loads w |}.

(** ** A concrete world for the examples

    Absolute, normalised paths without symbolic links: a path resolves to
    itself.  Scripts and settings files are given as tables keyed by path. *)

Module Fixture.

(** The text after the last slash. *)
Fixpoint basename (s : string) : string :=
  match s with
  | EmptyString => EmptyString
  | String c t =>
      if Py.contains t "/" then basename t
      else if Ascii.eqb c "/" then t else s
  end.

(** The last dot of a name and what follows it ([acc] is the current
    candidate). *)
Fixpoint extension (acc s : string) : string :=
  match s with
  | EmptyString => acc
  | String c t => if Ascii.eqb c "." then extension s t else extension acc t
  end.

Definition path (s : string) : Path :=
  {| path_str := s;
     name := basename s;
     suffix := extension EmptyString (basename s);
     resolved := s |}.

Record Script := {
  executable : bool;
  content : string;
}.

(** The number of brackets a text opens with. *)
Fixpoint opening (s : string) : nat :=
  match s with
  | String c t => if Ascii.eqb c "[" then S (opening t) else 0
  | EmptyString => 0
  end.

(** A stand-in for [json.loads], right on the outputs of the examples: a
    text that opens a thousand arrays or more exhausts the recursion limit
    of the interpreter, a text that opens an object is taken for a
    document, and any other text is rejected. *)
Definition loads (s : string) : JsonLoads :=
  if (1000 <=? opening s)%nat then
    JsonRaises "maximum recursion depth exceeded while decoding a JSON array from a unicode string"
  else if Py.startswith s "{" then JsonValue
  else JSONDecodeError.

Definition world (scripts : gmap string Script) (settings : gmap string Settings)
    (parse : option SyntaxError) (check : BashCheck) (probe : RunResult) : World :=
  {| Path_ := path;
     resolve := Some;
     joinpath := λ p child, path (path_str p +:+ "/" +:+ child);
     home := path "/home/dev";
     exists_ := λ p,
       bool_decide (is_Some (scripts !! path_str p))
       || bool_decide (is_Some (settings !! path_str p));
     access_X_OK := λ p,
       match scripts !! path_str p with
       | Some s => executable s
       | None => false
       end;
     read_text := λ p,
       match scripts !! path_str p with
       | Some s => inl (content s)
       | None => inr "No such file or directory"
       end;
     read_settings := λ p,
       match settings !! path_str p with
       | Some s => inr s
       | None => inl "Expecting value: line 1 column 1 (char 0)"
       end;
     ast_parse := λ _, parse;
     bash_n := λ _, check;
     run_hook := λ _ _ _ _, probe;
     json_loads := loads |}.

Definition completed (rc : Z) (out err : string) : CompletedProcess :=
  {| returncode := rc; stdout := out; stderr := err |}.

Definition command_hook (command : string) : HookEntry :=
  {| h_type := Some "command"; h_command := Some command; h_prompt := None |}.

(** A settings document with a single command hook under [event]. *)
Definition one_hook (event command : string) : Settings :=
  {| s_hooks := Some [(event, [{| c_matcher := None;
                                  c_hooks := Some [command_hook command] |}])] |}.

Definition LF : string := String Py.newline EmptyString.

Definition prompt_hook (prompt : string) : HookEntry :=
  {| h_type := Some "prompt"; h_command := None; h_prompt := Some prompt |}.

Definition config (hooks : list HookEntry) : HookConfig :=
  {| c_matcher := None; c_hooks := Some hooks |}.

Definition project_dir : Path := path "/proj".
Definition hooks_dir : string := "/proj/.claude/hooks".

(** A tool guard written in Python, with and without its shebang line. *)
Definition guard_py : Path := path (hooks_dir +:+ "/guard.py").
Definition guard_body : string :=
  "import json, sys" +:+ LF
  +:+ "data = json.load(sys.stdin)" +:+ LF
  +:+ "if data[" +:+ Py.dquote +:+ "tool_name" +:+ Py.dquote +:+ "] == "
  +:+ Py.dquote +:+ "Bash" +:+ Py.dquote +:+ ":" +:+ LF
  +:+ "    sys.exit(2)" +:+ LF
  +:+ "sys.exit(0)" +:+ LF.
Definition guard_source : string := "#!/usr/bin/env python3" +:+ LF +:+ guard_body.

(** A document with a misspelt event key between two well-formed ones. *)
Definition guard_entry : string * list HookConfig :=
  ("PreToolUse", [config [command_hook (hooks_dir +:+ "/guard.py")]]).
Definition review_entry : string * list HookConfig :=
  ("Stop", [config [prompt_hook "Is the task complete?"]]).
Definition misspelt_entry : string * list HookConfig :=
  ("PreCommit", [config [command_hook (hooks_dir +:+ "/lint.sh")]]).
Definition misspelt_settings : Settings :=
  {| s_hooks := Some ([guard_entry] ++ misspelt_entry :: [review_entry]) |}.

(** The guard registered for the Bash tool, with the placeholder in the
    form [f]. *)
Definition guard_command (f : Form) : string :=
  "python3 " +:+ form_text f +:+ "/.claude/hooks/guard.py".
Definition guard_settings (f : Form) : Settings :=
  {| s_hooks :=
       Some [("PreToolUse",
              [{| c_matcher := Some "Bash";
                  c_hooks := Some [command_hook (guard_command f)] |}])] |}.

(** A project kept in [/proj/hooks/guard], next to a script
    [/proj/hooks/guard.py], and a command that names the script by
    appending [.py] to the quoted project directory. *)
Definition nested_dir : Path := path "/proj/hooks/guard".
Definition nested_settings : string := "/proj/hooks/guard/.claude/settings.json".
Definition sibling_py : Path := path "/proj/hooks/guard.py".
Definition sibling_command (f : Form) : string :=
  Py.dquote +:+ form_text f +:+ Py.dquote +:+ ".py".



(** The world [w] seen from the working directory [cwd]: a relative path
    resolves below it. *)
Definition seen_from (cwd : string) (w : World) : World :=
  {| Path_ := Path_ w;
     resolve := λ part,
       Some (if Py.startswith part "/" then part else cwd +:+ "/" +:+ part);
     joinpath := joinpath w;
     home := home w;
     exists_ := exists_ w;
     access_X_OK := access_X_OK w;
     read_text := read_text w;
     read_settings := read_settings w;
     ast_parse := ast_parse w;
     bash_n := bash_n w;
     run_hook := run_hook w;
     json_loads := json_loads w |}.

(** A project given by the relative path [DIR], seen from [/work], next to
    a script [/work/_DIR.py], and a command whose text before the
    placeholder ends in the first part of the placeholder's own name. *)
Definition relative_dir : Path :=
  {| path_str := "DIR"; name := "DIR"; suffix := EmptyString;
     resolved := "/work/DIR" |}.
Definition relative_settings : string := "DIR/.claude/settings.json".
Definition relative_py : Path := path "/work/_DIR.py".
Definition relative_command (f : Form) : string :=
  "python3 $CLAUDE_PROJECT_" +:+ form_text f +:+ ".py".

(** A shell hook. *)
Definition notify_sh : Path := path (hooks_dir +:+ "/notify.sh").
Definition notify_source : string :=
  "#!/bin/bash" +:+ LF
  +:+ "# Event: Notification" +:+ LF
  +:+ "INPUT=$(cat)" +:+ LF
  +:+ "if [ -z $INPUT ; then" +:+ LF
  +:+ "exit 0" +:+ LF.

(** A Python hook for the Stop event that never reads the reentry guard. *)
Definition keep_going_py : Path := path (hooks_dir +:+ "/keep_going.py").
Definition keep_going_source : string :=
  "#!/usr/bin/env python3" +:+ LF
  +:+ "import json, sys" +:+ LF
  +:+ "data = json.load(sys.stdin)" +:+ LF
  +:+ "sys.exit(2)" +:+ LF.
Definition project_settings : string := "/proj/.claude/settings.json".

(** A Stop hook that never reads the reentry guard and does not parse: the
    call on its third line is never closed.  [never_closed] is what
    [ast.parse] raises on it, and [never_closed_run] what [python3] does
    when asked to run it. *)
Definition force_continue_py : Path := path (hooks_dir +:+ "/force_continue.py").
Definition force_continue_source : string :=
  "#!/usr/bin/env python3" +:+ LF
  +:+ "import json, sys" +:+ LF
  +:+ "data = json.load(sys.stdin" +:+ LF
  +:+ "sys.exit(2)" +:+ LF.
Definition never_closed : SyntaxError :=
  {| msg := "'(' was never closed"; lineno := Some 3%Z |}.
Definition never_closed_run : RunResult :=
  RunCompleted
    (completed 1 EmptyString
       ("  File " +:+ Py.dquote +:+ path_str force_continue_py +:+ Py.dquote
        +:+ ", line 3" +:+ LF
        +:+ "    data = json.load(sys.stdin" +:+ LF
        +:+ "                    ^" +:+ LF
        +:+ "SyntaxError: '(' was never closed" +:+ LF)).

End Fixture.

(** ** The report printer *)

(** What is written to standard output: the argument of one [print], or the
    usage text of [parser.print_help()]. *)
Inductive Output :=
| Print (line : string)
| PrintHelp.

Module PyText.

(** [s * n] *)
Fixpoint repeat (s : string) (n : nat) : string :=
  match n with
  | O => EmptyString
  | S k => s +:+ repeat s k
  end.

(** [sorted(set(l))]: the distinct elements in ascending order.  Strings
    compare by their bytes, which for UTF-8 text is Python's order by code
    point. *)
Definition sorted_set (l : list string) : list string :=
  merge_sort String.le (remove_dups l).

(** [s.upper()] on ASCII. *)
Definition upper_char (c : ascii) : ascii :=
  let n := nat_of_ascii c in
  if ((97 <=? n) && (n <=? 122))%nat then ascii_of_nat (n - 32) else c.

Fixpoint upper (s : string) : string :=
  match s with
  | EmptyString => EmptyString
  | String c t => String (upper_char c) (upper t)
  end.

Definition LF : string := String Py.newline EmptyString.

End PyText.

(** The last line of a report. *)
Definition verdict_line (self : ValidationResult) : string :=
  if success self then
    if bool_decide (is_Some (installation self))
       && negb (from_option is_installed false (installation self))
    then "  ⚠️  SCRIPT VALID but NOT INSTALLED ("
         +:+ pretty (length (passed self)) +:+ " checks passed)"
    else "  ✅ PASSED (" +:+ pretty (length (passed self)) +:+ " checks, "
         +:+ pretty (length (warnings self)) +:+ " warnings)"
  else "  ❌ FAILED (" +:+ pretty (length (errors self)) +:+ " errors, "
       +:+ pretty (length (warnings self)) +:+ " warnings)".

(** The block printed [if self.installation]. *)
Definition installation_lines (inst : InstallationInfo) : list Output :=
  [Print EmptyString;
   Print "  📍 INSTALLATION STATUS:";
   Print (if project inst
          then "  ✓ Registered in PROJECT settings (.claude/settings.json)"
          else "  ✗ Not in project settings (.claude/settings.json)");
   Print (if local inst
          then "  ✓ Registered in LOCAL settings (.claude/settings.local.json)"
          else "  ✗ Not in local settings (.claude/settings.local.json)");
   Print (if user inst
          then "  ✓ Registered in USER settings (~/.claude/settings.json)"
          else "  ✗ Not in user settings (~/.claude/settings.json)");
   Print EmptyString]
  ++ (if is_installed inst then
        [Print ("  ⚡ " +:+ scope_description inst)]
        ++ match events inst with
           | [] => []
           | _ => [Print ("  🎯 Events: "
                          +:+ Py.join ", " (PyText.sorted_set (events inst)))]
           end
        ++ match matchers inst with
           | [] => []
           | _ => [Print ("  🔍 Matchers: "
                          +:+ Py.join ", " (PyText.sorted_set (matchers inst)))]
           end
      else
        [Print "  ⚠️  Hook script exists but is NOT registered in any settings file!";
         Print "     It will NOT run until added to settings.json"]).

Definition print_report (self : ValidationResult) (title : string) : list Output :=
  [Print (PyText.LF +:+ PyText.repeat "=" 60);
   Print ("  " +:+ title);
   Print (PyText.repeat "=" 60)]
  ++ map (λ msg, Print ("  " +:+ msg)) (passed self)
  ++ map (λ msg, Print ("  " +:+ msg)) (warnings self)
  ++ map (λ msg, Print ("  " +:+ msg)) (errors self)
  (* Print installation status if available *)
  ++ match installation self with
     | Some inst => installation_lines inst
     | None => []
     end
  ++ [Print EmptyString; Print (verdict_line self); Print EmptyString].

(** ** Project validation *)

(** Directory listings, which [World] does not hold: [d.iterdir()] and
    [f.is_file()]. *)
Record Listing := {
  iterdir : Path → list Path;
  is_file : Path → bool;
}.

Definition find_all_hooks (w : World) (ls : Listing) (project_dir : Path) : list Path :=
  let hooks_dir := joinpath w (joinpath w project_dir ".claude") "hooks" in
  if exists_ w hooks_dir then
    filter (λ f, is_file ls f
                 && (bool_decide (suffix f ∈ [".py"; ".sh"])
                     || Py.startswith (name f) "hook") = true)
           (iterdir ls hooks_dir)
  else [].

(** The three settings levels, in the order of the [paths] dict. *)
Inductive Level := level_project | level_local | level_user.

Definition levels : list Level := [level_project; level_local; level_user].

Definition level_key (l : Level) : string :=
  match l with
  | level_project => "project"
  | level_local => "local"
  | level_user => "user"
  end.

Definition level_path (paths : SettingsPaths) (l : Level) : Path :=
  match l with
  | level_project => sp_project paths
  | level_local => sp_local paths
  | level_user => sp_user paths
  end.

Definition level_display (l : Level) : string :=
  match l with
  | level_project => "PROJECT (.claude/settings.json)"
  | level_local => "LOCAL (.claude/settings.local.json)"
  | level_user => "USER (~/.claude/settings.json)"
  end.

(** What a function has printed, and the value it computes. *)
Definition Printed (A : Type) : Type := list Output * A.

(** The body of [for level, settings_path in paths.items()] in
    [validate_project]. *)
Definition project_settings_step (w : World) (project_dir : Path) (paths : SettingsPaths)
    (st : Printed bool) (l : Level) : Printed bool :=
  let '(out, all_passed) := st in
  let settings_path := level_path paths l in
  let result := validate_settings w settings_path project_dir (level_display l) in
  (* Print condensed result *)
  let out :=
    if exists_ w settings_path then
      let status := if success result then "✅" else "❌" in
      out ++ [Print ("  " +:+ status +:+ " " +:+ level_display l)]
          ++ map (λ err, Print ("      " +:+ err)) (errors result)
    else out ++ [Print ("  ⚪ " +:+ level_display l +:+ " (not found)")] in
  (out, if negb (success result) then false else all_passed).

(** The body of [for hook in hooks] in [validate_project]. *)
Definition project_hook_step (w : World) (project_dir : Path)
    (st : Printed bool) (hook : Path) : Printed bool :=
  let '(out, all_passed) := st in
  let result := result (validate_hook_script w hook project_dir None) in
  (out ++ print_report result ("Hook: " +:+ name hook),
   if negb (success result) then false else all_passed).

Definition validate_project (w : World) (ls : Listing) (project_dir : Path)
  : Printed bool :=
  let out :=
    [Print (PyText.LF +:+ PyText.repeat "#" 60);
     Print ("  HOOK VALIDATION: " +:+ path_str project_dir);
     Print (PyText.repeat "#" 60)] in
  let all_passed := true in
  let paths := get_settings_paths w project_dir in
  (* Validate all settings files *)
  let out := out ++ [Print (PyText.LF +:+ "📁 SETTINGS FILES");
                     Print (PyText.repeat "-" 40)] in
  let '(out, all_passed) :=
    fold_left (project_settings_step w project_dir paths) levels (out, all_passed) in
  (* Validate all hook scripts *)
  let hooks := find_all_hooks w ls project_dir in
  let '(out, all_passed) :=
    match hooks with
    | [] =>
        (out ++ [Print (PyText.LF +:+ "📜 HOOK SCRIPTS");
                 Print (PyText.repeat "-" 40);
                 Print "  No hook scripts found in .claude/hooks/"],
         all_passed)
    | _ =>
        fold_left (project_hook_step w project_dir) hooks
          (out ++ [Print (PyText.LF +:+ "📜 HOOK SCRIPTS (" +:+ pretty (length hooks)
                          +:+ " found)");
                   Print (PyText.repeat "-" 40)],
           all_passed)
    end in
  (* Summary *)
  let out := out ++ [Print (PyText.LF +:+ PyText.repeat "=" 60)] in
  let out :=
    if all_passed then
      out ++ [Print "  ✅ ALL VALIDATIONS PASSED";
              Print "  Hooks are properly configured and will run when Claude starts."]
    else
      out ++ [Print "  ❌ SOME VALIDATIONS FAILED";
              Print "  Fix the errors above to ensure hooks work correctly."] in
  (out ++ [Print (PyText.repeat "=" 60 +:+ PyText.LF)], all_passed).

(** ** The command line *)

(** The parsed arguments; [script] and [event] are [None] when absent. *)
Record Args := {
  a_script : option string;
  a_all : bool;
  a_settings : bool;
  a_project : bool;
  a_event : option string;
  a_dir : string;
  a_json : bool;
}.

(** [p.is_absolute()] on POSIX. *)
Definition is_absolute (p : Path) : bool := Py.startswith (path_str p) "/".

(** The body of [for level, settings_path in paths.items()] in the
    [--settings] branch of [main]. *)
Definition main_settings_step (w : World) (project_dir : Path) (paths : SettingsPaths)
    (st : Printed bool) (l : Level) : Printed bool :=
  let '(out, all_passed) := st in
  let result :=
    validate_settings w (level_path paths l) project_dir (PyText.upper (level_key l)) in
  (out ++ print_report result ("Settings: " +:+ PyText.upper (level_key l)),
   if negb (success result) then false else all_passed).

(** The body of [for hook in hooks] in the [--all] branch of [main]. *)
Definition main_hook_step (w : World) (project_dir : Path) (event : option string)
    (st : Printed bool) (hook : Path) : Printed bool :=
  let '(out, all_passed) := st in
  let result := result (validate_hook_script w hook project_dir event) in
  (out ++ print_report result ("Hook: " +:+ name hook),
   if negb (success result) then false else all_passed).

(** [main], after [parser.parse_args()]: what is printed, and the argument
    of [sys.exit]. *)
Definition main (w : World) (ls : Listing) (args : Args) : Printed Z :=
  let project_dir := Path_ w (resolved (Path_ w (a_dir args))) in
  if a_project args
     || (negb (truthy (a_script args)) && negb (a_all args) && negb (a_settings args))
  then
    let '(out, ok) := validate_project w ls project_dir in
    (out, if ok then 0%Z else 1%Z)
  else if a_settings args then
    let paths := get_settings_paths w project_dir in
    let '(out, all_passed) :=
      fold_left (main_settings_step w project_dir paths) levels ([], true) in
    (out, if all_passed then 0%Z else 1%Z)
  else if a_all args then
    match find_all_hooks w ls project_dir with
    | [] => ([Print "No hooks found in .claude/hooks/"], 0%Z)
    | hooks =>
        let '(out, all_passed) :=
          fold_left (main_hook_step w project_dir (a_event args)) hooks ([], true) in
        (out, if all_passed then 0%Z else 1%Z)
    end
  else if truthy (a_script args) then
    let script_path := Path_ w (default EmptyString (a_script args)) in
    let script_path :=
      if negb (is_absolute script_path)
      then joinpath w project_dir (path_str script_path)
      else script_path in
    let result :=
      result (validate_hook_script w script_path project_dir (a_event args)) in
    (print_report result ("Hook: " +:+ name script_path),
     if success result then 0%Z else 1%Z)
  else ([PrintHelp], 2%Z).

(** ** Vocabulary of the further properties *)

(** A hook entry that registers the script: a command hook with a command
    whose expansion names the file and, once the quotes are removed, has a
    token that matches. *)
Definition registers (w : World) (hook_name hook_abs project_dir : string)
    (hook : HookEntry) : bool :=
  let expanded := expand_command (default EmptyString (h_command hook)) project_dir in
  bool_decide (default "command" (h_type hook) = "command")
  && negb (Py.is_empty (default EmptyString (h_command hook)))
  && Py.contains expanded hook_name
  && bool_decide (Exists (token_matches w hook_name hook_abs)
                    (Py.split (Py.remove (Py.remove expanded Py.dquote) Py.squote))).

(** The registering hook entries of a document in document order, each as
    the event key and the matcher of its group ([*] when the group has
    none). *)
Definition registrations (w : World) (hook_name hook_abs project_dir : string)
    (hooks_config : list (string * list HookConfig)) : list (string * string) :=
  item ← hooks_config;
  config ← item.2;
  hook ← default [] (c_hooks config);
  if registers w hook_name hook_abs project_dir hook
  then [(item.1, default "*" (c_matcher config))] else [].

(** The accumulators after the registrations [regs] are recorded. *)
Definition record_all (acc : Found) (regs : list (string * string)) : Found :=
  (acc.1.1 || negb (bool_decide (regs = [])),
   acc.1.2 ++ regs.*1,
   acc.2 ++ filter (λ matcher, matcher ≠ "*") regs.*2).

(** The syntax check that goes with an interpreter. *)
Definition syntax_call (interpreter : Interpreter) : Call :=
  match interpreter with
  | python3 => call_ast_parse
  | bash => call_bash_n
  end.

(** The events the field heuristics of [detect_hook_event] can return. *)
Definition heuristic_events : list string :=
  ["Stop"; "PostToolUse"; "UserPromptSubmit"; "Notification"; "SessionStart";
   "SessionEnd"; "PreToolUse"].

(** What settings validation makes of a placeholder in the form [f]: the
    project directory, still inside the quotes of the form. *)
Definition kept_form (f : Form) (project_dir : string) : string :=
  match f with
  | Double => Py.dquote +:+ project_dir +:+ Py.dquote
  | Single => Py.squote +:+ project_dir +:+ Py.squote
  | Bare => project_dir
  end.

(** [payload.get(key)] on a JSON object. *)
Definition json_field (payload : Json) (key : string) : option Json :=
  match payload with
  | JObj fields =>
      (fix get (fields : list (string * Json)) : option Json :=
         match fields with
         | [] => None
         | (k, v) :: rest => if bool_decide (k = key) then Some v else get rest
         end) fields
  | _ => None
  end.

(** The line is the argument of a [print], not the usage text. *)
Definition is_print (o : Output) : bool :=
  match o with
  | Print _ => true
  | PrintHelp => false
  end.

(** * Properties *)

#[global] Arguments Py.take : simpl never.
#[global] Arguments Py.strip : simpl never.
#[global] Arguments Py.contains : simpl never.
#[global] Arguments Py.first_line : simpl never.

(** ** The primitives on small inputs *)

Example replace_leftmost : Py.replace "aaa" "aa" "b" = "ba".
Proof. reflexivity. Qed.

Example replace_every_occurrence :
  Py.replace "cd $D && $D/run $DIR" "$D" "/p" = "cd /p && /p/run /pIR".
Proof. reflexivity. Qed.

Example split_on_runs_of_space :
  Py.split ("  python3   /p/hook.py" +:+ String "009" " --flag ")
  = ["python3"; "/p/hook.py"; "--flag"].
Proof. reflexivity. Qed.

Example strip_both_ends : Py.strip "  denied by policy  " = "denied by policy".
Proof. reflexivity. Qed.

Example contains_and_endswith :
  Py.contains "/p/guard.py.bak" "guard.py" = true
  ∧ Py.endswith "/p/guard.py.bak" "guard.py" = false
  ∧ Py.endswith "/p/guard.py" "guard.py" = true.
Proof. by vm_compute. Qed.

Example search_event_leftmost_match :
  search_event "# Event: (see below) Event:   SessionStart now" = Some "SessionStart".
Proof. reflexivity. Qed.

Example detect_marker_outside_registry :
  detect_hook_event (Fixture.path "/p/h.py") "Event: PreCommit uses tool_name"
  = Some "PreToolUse".
Proof. by vm_compute. Qed.

Example expand_three_forms :
  expand_command (form_text Double +:+ "/h.py") "/proj" = "/proj/h.py"
  ∧ expand_command (form_text Single +:+ "/h.py") "/proj" = "/proj/h.py"
  ∧ expand_command (form_text Bare +:+ "/h.py") "/proj" = "/proj/h.py".
Proof. by vm_compute. Qed.

(** Closed decidable facts, by evaluation. *)
Ltac by_compute := apply (bool_decide_unpack _); vm_compute; exact I.

(** ** The scope description *)

(** C6: the scope description is "Will run in ALL projects" exactly when the
    user flag is set, and "Will NOT run ..." exactly when none of the three
    flags is set.  [scope_description] reads nothing but the three flags, so
    this holds whatever the events, the matchers and the enclosing report. *)
Theorem scope_description_flags (i : InstallationInfo) :
  (scope_description i = "Will run in ALL projects" ↔ user i = true)
  ∧ (scope_description i = "Will NOT run (not registered in any settings file)"
     ↔ project i = false ∧ local i = false ∧ user i = false).
Proof.
  unfold scope_description.
  destruct (user i), (project i), (local i); simpl;
    (split; (split; [ try discriminate; try tauto
                    | try tauto; try discriminate;
                      try (intros (? & ? & ?); discriminate) ])).
Qed.

(** The description is a function of the flags alone. *)
Lemma scope_description_ext (i j : InstallationInfo) :
  project i = project j → local i = local j → user i = user j →
  scope_description i = scope_description j.
Proof. unfold scope_description. by intros -> -> ->. Qed.

(** "Will NOT run" is the description of exactly the uninstalled hooks. *)
Lemma scope_description_not_installed (i : InstallationInfo) :
  scope_description i = "Will NOT run (not registered in any settings file)"
  ↔ is_installed i = false.
Proof.
  unfold scope_description, is_installed.
  destruct (user i), (project i), (local i); simpl; split; (done || discriminate).
Qed.

(** ** The registry *)

Lemma EVENT_SCHEMAS_lookup_Some (event : string) (spec : EventSpec) :
  EVENT_SCHEMAS !! event = Some spec → (event, spec) ∈ EVENT_SCHEMAS_items.
Proof. apply elem_of_list_to_map_2. Qed.

Lemma EVENT_SCHEMAS_lookup_None (event : string) :
  event ∉ EVENT_SCHEMAS_items.*1 → EVENT_SCHEMAS !! event = None.
Proof. apply not_elem_of_list_to_map_1. Qed.

Lemma in_EVENT_SCHEMAS_spec (event : string) :
  in_EVENT_SCHEMAS event = true ↔ event ∈ EVENT_SCHEMAS_items.*1.
Proof.
  unfold in_EVENT_SCHEMAS. rewrite bool_decide_eq_true.
  split.
  - intros [spec Hspec]. apply list_elem_of_fmap.
    exists (event, spec). split; [done|]. by apply EVENT_SCHEMAS_lookup_Some.
  - intros Hin. destruct (EVENT_SCHEMAS !! event) eqn:E; [by eexists|].
    exfalso. revert Hin. by apply not_elem_of_list_to_map_2.
Qed.

(** The spec says every registered event has at least one required field:
    [PreCompact] is registered with none. *)
Lemma PreCompact_requires_nothing :
  ∃ spec, EVENT_SCHEMAS !! "PreCompact" = Some spec
          ∧ ¬ (1 ≤ length (required spec)).
Proof. eexists. split; [vm_compute; reflexivity|]. simpl. lia. Qed.

(** C2, amended: every registered event other than [PreCompact] has at least
    one required field, [PreCompact] has none, and a name outside the ten
    registered ones is not found (by lookup and by the membership test). *)
Theorem registry_required_fields :
  (∀ event spec, EVENT_SCHEMAS !! event = Some spec →
     event ≠ "PreCompact" → 1 ≤ length (required spec))
  ∧ (∀ spec, EVENT_SCHEMAS !! "PreCompact" = Some spec → required spec = [])
  ∧ (∀ event, event ∉ EVENT_SCHEMAS_items.*1 →
       EVENT_SCHEMAS !! event = None ∧ in_EVENT_SCHEMAS event = false)
  ∧ (∀ event, event ∈ EVENT_SCHEMAS_items.*1 → is_Some (EVENT_SCHEMAS !! event)).
Proof.
  repeat split.
  - intros event spec Hspec Hne.
    apply EVENT_SCHEMAS_lookup_Some in Hspec.
    unfold EVENT_SCHEMAS_items in Hspec.
    repeat (apply elem_of_cons in Hspec as [Hspec|Hspec];
            [ injection Hspec as -> ->; simpl; (lia || done) | ]).
    by apply elem_of_nil in Hspec.
  - intros spec Hspec. vm_compute in Hspec. by injection Hspec as <-.
  - by apply EVENT_SCHEMAS_lookup_None.
  - apply not_true_is_false. intros Hin%in_EVENT_SCHEMAS_spec. done.
  - intros event Hin%in_EVENT_SCHEMAS_spec.
    unfold in_EVENT_SCHEMAS in Hin. by apply bool_decide_eq_true in Hin.
Qed.

(** The registry at work: a registered name, and a name that is not. *)
Lemma registry_required_fields_witness :
  1 ≤ length (required (default {| required := []; optional := [];
                                   has_matcher := false; can_block := false |}
                                (EVENT_SCHEMAS !! "Stop")))
  ∧ EVENT_SCHEMAS !! "PreCommit" = None.
Proof.
  split.
  - destruct (proj2 (proj2 (proj2 registry_required_fields)) "Stop") as [spec Hspec].
    { by_compute. }
    rewrite Hspec. simpl.
    apply (proj1 registry_required_fields "Stop" spec Hspec). discriminate.
  - apply (proj1 (proj2 (proj2 registry_required_fields)) "PreCommit"). by_compute.
Defined.

(** ** The runtime probe *)

Section Probe.
Context (w : World).







End Probe.


(** ** Steps only append *)

Lemma result_app_nil_r (a : ValidationResult) : result_app a new_ValidationResult = a.
Proof. destruct a. unfold result_app. simpl. by rewrite !app_nil_r. Qed.

Lemma run_app_nil_r (a : Run) : run_app a new_Run = a.
Proof.
  destruct a as [res tr]. unfold run_app. simpl.
  by rewrite result_app_nil_r, app_nil_r.
Qed.

Lemma result_app_assoc (a b c : ValidationResult) :
  result_app (result_app a b) c = result_app a (result_app b c).
Proof.
  unfold result_app. simpl. rewrite <- !(assoc_L (++)).
  by destruct (installation c).
Qed.

Lemma run_app_assoc (a b c : Run) :
  run_app (run_app a b) c = run_app a (run_app b c).
Proof.
  unfold run_app. simpl. by rewrite result_app_assoc, <- (assoc_L (++)).
Qed.

Lemma appends_id : appends (λ run, run).
Proof. intros run. by rewrite run_app_nil_r. Qed.

Ltac appends_base :=
  intros [[] ?]; unfold report, call, run_app, result_app; simpl;
  by rewrite ?app_nil_r.

Lemma appends_error (m : string) : appends (report (error m)).
Proof. appends_base. Qed.

Lemma appends_warn (m : string) : appends (report (warn m)).
Proof. appends_base. Qed.

Lemma appends_ok (m : string) : appends (report (ok m)).
Proof. appends_base. Qed.

Lemma appends_set_installation (i : InstallationInfo) :
  appends (report (set_installation i)).
Proof. appends_base. Qed.

Lemma appends_call (c : Call) : appends (call c).
Proof. appends_base. Qed.

Lemma appends_compose (f g : Run → Run) :
  appends f → appends g → appends (λ run, g (f run)).
Proof.
  intros Hf Hg run.
  rewrite Hg, Hf, run_app_assoc. f_equal. symmetry. apply Hg.
Qed.

Create HintDb appends.
#[global] Hint Resolve appends_id appends_error appends_warn appends_ok
  appends_set_installation appends_call : appends.

(** A step given by cases, each of which reports or calls. *)
Ltac appends_by_cases :=
  intros run; repeat case_match;
  destruct run as [[] ?];
  unfold report, call, error, warn, ok, set_installation, run_app, result_app;
  cbn [result trace errors warnings passed installation new_Run
       new_ValidationResult app];
  rewrite ?app_nil_r, <- ?(assoc_L (++)); reflexivity.

Section Steps.
Context (w : World) (script_path project_dir : Path).

Lemma appends_check_executable : appends (check_executable w script_path).
Proof. unfold check_executable. appends_by_cases. Qed.

Lemma check_shebang_appends (content : string) (run : Run) :
  check_shebang script_path content run
  = ((check_shebang script_path content new_Run).1.1,
     (check_shebang script_path content new_Run).1.2,
     run_app run (check_shebang script_path content new_Run).2).
Proof.
  unfold check_shebang.
  repeat case_match; cbn [fst snd]; repeat f_equal;
    revert run; fold (appends (λ run, run));
    try apply appends_id; try apply appends_error; try apply appends_ok;
    try apply appends_warn.
Qed.

Lemma check_syntax_appends (content : string) (is_python is_bash : bool) (run : Run) :
  check_syntax w script_path content is_python is_bash run
  = ((check_syntax w script_path content is_python is_bash new_Run).1,
     run_app run (check_syntax w script_path content is_python is_bash new_Run).2).
Proof.
  unfold check_syntax.
  repeat case_match; cbn [fst snd]; f_equal; revert run.
  all: try apply (appends_compose (call _) (report _)).
  all: auto with appends.
Qed.

Lemma appends_check_stdin (content : string) (is_python is_bash : bool) :
  appends (check_stdin content is_python is_bash).
Proof. unfold check_stdin. appends_by_cases. Qed.

Lemma appends_check_event (event : option string) (content : string) :
  appends (check_event event content).
Proof. unfold check_event. appends_by_cases. Qed.

Lemma appends_check_exit_codes (content : string) (is_python is_bash : bool) :
  appends (check_exit_codes content is_python is_bash).
Proof. unfold check_exit_codes. appends_by_cases. Qed.

Lemma appends_classify_probe (proc : CompletedProcess) :
  appends (classify_probe w proc).
Proof.
  unfold classify_probe, check_output. intros run.
  repeat case_match; simplify_eq;
    destruct run as [[] ?];
    unfold report, call, error, warn, ok, run_app, result_app;
    cbn [result trace errors warnings passed installation new_Run
         new_ValidationResult app];
    rewrite ?app_nil_r, <- ?(assoc_L (++)); reflexivity.
Qed.

Lemma appends_runtime_test (event : option string) (is_python is_bash : bool) :
  appends (runtime_test w script_path project_dir event is_python is_bash).
Proof.
  unfold runtime_test. intros run.
  destruct (truthy event && (is_python || is_bash)); [|by rewrite run_app_nil_r].
  cbv zeta. destruct (run_hook _ _ _ _ _).
  - rewrite appends_classify_probe, (appends_call _ run), run_app_assoc.
    f_equal. symmetry. apply appends_classify_probe.
  - revert run. apply (appends_compose (call _) (report _)); auto with appends.
  - revert run. apply (appends_compose (call _) (report _)); auto with appends.
Qed.

Lemma appends_validate_content (event_hint : option string) (content : string) :
  appends (validate_content w script_path project_dir event_hint content).
Proof.
  intros run. unfold validate_content.
  rewrite (check_shebang_appends content run).
  destruct (check_shebang script_path content new_Run) as [[is_python is_bash] r4].
  cbn [fst snd].
  rewrite (check_syntax_appends content is_python is_bash (run_app run r4)).
  rewrite (check_syntax_appends content is_python is_bash r4).
  destruct (check_syntax w script_path content is_python is_bash new_Run)
    as [continue r5].
  cbn [fst snd].
  destruct continue; cbn [negb].
  - set (tail := λ r,
      report (set_installation (check_installation_status w script_path project_dir))
        (runtime_test w script_path project_dir
           (settled_event script_path event_hint content) is_python is_bash
           (check_exit_codes content is_python is_bash
              (check_event (settled_event script_path event_hint content) content
                 (check_stdin content is_python is_bash r))))).
    assert (appends tail) as Htail.
    { subst tail.
      apply (appends_compose _ (report _)); [|auto with appends].
      apply (appends_compose _ (runtime_test _ _ _ _ _ _)); [|apply appends_runtime_test].
      apply (appends_compose _ (check_exit_codes _ _ _)); [|apply appends_check_exit_codes].
      apply (appends_compose _ (check_event _ _)); [|apply appends_check_event].
      apply appends_check_stdin. }
    change (tail (run_app (run_app run r4) r5)
            = run_app run (tail (run_app r4 r5))).
    rewrite (Htail (run_app (run_app run r4) r5)).
    rewrite (Htail (run_app r4 r5)).
    by rewrite !run_app_assoc.
  - by rewrite !run_app_assoc.
Qed.

End Steps.

(** ** The script report as a sum of its steps *)

Section Decomposition.
Context (w : World) (script_path project_dir : Path) (event_hint : option string).

(** Steps 1 and 2, then the rest. *)
Lemma validate_hook_script_exists :
  exists_ w script_path = true →
  validate_hook_script w script_path project_dir event_hint
  = check_executable w script_path
      (report (ok ("Script exists: " +:+ name script_path)) new_Run)
    ⊕ read_and_validate w script_path project_dir event_hint.
Proof.
  intros Hex. unfold validate_hook_script, read_and_validate.
  rewrite Hex. cbn [negb]. cbv zeta.
  destruct (read_text w script_path) as [content|e].
  - apply appends_validate_content.
  - apply appends_error.
Qed.

Lemma validate_hook_script_missing :
  exists_ w script_path = false →
  validate_hook_script w script_path project_dir event_hint
  = report (error ("Script not found: " +:+ path_str script_path)) new_Run.
Proof. intros Hex. unfold validate_hook_script. by rewrite Hex. Qed.

(** Steps 4 to 10, one summand per step; the sum stops after step 5 when
    the Python parser rejects the content. *)
Lemma validate_content_steps (content : string) :
  validate_content w script_path project_dir event_hint content new_Run
  = let '(is_python, is_bash, r4) := check_shebang script_path content new_Run in
    let '(continue, r5) :=
      check_syntax w script_path content is_python is_bash new_Run in
    let event := settled_event script_path event_hint content in
    if continue then
      r4 ⊕ r5
      ⊕ check_stdin content is_python is_bash new_Run
      ⊕ check_event event content new_Run
      ⊕ check_exit_codes content is_python is_bash new_Run
      ⊕ runtime_test w script_path project_dir event is_python is_bash new_Run
      ⊕ report (set_installation
                  (check_installation_status w script_path project_dir)) new_Run
    else r4 ⊕ r5.
Proof.
  unfold validate_content.
  destruct (check_shebang script_path content new_Run) as [[is_python is_bash] r4].
  rewrite (check_syntax_appends w script_path content is_python is_bash r4).
  destruct (check_syntax w script_path content is_python is_bash new_Run)
    as [continue r5].
  cbn [fst snd]. destruct continue; cbn [negb]; [|done].
  rewrite appends_set_installation. f_equal.
  rewrite appends_runtime_test. f_equal.
  rewrite appends_check_exit_codes. f_equal.
  rewrite appends_check_event. f_equal.
  by rewrite appends_check_stdin.
Qed.

End Decomposition.

(** ** The locator does not depend on permissions *)

Lemma fold_left_pointwise {A B : Type} (f g : A → B → A) (l : list B) (a : A) :
  (∀ a b, f a b = g a b) → fold_left f l a = fold_left g l a.
Proof.
  intros Hfg. revert a. induction l as [|b l IH]; intros a; simpl; [done|].
  by rewrite Hfg, IH.
Qed.

(** The locator does not read permissions. *)
Section Chmod.
Context (w : World) (p : Path).

Lemma scan_parts_chmod_x hook_name hook_abs event matcher parts acc :
  scan_parts (chmod_x w p) hook_name hook_abs event matcher parts acc
  = scan_parts w hook_name hook_abs event matcher parts acc.
Proof.
  induction parts as [|part rest IH]; simpl; [done|].
  by rewrite IH.
Qed.

Lemma scan_event_chmod_x hook_name hook_abs project_dir acc item :
  scan_event (chmod_x w p) hook_name hook_abs project_dir acc item
  = scan_event w hook_name hook_abs project_dir acc item.
Proof.
  unfold scan_event. apply fold_left_pointwise. intros acc1 config.
  unfold scan_config. apply fold_left_pointwise. intros acc2 hook.
  unfold scan_hook. by rewrite scan_parts_chmod_x.
Qed.

Lemma find_hook_in_settings_chmod_x settings_path hook_script project_dir :
  find_hook_in_settings (chmod_x w p) settings_path hook_script project_dir
  = find_hook_in_settings w settings_path hook_script project_dir.
Proof.
  unfold find_hook_in_settings. cbn [exists_ read_settings chmod_x].
  repeat case_match; try done.
  apply fold_left_pointwise. intros. apply scan_event_chmod_x.
Qed.

Lemma check_installation_status_chmod_x hook_script project_dir :
  check_installation_status (chmod_x w p) hook_script project_dir
  = check_installation_status w hook_script project_dir.
Proof.
  unfold check_installation_status.
  by rewrite !find_hook_in_settings_chmod_x.
Qed.

Lemma read_and_validate_chmod_x script_path project_dir event_hint :
  read_and_validate (chmod_x w p) script_path project_dir event_hint
  = read_and_validate w script_path project_dir event_hint.
Proof.
  unfold read_and_validate, validate_content.
  by rewrite check_installation_status_chmod_x.
Qed.

End Chmod.

(** ** Syntax errors *)

Lemma errors_run_app (a b : Run) :
  errors (result (a ⊕ b)) = errors (result a) ++ errors (result b).
Proof. reflexivity. Qed.

Lemma warnings_run_app (a b : Run) :
  warnings (result (a ⊕ b)) = warnings (result a) ++ warnings (result b).
Proof. reflexivity. Qed.

Lemma passed_run_app (a b : Run) :
  passed (result (a ⊕ b)) = passed (result a) ++ passed (result b).
Proof. reflexivity. Qed.

Lemma trace_run_app (a b : Run) : trace (a ⊕ b) = trace a ++ trace b.
Proof. reflexivity. Qed.

Lemma success_false (r : ValidationResult) (m : string) :
  m ∈ errors r → success r = false.
Proof. unfold success. by destruct (errors r); [intros ?%elem_of_nil|]. Qed.

(** Finds a finding that a step has just filed in a sum of steps. *)
Ltac find_in_sum :=
  first [ apply elem_of_cons; left; reflexivity
        | left; find_in_sum | right; find_in_sum ].
Ltac find_finding :=
  cbn [report call result trace errors warnings passed error warn ok
       new_Run new_ValidationResult app];
  rewrite ?elem_of_app; find_in_sum.

Section SyntaxErrors.
Context (w : World) (script_path project_dir : Path) (event_hint : option string).

(** The Python path: a syntax error ends the validation.  The report is
    what steps 1, 2 and 4 found plus the syntax error; no later step adds
    to it, the probe is not run and no installation record is attached. *)
Lemma python_syntax_error_stops (content : string) (e : SyntaxError) :
  exists_ w script_path = true →
  read_text w script_path = inl content →
  (check_shebang script_path content new_Run).1.1 = true →
  ast_parse w content = Some e →
  validate_hook_script w script_path project_dir event_hint
  = check_executable w script_path
      (report (ok ("Script exists: " +:+ name script_path)) new_Run)
    ⊕ (check_shebang script_path content new_Run).2
    ⊕ report (error ("Python syntax error: " +:+ msg e
                     +:+ " (line " +:+ lineno_str e +:+ ")"))
        (call call_ast_parse new_Run).
Proof.
  intros Hex Hread Hpy Hparse.
  rewrite validate_hook_script_exists by done.
  unfold read_and_validate. rewrite Hread, validate_content_steps.
  destruct (check_shebang script_path content new_Run) as [[is_python is_bash] r4].
  cbn [fst snd] in *. subst is_python.
  unfold check_syntax. rewrite Hparse.
  by rewrite run_app_assoc.
Qed.

(** C3, on the shell path: a failed [bash -n] records the syntax error and
    the report fails, but the validation goes on: the stdin check files
    its finding, the probe is run whenever an event is settled, and the
    installation record is attached. *)
Theorem bash_syntax_error_continues (content : string) (proc : CompletedProcess) :
  exists_ w script_path = true →
  read_text w script_path = inl content →
  (check_shebang script_path content new_Run).1 = (false, true) →
  bash_n w script_path = BashCompleted proc →
  returncode proc ≠ 0%Z →
  let r := validate_hook_script w script_path project_dir event_hint in
  let event := settled_event script_path event_hint content in
  ("❌ Bash syntax error: " +:+ Py.strip (stderr proc)) ∈ errors (result r)
  ∧ success (result r) = false
  ∧ ("✓ Reads input from stdin" ∈ passed (result r)
     ∨ "⚠️  May not read input from stdin" ∈ warnings (result r))
  ∧ (truthy event = true →
     call_run_hook bash (sample_input (default EmptyString event)) ∈ trace r)
  ∧ installation (result r)
    = Some (check_installation_status w script_path project_dir).
Proof.
  intros Hex Hread Hsh Hbash Hrc r event.
  assert (("❌ Bash syntax error: " +:+ Py.strip (stderr proc)) ∈ errors (result r))
    as Herr; [|split; [done|split; [by eapply success_false|]]];
    subst r; rewrite validate_hook_script_exists by done;
    unfold read_and_validate; rewrite Hread, validate_content_steps;
    destruct (check_shebang script_path content new_Run) as [[is_python is_bash] r4];
    cbn [fst snd] in Hsh; injection Hsh as -> ->;
    unfold check_syntax; rewrite Hbash, (bool_decide_eq_true_2 _ Hrc);
    fold event.
  - rewrite !errors_run_app. find_finding.
  - split; [|split].
    + unfold check_stdin.
      destruct (_ || _ || _); [left|right].
      * rewrite !passed_run_app. find_finding.
      * rewrite !warnings_run_app. find_finding.
    + intros Hev. rewrite !trace_run_app.
      unfold runtime_test. rewrite Hev. cbn [andb orb].
      destruct (run_hook _ _ _ _ _) as [proc'| |e'].
      * rewrite appends_classify_probe, trace_run_app. find_finding.
      * find_finding.
      * find_finding.
    + reflexivity.
Qed.

End SyntaxErrors.

(** The failing input: a shell hook whose [if] is never closed.  [bash -n]
    rejects it, and the validation still checks its stdin handling, runs it
    on the Notification payload and looks up its installation. *)
Lemma bash_syntax_error_continues_witness :
  let w := Fixture.world
             {[ path_str Fixture.notify_sh :=
                  {| Fixture.executable := true;
                     Fixture.content := Fixture.notify_source |} ]}
             ∅ None
             (BashCompleted (Fixture.completed 2 EmptyString
                "notify.sh: line 5: syntax error: unexpected end of file"))
             (RunCompleted (Fixture.completed 2 EmptyString
                "notify.sh: line 5: syntax error: unexpected end of file")) in
  let r := validate_hook_script w Fixture.notify_sh Fixture.project_dir None in
  errors (result r)
  = ["❌ Bash syntax error: notify.sh: line 5: syntax error: unexpected end of file"]
  ∧ "✓ Reads input from stdin" ∈ passed (result r)
  ∧ trace r = [call_bash_n; call_run_hook bash (sample_input "Notification")]
  ∧ installation (result r)
    = Some (check_installation_status w Fixture.notify_sh Fixture.project_dir).
Proof.
  intros w r.
  pose proof (bash_syntax_error_continues w Fixture.notify_sh Fixture.project_dir None
                Fixture.notify_source
                (Fixture.completed 2 EmptyString
                   "notify.sh: line 5: syntax error: unexpected end of file")
                ltac:(vm_compute; reflexivity) ltac:(vm_compute; reflexivity)
                ltac:(vm_compute; reflexivity) ltac:(vm_compute; reflexivity)
                ltac:(discriminate))
    as (_ & _ & _ & _ & Hinst).
  split; [vm_compute; reflexivity|].
  split; [by_compute|].
  split; [vm_compute; reflexivity|].
  exact Hinst.
Defined.

(** ** Counting one error line *)

Lemma occurrences_app (x : string) (l1 l2 : list string) :
  occurrences x (l1 ++ l2) = occurrences x l1 + occurrences x l2.
Proof. unfold occurrences. by rewrite filter_app, length_app. Qed.

Lemma occurrences_absent (x : string) (l : list string) :
  Forall (λ y, y ≠ x) l → occurrences x l = 0.
Proof.
  unfold occurrences. induction 1 as [|y l Hy _ IH]; [done|].
  by rewrite filter_cons_False.
Qed.

Lemma occurrences_here (x : string) : occurrences x [x] = 1.
Proof. unfold occurrences. by rewrite filter_cons_True. Qed.

(** Every error line of the list is some other line than [x]. *)
Ltac other_lines :=
  repeat case_match;
  cbn [report call result errors error warn ok set_installation new_Run
       new_ValidationResult app fst snd];
  repeat constructor; discriminate.

Section OtherErrors.
Context (w : World) (script_path project_dir : Path).

Lemma check_event_errors (event : option string) (content : string) :
  errors (result (check_event event content new_Run))
  = if truthy event
       && bool_decide (default EmptyString event ∈ ["Stop"; "SubagentStop"])
       && negb (Py.contains content "stop_hook_active")
    then [LOOP_RISK] else [].
Proof. unfold check_event. by repeat case_match. Qed.

Lemma check_event_trace (event : option string) (content : string) :
  trace (check_event event content new_Run) = [].
Proof. unfold check_event. by repeat case_match. Qed.

Lemma check_executable_errors (m x : string) :
  x ≠ NOT_EXECUTABLE →
  occurrences x (errors (result (check_executable w script_path
                                   (report (ok m) new_Run)))) = 0.
Proof.
  intros Hx. apply occurrences_absent. unfold check_executable.
  case_match; cbn; repeat constructor. intros <-. by apply Hx.
Qed.

Lemma check_shebang_no_loop_risk (content : string) :
  occurrences LOOP_RISK
    (errors (result (check_shebang script_path content new_Run).2)) = 0.
Proof. apply occurrences_absent. unfold check_shebang. other_lines. Qed.

Lemma check_syntax_no_loop_risk (content : string) (is_python is_bash : bool) :
  occurrences LOOP_RISK
    (errors (result (check_syntax w script_path content is_python is_bash
                       new_Run).2)) = 0.
Proof. apply occurrences_absent. unfold check_syntax. other_lines. Qed.

Lemma check_stdin_errors (content : string) (is_python is_bash : bool) :
  errors (result (check_stdin content is_python is_bash new_Run)) = [].
Proof. unfold check_stdin. by repeat case_match. Qed.

Lemma check_exit_codes_errors (content : string) (is_python is_bash : bool) :
  errors (result (check_exit_codes content is_python is_bash new_Run)) = [].
Proof. unfold check_exit_codes. by repeat case_match. Qed.

Lemma runtime_test_no_loop_risk (event : option string) (is_python is_bash : bool) :
  occurrences LOOP_RISK
    (errors (result (runtime_test w script_path project_dir event
                       is_python is_bash new_Run))) = 0.
Proof.
  apply occurrences_absent. unfold runtime_test, classify_probe, check_output.
  repeat case_match; simplify_eq;
    cbn [report call result errors error warn ok new_Run new_ValidationResult app];
    repeat constructor; discriminate.
Qed.

End OtherErrors.

(** ** A script without a shebang *)

Section MissingShebang.
Context (w : World) (script_path project_dir : Path) (event_hint : option string).

(** C4, amended: for a readable script whose first line does not begin
    with [#!], the report is the sum of steps 1 and 2, the missing-shebang
    error, the event check and the installation record.  The
    missing-shebang error occurs once; neither interpreter kind is set (the
    file extension is consulted for an unusual shebang only), so the
    syntax check, the stdin check, the exit-code check and the probe add
    nothing, and neither parser nor subprocess is called. *)
Theorem missing_shebang_skips_interpreter_checks (content : string) :
  exists_ w script_path = true →
  read_text w script_path = inl content →
  Py.startswith (Py.first_line content) "#!" = false →
  let r := validate_hook_script w script_path project_dir event_hint in
  r = check_executable w script_path
        (report (ok ("Script exists: " +:+ name script_path)) new_Run)
      ⊕ report (error "Missing shebang (should start with #!/usr/bin/env python3 or #!/bin/bash)")
          new_Run
      ⊕ check_event (settled_event script_path event_hint content) content new_Run
      ⊕ report (set_installation
                  (check_installation_status w script_path project_dir)) new_Run
  ∧ occurrences MISSING_SHEBANG (errors (result r)) = 1
  ∧ trace r = [].
Proof.
  intros Hex Hread Hline r.
  assert (r = check_executable w script_path
                (report (ok ("Script exists: " +:+ name script_path)) new_Run)
              ⊕ report (error "Missing shebang (should start with #!/usr/bin/env python3 or #!/bin/bash)")
                  new_Run
              ⊕ check_event (settled_event script_path event_hint content)
                  content new_Run
              ⊕ report (set_installation
                          (check_installation_status w script_path project_dir))
                  new_Run) as Hr.
  { subst r. rewrite validate_hook_script_exists by done.
    unfold read_and_validate. rewrite Hread, validate_content_steps.
    unfold check_shebang. rewrite Hline. cbn [negb].
    unfold check_syntax, check_stdin, check_exit_codes, runtime_test.
    rewrite andb_false_r.
    rewrite !run_app_nil_r. by rewrite <- !run_app_assoc. }
  split; [done|]. rewrite Hr. split.
  - rewrite !errors_run_app, !occurrences_app.
    rewrite check_executable_errors by discriminate.
    rewrite check_event_errors.
    by case_match.
  - rewrite !trace_run_app, check_event_trace.
    unfold check_executable. by case_match.
Qed.

End MissingShebang.

(** The guard script without its shebang line.  It ends in [.py], reads JSON
    from stdin and exits with 0 and 2, and the event is inferred; yet only
    the missing-shebang error is recorded: no syntax check, no stdin or
    exit-code finding, no probe. *)
Lemma no_shebang_no_extension_fallback :
  let w := Fixture.world
             {[ path_str Fixture.guard_py :=
                  {| Fixture.executable := true;
                     Fixture.content := Fixture.guard_body |} ]}
             ∅ None BashFileNotFound
             (RunCompleted (Fixture.completed 0 EmptyString EmptyString)) in
  let r := validate_hook_script w Fixture.guard_py Fixture.project_dir None in
  Py.startswith (Py.first_line Fixture.guard_body) "#!" = false
  ∧ suffix Fixture.guard_py = ".py"
  ∧ Py.contains Fixture.guard_body "json.load(sys.stdin)" = true
  ∧ Py.contains Fixture.guard_body "sys.exit(2)" = true
  ∧ errors (result r) = [MISSING_SHEBANG]
  ∧ warnings (result r) = []
  ∧ passed (result r)
    = ["✓ Script exists: guard.py"; "✓ Script is executable";
       "✓ Detected event type: PreToolUse"]
  ∧ (call_ast_parse ∉ trace r)
  ∧ (call_run_hook python3 (sample_input "PreToolUse") ∉ trace r).
Proof.
  intros w r.
  assert (trace r = []) as Htrace by (vm_compute; reflexivity).
  rewrite Htrace.
  repeat split; try (vm_compute; reflexivity); apply not_elem_of_nil.
Qed.

(** The same script, for the amended statement. *)
Lemma missing_shebang_skips_interpreter_checks_witness :
  let w := Fixture.world
             {[ path_str Fixture.guard_py :=
                  {| Fixture.executable := true;
                     Fixture.content := Fixture.guard_body |} ]}
             ∅ None BashFileNotFound
             (RunCompleted (Fixture.completed 0 EmptyString EmptyString)) in
  let r := validate_hook_script w Fixture.guard_py Fixture.project_dir None in
  occurrences MISSING_SHEBANG (errors (result r)) = 1 ∧ trace r = [].
Proof.
  intros w r.
  exact (proj2 (missing_shebang_skips_interpreter_checks w Fixture.guard_py
                  Fixture.project_dir None Fixture.guard_body
                  ltac:(vm_compute; reflexivity) ltac:(vm_compute; reflexivity)
                  ltac:(vm_compute; reflexivity))).
Defined.

(** ** Stop hooks without the reentry guard *)

Section StopGuard.
Context (w : World) (script_path project_dir : Path) (event_hint : option string).

(** C8, amended: for a script that is read and not rejected by the Python
    parser, whose event (hint or inference) is Stop or SubagentStop and
    whose content does not mention [stop_hook_active], the infinite-loop
    error is recorded exactly once and the report fails.  The errors of the
    report are those of the executable, shebang and syntax checks, then the
    infinite-loop error, then those of the probe. *)
Theorem stop_hook_without_guard (content : string) :
  exists_ w script_path = true →
  read_text w script_path = inl content →
  ((check_shebang script_path content new_Run).1.1 = true →
   ast_parse w content = None) →
  settled_event script_path event_hint content ∈ [Some "Stop"; Some "SubagentStop"] →
  Py.contains content "stop_hook_active" = false →
  let r := validate_hook_script w script_path project_dir event_hint in
  let is_python := (check_shebang script_path content new_Run).1.1 in
  let is_bash := (check_shebang script_path content new_Run).1.2 in
  occurrences LOOP_RISK (errors (result r)) = 1
  ∧ success (result r) = false
  ∧ errors (result r)
    = errors (result (check_executable w script_path
                        (report (ok ("Script exists: " +:+ name script_path))
                           new_Run)))
      ++ errors (result (check_shebang script_path content new_Run).2)
      ++ errors (result (check_syntax w script_path content is_python is_bash
                           new_Run).2)
      ++ [LOOP_RISK]
      ++ errors (result (runtime_test w script_path project_dir
                           (settled_event script_path event_hint content)
                           is_python is_bash new_Run)).
Proof.
  intros Hex Hread Hparse Hevent Hguard r is_python is_bash.
  assert (errors (result r)
          = errors (result (check_executable w script_path
                              (report (ok ("Script exists: " +:+ name script_path))
                                 new_Run)))
            ++ errors (result (check_shebang script_path content new_Run).2)
            ++ errors (result (check_syntax w script_path content is_python is_bash
                                 new_Run).2)
            ++ [LOOP_RISK]
            ++ errors (result (runtime_test w script_path project_dir
                                 (settled_event script_path event_hint content)
                                 is_python is_bash new_Run))) as Herrors.
  { subst r is_python is_bash. rewrite validate_hook_script_exists by done.
    unfold read_and_validate. rewrite Hread, validate_content_steps.
    destruct (check_shebang script_path content new_Run) as [[is_python is_bash] r4].
    cbn [fst snd] in *.
    assert ((check_syntax w script_path content is_python is_bash new_Run).1 = true)
      as Hcont.
    { unfold check_syntax. destruct is_python; [by rewrite Hparse|].
      by repeat case_match. }
    destruct (check_syntax w script_path content is_python is_bash new_Run)
      as [continue r5].
    cbn [fst snd] in *. subst continue.
    rewrite !errors_run_app.
    rewrite check_stdin_errors, check_exit_codes_errors, check_event_errors.
    rewrite Hguard.
    assert (truthy (settled_event script_path event_hint content)
            && bool_decide (default EmptyString
                              (settled_event script_path event_hint content)
                            ∈ ["Stop"; "SubagentStop"]) = true) as ->.
    { apply elem_of_cons in Hevent as [->| ->%list_elem_of_singleton];
        by vm_compute. }
    cbn [andb negb report set_installation result errors new_Run
         new_ValidationResult].
    by rewrite !app_nil_r, <- !(assoc_L (++)). }
  assert (occurrences LOOP_RISK (errors (result r)) = 1) as Hone.
  { rewrite Herrors, !occurrences_app.
    rewrite check_executable_errors by discriminate.
    rewrite check_shebang_no_loop_risk, check_syntax_no_loop_risk.
    by rewrite runtime_test_no_loop_risk, occurrences_here. }
  split; [done|]. split; [|done].
  unfold success, occurrences in *.
  destruct (errors (result r)); [discriminate|done].
Qed.

End StopGuard.

(** A Python hook with a syntax error (a call that is never closed),
    validated for the Stop event: its content never mentions
    [stop_hook_active], and the only error is the syntax error. *)
Lemma stop_hook_with_syntax_error :
  let w := Fixture.world
             {[ path_str Fixture.force_continue_py :=
                  {| Fixture.executable := true;
                     Fixture.content := Fixture.force_continue_source |} ]}
             ∅ (Some Fixture.never_closed) BashFileNotFound
             Fixture.never_closed_run in
  let r := validate_hook_script w Fixture.force_continue_py Fixture.project_dir
             (Some "Stop") in
  settled_event Fixture.force_continue_py (Some "Stop")
    Fixture.force_continue_source
  = Some "Stop"
  ∧ Py.contains Fixture.force_continue_source "stop_hook_active" = false
  ∧ errors (result r) = ["❌ Python syntax error: '(' was never closed (line 3)"]
  ∧ occurrences LOOP_RISK (errors (result r)) = 0.
Proof. intros w r. repeat split; vm_compute; reflexivity. Qed.

(** A Stop hook without the guard that parses: the infinite-loop error is
    its only error. *)
Lemma stop_hook_without_guard_witness :
  let w := Fixture.world
             {[ path_str Fixture.keep_going_py :=
                  {| Fixture.executable := true;
                     Fixture.content := Fixture.keep_going_source |} ]}
             ∅ None BashFileNotFound
             (RunCompleted (Fixture.completed 2 EmptyString EmptyString)) in
  let r := validate_hook_script w Fixture.keep_going_py Fixture.project_dir
             (Some "Stop") in
  occurrences LOOP_RISK (errors (result r)) = 1
  ∧ success (result r) = false
  ∧ errors (result r) = [LOOP_RISK].
Proof.
  intros w r.
  destruct (stop_hook_without_guard w Fixture.keep_going_py Fixture.project_dir
              (Some "Stop") Fixture.keep_going_source
              ltac:(vm_compute; reflexivity) ltac:(vm_compute; reflexivity)
              ltac:(intros _; reflexivity) ltac:(by_compute)
              ltac:(vm_compute; reflexivity))
    as (Hone & Hfail & Herrors).
  split; [exact Hone|]. split; [exact Hfail|].
  subst r. rewrite Herrors. vm_compute. reflexivity.
Defined.

(** ** Settings validation *)

Lemma adds_error (m : string) : adds (error m).
Proof. intros []. unfold error, result_app. simpl. by rewrite ?app_nil_r. Qed.

Lemma adds_warn (m : string) : adds (warn m).
Proof. intros []. unfold warn, result_app. simpl. by rewrite ?app_nil_r. Qed.

Lemma adds_ok (m : string) : adds (ok m).
Proof. intros []. unfold ok, result_app. simpl. by rewrite ?app_nil_r. Qed.

Lemma adds_compose (f g : ValidationResult → ValidationResult) :
  adds f → adds g → adds (λ r, g (f r)).
Proof.
  intros Hf Hg r. rewrite Hg, Hf, result_app_assoc. f_equal. symmetry. apply Hg.
Qed.

Section SettingsSteps.
Context (w : World) (project_dir : Path).

Lemma adds_validate_hook_entry schema event i j hook :
  adds (validate_hook_entry w project_dir schema event i j hook).
Proof.
  unfold validate_hook_entry. intros r.
  repeat case_match;
    destruct r; unfold error, warn, ok, result_app;
    cbn [errors warnings passed installation new_ValidationResult app];
    by rewrite ?app_nil_r, <- ?(assoc_L (++)).
Qed.

Lemma adds_validate_hook_list schema event i hook_list :
  ∀ j, adds (validate_hook_list w project_dir schema event i j hook_list).
Proof.
  induction hook_list as [|hook rest IH]; intros j r; simpl.
  - by rewrite result_app_nil_r.
  - rewrite IH, adds_validate_hook_entry, result_app_assoc.
    f_equal. symmetry. apply IH.
Qed.

Lemma adds_validate_config schema event i config :
  adds (validate_config w project_dir schema event i config).
Proof.
  unfold validate_config. intros r. case_match.
  - rewrite adds_validate_hook_list, adds_warn, result_app_assoc.
    f_equal. symmetry. apply adds_validate_hook_list.
  - apply adds_validate_hook_list.
Qed.

Lemma adds_validate_configs schema event configs :
  ∀ i, adds (validate_configs w project_dir schema event i configs).
Proof.
  induction configs as [|config rest IH]; intros i r; simpl.
  - by rewrite result_app_nil_r.
  - rewrite IH, adds_validate_config, result_app_assoc.
    f_equal. symmetry. apply IH.
Qed.

Lemma adds_validate_event item :
  adds (λ r, validate_event w project_dir r item).
Proof.
  destruct item as [event configs]. unfold validate_event.
  destruct (EVENT_SCHEMAS !! event).
  - apply adds_validate_configs.
  - apply adds_error.
Qed.

(** The keys of a document are validated one after the other, each on its
    own. *)
Lemma fold_validate_event hooks r :
  fold_left (validate_event w project_dir) hooks r
  = result_app r (events_report w project_dir hooks).
Proof.
  unfold events_report. revert r.
  induction hooks as [|item rest IH]; intros r; simpl.
  - by rewrite result_app_nil_r.
  - rewrite IH, (adds_validate_event item r), result_app_assoc.
    f_equal. symmetry. apply IH.
Qed.

Lemma events_report_app hooks1 hooks2 :
  events_report w project_dir (hooks1 ++ hooks2)
  = result_app (events_report w project_dir hooks1)
               (events_report w project_dir hooks2).
Proof.
  unfold events_report at 1. rewrite fold_left_app.
  by rewrite fold_validate_event.
Qed.

(** An event key outside the registry: one error, whatever is configured
    under it. *)
Lemma events_report_unknown event configs :
  EVENT_SCHEMAS !! event = None →
  events_report w project_dir [(event, configs)]
  = error ("Unknown event type: " +:+ event) new_ValidationResult.
Proof. intros Hev. unfold events_report. simpl. by rewrite Hev. Qed.

(** A document with event keys: the two header lines, then the keys. *)
Lemma validate_settings_hooks (settings_path : Path) (level_name : string)
    (settings : Settings) (hooks : list (string * list HookConfig)) :
  exists_ w settings_path = true →
  read_settings w settings_path = inr settings →
  s_hooks settings = Some hooks →
  hooks ≠ [] →
  validate_settings w settings_path project_dir level_name
  = result_app
      (ok (display_name settings_path level_name +:+ ": "
           +:+ pretty (length hooks) +:+ " event type(s) configured")
         (ok (display_name settings_path level_name +:+ ": Valid JSON")
            new_ValidationResult))
      (events_report w project_dir hooks).
Proof.
  intros Hex Hread Hhooks Hne. unfold validate_settings.
  rewrite Hex, Hread, Hhooks. cbn [negb default].
  destruct hooks as [|item hooks]; [done|].
  apply fold_validate_event.
Qed.

(** C9: a settings file that does not exist yields a report with no
    error and no warning, whose only line is the informational "File not
    found", and which passes.  In a document with an event key outside
    the registry, that key contributes the error "Unknown event type" and
    nothing else, whatever is configured under it, and the keys before
    and after it contribute what they contribute on their own. *)
Theorem unknown_event_key_is_one_error (settings_path : Path) (level_name : string) :
  (exists_ w settings_path = false →
     validate_settings w settings_path project_dir level_name
     = {| errors := [];
          warnings := [];
          passed := ["ℹ️  " +:+ display_name settings_path level_name
                     +:+ ": File not found (no hooks at this level)"];
          installation := None |}
     ∧ success (validate_settings w settings_path project_dir level_name) = true)
  ∧ (∀ settings before event configs after,
       exists_ w settings_path = true →
       read_settings w settings_path = inr settings →
       s_hooks settings = Some (before ++ (event, configs) :: after) →
       EVENT_SCHEMAS !! event = None →
       let r := validate_settings w settings_path project_dir level_name in
       errors r
       = errors (events_report w project_dir before)
         ++ ["❌ Unknown event type: " +:+ event]
         ++ errors (events_report w project_dir after)
       ∧ warnings r
         = warnings (events_report w project_dir before)
           ++ warnings (events_report w project_dir after)
       ∧ passed r
         = ["✓ " +:+ display_name settings_path level_name +:+ ": Valid JSON";
            "✓ " +:+ display_name settings_path level_name +:+ ": "
            +:+ pretty (length (before ++ (event, configs) :: after))
            +:+ " event type(s) configured"]
           ++ passed (events_report w project_dir before)
           ++ passed (events_report w project_dir after)).
Proof.
  split.
  - intros Hex. unfold validate_settings. by rewrite Hex.
  - intros settings before event configs after Hex Hread Hhooks Hev r.
    subst r.
    rewrite (validate_settings_hooks settings_path level_name settings
               (before ++ (event, configs) :: after)) by (done || by destruct before).
    rewrite (events_report_app before ((event, configs) :: after)).
    change ((event, configs) :: after) with ([(event, configs)] ++ after).
    rewrite (events_report_app [(event, configs)] after).
    rewrite events_report_unknown by done.
    unfold result_app, ok, error.
    cbn [errors warnings passed installation new_ValidationResult app].
    by rewrite ?app_nil_r.
Qed.

End SettingsSteps.

(** A project whose settings misspell one event key, and which has no local
    settings file. *)
Lemma unknown_event_key_is_one_error_witness :
  let w := Fixture.world
             {[ path_str Fixture.guard_py :=
                  {| Fixture.executable := true;
                     Fixture.content := Fixture.guard_source |} ]}
             {[ Fixture.project_settings := Fixture.misspelt_settings ]}
             None BashFileNotFound RunTimeoutExpired in
  let project := Fixture.path Fixture.project_settings in
  let local := Fixture.path "/proj/.claude/settings.local.json" in
  errors (validate_settings w project Fixture.project_dir "PROJECT")
  = ["❌ Unknown event type: PreCommit"]
  ∧ passed (validate_settings w project Fixture.project_dir "PROJECT")
    = ["✓ PROJECT: Valid JSON"; "✓ PROJECT: 3 event type(s) configured";
       "✓ PreToolUse: Script exists: guard.py";
       "✓ Stop: Prompt-based hook configured"]
  ∧ errors (validate_settings w local Fixture.project_dir "LOCAL") = []
  ∧ passed (validate_settings w local Fixture.project_dir "LOCAL")
    = ["ℹ️  LOCAL: File not found (no hooks at this level)"]
  ∧ success (validate_settings w local Fixture.project_dir "LOCAL") = true.
Proof.
  intros w project local.
  destruct (proj2 (unknown_event_key_is_one_error w Fixture.project_dir project
                     "PROJECT")
              Fixture.misspelt_settings [Fixture.guard_entry] "PreCommit"
              (Fixture.misspelt_entry.2) [Fixture.review_entry]
              ltac:(vm_compute; reflexivity) ltac:(vm_compute; reflexivity)
              eq_refl ltac:(vm_compute; reflexivity))
    as (Herrors & _ & Hpassed).
  destruct (proj1 (unknown_event_key_is_one_error w Fixture.project_dir local "LOCAL")
              ltac:(vm_compute; reflexivity))
    as (Hmissing & Hsuccess).
  split; [rewrite Herrors; vm_compute; reflexivity|].
  split; [rewrite Hpassed; vm_compute; reflexivity|].
  rewrite Hmissing. split; [reflexivity|]. split; [reflexivity|].
  rewrite <- Hmissing. exact Hsuccess.
Defined.

(** ** The installation locator: which tokens match *)

Section Tokens.
Context (w : World) (hook_name hook_abs event matcher : string).

(** The decision taken on one token that contains the file name. *)
Lemma scan_parts_cons (part : string) (rest : list string) (acc : Found) :
  scan_parts w hook_name hook_abs event matcher (part :: rest) acc
  = if decide (token_matches w hook_name hook_abs part)
    then record_match event matcher acc
    else scan_parts w hook_name hook_abs event matcher rest acc.
Proof.
  cbn [scan_parts].
  destruct (decide (token_matches w hook_name hook_abs part)) as [Hm|Hm].
  - destruct Hm as [Hin [Hres|Hend]]; rewrite Hin.
    + rewrite Hres. by rewrite bool_decide_eq_true_2.
    + rewrite Hend. by case_match.
  - unfold token_matches in Hm.
    destruct (Py.contains part hook_name) eqn:Hin; [|done].
    destruct (Py.endswith part hook_name) eqn:Hend; [tauto|].
    destruct (resolve w part) as [cmd_path|] eqn:Hres; [|done].
    rewrite bool_decide_eq_false_2; [done|].
    intros ->. tauto.
Qed.

(** C1, amended: among the tokens of a command, a token that contains the
    file name registers the hook when it resolves to the script's own
    path, and also when it ends with the file name, whether its
    resolution failed or gave another path; the first such token records
    the match once, and without such a token nothing is recorded. *)
Theorem scan_parts_matches (parts : list string) (acc : Found) :
  (Exists (token_matches w hook_name hook_abs) parts →
     scan_parts w hook_name hook_abs event matcher parts acc
     = record_match event matcher acc)
  ∧ (Forall (λ part, ¬ token_matches w hook_name hook_abs part) parts →
     scan_parts w hook_name hook_abs event matcher parts acc = acc)
  ∧ (∀ part other,
       Py.contains part hook_name = true →
       resolve w part = Some other →
       other ≠ hook_abs →
       scan_parts w hook_name hook_abs event matcher [part] acc
       = if Py.endswith part hook_name then record_match event matcher acc
         else acc).
Proof.
  split; [|split].
  - induction 1 as [part rest Hpart|part rest _ IH];
      rewrite scan_parts_cons.
    + by rewrite decide_True.
    + by destruct (decide _).
  - induction 1 as [|part rest Hpart _ IH]; [done|].
    rewrite scan_parts_cons. by rewrite decide_False.
  - intros part other Hin Hres Hne.
    cbn [scan_parts]. rewrite Hin, Hres.
    by rewrite bool_decide_eq_false_2.
Qed.

End Tokens.

(** The guard script registered under a path of another directory: the
    token resolves, to a path that is not the script's, and the hook is
    reported as registered for PreToolUse all the same. *)
Lemma other_path_same_name_matches :
  let w := Fixture.world ∅
             {[ Fixture.project_settings :=
                  Fixture.one_hook "PreToolUse" "/opt/tools/guard.py" ]}
             None BashFileNotFound RunTimeoutExpired in
  resolve w "/opt/tools/guard.py" = Some "/opt/tools/guard.py"
  ∧ "/opt/tools/guard.py" ≠ resolved Fixture.guard_py
  ∧ find_hook_in_settings w (Fixture.path Fixture.project_settings)
      Fixture.guard_py Fixture.project_dir
    = (true, ["PreToolUse"], []).
Proof.
  intros w. split; [reflexivity|]. split; [discriminate|].
  vm_compute. reflexivity.
Qed.

(** The same token, for the amended statement. *)
Lemma scan_parts_matches_witness :
  let w := Fixture.world ∅ ∅ None BashFileNotFound RunTimeoutExpired in
  scan_parts w "guard.py" (resolved Fixture.guard_py) "PreToolUse" "*"
    ["python3"; "/opt/tools/guard.py"] (false, [], [])
  = (true, ["PreToolUse"], []).
Proof.
  intros w.
  apply (proj1 (scan_parts_matches w "guard.py" (resolved Fixture.guard_py)
                  "PreToolUse" "*" ["python3"; "/opt/tools/guard.py"]
                  (false, [], []))).
  apply Exists_cons_tl, Exists_cons_hd.
  split; [vm_compute; reflexivity|]. right. vm_compute; reflexivity.
Defined.

(** ** Facts about the string primitives *)

Section StringFacts.
Implicit Types (s t p a b old new : string) (c : ascii).

Lemma str_app_cons c a b : String c a +:+ b = String c (a +:+ b).
Proof. reflexivity. Qed.

Lemma str_app_nil_r s : s +:+ EmptyString = s.
Proof. induction s as [|c s IH]; [done|]. by rewrite str_app_cons, IH. Qed.

Lemma str_app_assoc a b s : (a +:+ b) +:+ s = a +:+ b +:+ s.
Proof. induction a as [|c a IH]; [done|]. by rewrite !str_app_cons, IH. Qed.

Lemma str_app_nil_l s : EmptyString +:+ s = s.
Proof. reflexivity. Qed.

Lemma prefix_nil s : String.prefix EmptyString s = true.
Proof. by destruct s. Qed.

Lemma prefix_cons c p c' s :
  String.prefix (String c p) (String c' s)
  = bool_decide (c = c') && String.prefix p s.
Proof.
  cbn. destruct (ascii_dec c c') as [->|Hne].
  - by rewrite bool_decide_eq_true_2.
  - by rewrite bool_decide_eq_false_2.
Qed.


Lemma prefix_app_self p s : String.prefix p (p +:+ s) = true.
Proof.
  induction p as [|c p IH]; [apply prefix_nil|].
  rewrite str_app_cons, prefix_cons, IH. by rewrite bool_decide_eq_true_2.
Qed.

Lemma prefix_refl p : String.prefix p p = true.
Proof. rewrite <- (str_app_nil_r p) at 2. apply prefix_app_self. Qed.

(** A prefix of a prefix. *)
Lemma prefix_app_l p q s :
  String.prefix (p +:+ q) s = true → String.prefix p s = true.
Proof.
  revert s. induction p as [|c p IH]; intros s; [by rewrite prefix_nil|].
  destruct s as [|c' s]; [done|].
  rewrite str_app_cons, !prefix_cons.
  intros [Hc Hp]%andb_true_iff. rewrite Hc. cbn [andb]. by apply IH.
Qed.

Lemma prefix_app_inv p q s :
  String.prefix (p +:+ q) (p +:+ s) = String.prefix q s.
Proof.
  induction p as [|c p IH]; [done|].
  rewrite !str_app_cons, prefix_cons, IH. by rewrite bool_decide_eq_true_2.
Qed.

(** A prefix of [a +:+ t] lies within [a], or covers [a] and goes on
    into [t]. *)
Lemma prefix_app_cases p a t :
  String.prefix p (a +:+ t) = true →
  String.prefix p a = true
  ∨ ∃ p2, p = a +:+ p2 ∧ String.prefix p2 t = true.
Proof.
  revert a. induction p as [|c p IH]; intros a Hp.
  { left. apply prefix_nil. }
  destruct a as [|c' a].
  { right. by exists (String c p). }
  rewrite str_app_cons, prefix_cons in Hp.
  apply andb_true_iff in Hp as [Hc Hp]. apply bool_decide_eq_true in Hc as <-.
  destruct (IH a Hp) as [Hin|(p2 & -> & Hp2)].
  - left. rewrite prefix_cons, Hin. by rewrite bool_decide_eq_true_2.
  - right. by exists p2.
Qed.

Lemma contains_nil p : Py.contains EmptyString p = String.prefix p EmptyString.
Proof. unfold Py.contains. by rewrite orb_false_r. Qed.

Lemma contains_cons c s p :
  Py.contains (String c s) p = String.prefix p (String c s) || Py.contains s p.
Proof. reflexivity. Qed.

Lemma contains_prefix s p : String.prefix p s = true → Py.contains s p = true.
Proof. intros Hp. destruct s; [by rewrite contains_nil|]. by rewrite contains_cons, Hp. Qed.

Lemma contains_false_prefix s p :
  Py.contains s p = false → String.prefix p s = false.
Proof.
  intros Hc. destruct (String.prefix p s) eqn:Hp; [|done].
  by rewrite (contains_prefix s p Hp) in Hc.
Qed.

Lemma contains_false_tail c s p :
  Py.contains (String c s) p = false → Py.contains s p = false.
Proof. rewrite contains_cons. by intros [_ ?]%orb_false_iff. Qed.

Lemma contains_false_suffix a1 a2 p :
  Py.contains (a1 +:+ a2) p = false → Py.contains a2 p = false.
Proof.
  induction a1 as [|c a1 IH]; [done|].
  rewrite str_app_cons. intros H%contains_false_tail. by apply IH.
Qed.

(** No occurrence in [a], none in [b], none across: none in [a +:+ b]. *)
Lemma contains_app_false a b p :
  Py.contains a p = false →
  Py.contains b p = false →
  (∀ a1 a2, a = a1 +:+ a2 → a2 ≠ EmptyString →
     String.prefix p (a2 +:+ b) = false) →
  Py.contains (a +:+ b) p = false.
Proof.
  intros Ha Hb Hacross. induction a as [|c a IH]; [done|].
  rewrite str_app_cons, contains_cons. apply orb_false_iff. split.
  - by apply (Hacross EmptyString (String c a)).
  - apply IH.
    + by apply contains_false_tail in Ha.
    + intros a1 a2 -> Hne. by apply (Hacross (String c a1) a2).
Qed.

Lemma endswith_app_r a s : Py.endswith (a +:+ s) s = true.
Proof.
  induction a as [|c a IH].
  - rewrite str_app_nil_l. destruct s; cbn [Py.endswith]; by rewrite String.eqb_refl.
  - rewrite str_app_cons. cbn [Py.endswith]. rewrite IH. apply orb_true_r.
Qed.

(** *** [replace] *)

Lemma replace_nonempty s old new :
  old ≠ EmptyString → Py.replace s old new = Py.replace_go old new 0 s.
Proof. unfold Py.replace. by destruct old. Qed.

Lemma replace_go_skip old new a t :
  Py.replace_go old new (String.length a) (a +:+ t) = Py.replace_go old new 0 t.
Proof. induction a as [|c a IH]; [by destruct t|]. apply IH. Qed.

(** Nothing to replace. *)
Lemma replace_go_absent old new s :
  Py.contains s old = false → Py.replace_go old new 0 s = s.
Proof.
  induction s as [|c s IH]; [done|]. intros Hc.
  cbn [Py.replace_go]. rewrite (contains_false_prefix _ _ Hc).
  f_equal. apply IH. by apply contains_false_tail in Hc.
Qed.

(** No occurrence starts within [a]: [a] is copied. *)
Lemma replace_go_pass old new a rest :
  (∀ a1 a2, a = a1 +:+ a2 → a2 ≠ EmptyString →
     String.prefix old (a2 +:+ rest) = false) →
  Py.replace_go old new 0 (a +:+ rest) = a +:+ Py.replace_go old new 0 rest.
Proof.
  induction a as [|c a IH]; intros Hno; [done|].
  rewrite !str_app_cons. cbn [Py.replace_go].
  rewrite <- str_app_cons, (Hno EmptyString (String c a)) by done.
  f_equal. apply IH. intros a1 a2 -> Hne. by apply (Hno (String c a1) a2).
Qed.

(** An occurrence at the head is replaced, and the scan resumes after it. *)
Lemma replace_go_hit old new rest :
  old ≠ EmptyString →
  Py.replace_go old new 0 (old +:+ rest) = new +:+ Py.replace_go old new 0 rest.
Proof.
  destruct old as [|c old]; [done|]. intros _.
  rewrite str_app_cons. cbn [Py.replace_go].
  rewrite <- str_app_cons, prefix_app_self.
  replace (String.length (String c old) - 1) with (String.length old)
    by (cbn [String.length]; lia).
  by rewrite replace_go_skip.
Qed.

End StringFacts.

(** ** The placeholder and its three forms *)

Section Placeholder.
Implicit Types (s t a pre post rest pd : string) (q c : ascii).

Lemma PLACEHOLDER_nonempty : PLACEHOLDER ≠ EmptyString.
Proof. discriminate. Qed.

(** Past its dollar sign the placeholder is made of word characters. *)
Lemma PLACEHOLDER_split a p2 :
  PLACEHOLDER = a +:+ p2 → a ≠ EmptyString → p2 ≠ EmptyString →
  ∃ c r, p2 = String c r ∧ Py.isword c = true.
Proof.
  unfold PLACEHOLDER. intros H Ha Hp2.
  destruct a as [|c0 a]; [done|]. rewrite str_app_cons in H. injection H as _ H.
  repeat (destruct a as [|? a];
          [ rewrite str_app_nil_l in H; subst p2; by eexists _, _
          | rewrite str_app_cons in H; injection H as _ H ]).
  destruct a; [by rewrite str_app_nil_l in H|discriminate].
Qed.

Lemma PLACEHOLDER_prefix_dollar s :
  String.prefix PLACEHOLDER s = true → ∃ t, s = String "$" t.
Proof.
  destruct s as [|c s]; [done|]. unfold PLACEHOLDER. rewrite prefix_cons.
  intros [Hc _]%andb_true_iff. apply bool_decide_eq_true in Hc as <-. by eexists.
Qed.

Lemma no_dollar_no_PLACEHOLDER s :
  Py.contains s "$" = false → Py.contains s PLACEHOLDER = false.
Proof.
  induction s as [|c s IH]; [done|].
  rewrite !contains_cons. intros [Hc Hs]%orb_false_iff.
  apply orb_false_iff. split; [|by apply IH].
  destruct (String.prefix PLACEHOLDER (String c s)) eqn:Hp; [|done].
  apply PLACEHOLDER_prefix_dollar in Hp as [t [= -> ->]].
  by rewrite prefix_cons, prefix_nil in Hc.
Qed.

(** An occurrence of the placeholder cannot begin inside text that is free
    of it and run on into text that begins with a non-word character. *)
Lemma PLACEHOLDER_not_across a rest :
  a ≠ EmptyString →
  Py.contains a PLACEHOLDER = false →
  starts_nonword rest →
  String.prefix PLACEHOLDER (a +:+ rest) = false.
Proof.
  intros Ha Hfree Hrest.
  destruct (String.prefix PLACEHOLDER (a +:+ rest)) eqn:Hp; [|done].
  exfalso. apply prefix_app_cases in Hp as [Hin|(p2 & Hsplit & Hp2)].
  - by rewrite (contains_prefix _ _ Hin) in Hfree.
  - destruct (decide (p2 = EmptyString)) as [->|Hne].
    + rewrite str_app_nil_r in Hsplit. subst a.
      by rewrite (contains_prefix _ _ (prefix_refl _)) in Hfree.
    + destruct (PLACEHOLDER_split a p2 Hsplit Ha Hne) as (c & r & -> & Hword).
      destruct rest as [|c' rest]; [done|].
      rewrite prefix_cons in Hp2. apply andb_true_iff in Hp2 as [Hc _].
      apply bool_decide_eq_true in Hc as <-.
      unfold starts_nonword in Hrest. congruence.
Qed.

Lemma quoted_prefix_inv q s :
  String.prefix (quoted q) s = true →
  ∃ t, s = String q t ∧ String.prefix PLACEHOLDER t = true.
Proof.
  destruct s as [|c s]; [done|]. unfold quoted. rewrite prefix_cons.
  intros [Hc Hp]%andb_true_iff. apply bool_decide_eq_true in Hc as <-.
  exists s. split; [done|]. by apply prefix_app_l in Hp.
Qed.

Lemma no_PLACEHOLDER_no_quoted q s :
  Py.contains s PLACEHOLDER = false → Py.contains s (quoted q) = false.
Proof.
  induction s as [|c s IH]; [done|].
  intros Hfree. rewrite contains_cons. apply orb_false_iff. split.
  - destruct (String.prefix (quoted q) (String c s)) eqn:Hp; [|done].
    apply quoted_prefix_inv in Hp as (t & [= -> ->] & Hp).
    apply contains_false_tail in Hfree.
    by rewrite (contains_prefix _ _ Hp) in Hfree.
  - apply IH. by apply contains_false_tail in Hfree.
Qed.

(** No occurrence of a quoted form begins inside [a]. *)
Lemma quoted_not_across q a rest :
  Py.contains a PLACEHOLDER = false →
  starts_nonword rest →
  (Py.endswith a (String q EmptyString) = true →
   String.prefix (PLACEHOLDER +:+ String q EmptyString) rest = false) →
  ∀ a1 a2, a = a1 +:+ a2 → a2 ≠ EmptyString →
    String.prefix (quoted q) (a2 +:+ rest) = false.
Proof.
  intros Hfree Hrest Hend a1 a2 -> Hne.
  destruct a2 as [|c a2]; [done|]. clear Hne.
  unfold quoted. rewrite str_app_cons, prefix_cons.
  destruct (bool_decide (q = c)) eqn:Hc; [|done].
  apply bool_decide_eq_true in Hc as <-. cbn [andb].
  destruct a2 as [|c' a2].
  - rewrite str_app_nil_l. apply Hend. apply endswith_app_r.
  - clear Hend. destruct (String.prefix _ _) eqn:Hp; [|done].
    apply prefix_app_l in Hp.
    rewrite PLACEHOLDER_not_across in Hp; [done..| |done].
    apply contains_false_suffix in Hfree.
    by apply contains_false_tail in Hfree.
Qed.

Lemma safe_dir_starts_nonword pd post : safe_dir pd → starts_nonword (pd +:+ post).
Proof.
  intros [Hslash _]. destruct pd as [|c pd]; [done|].
  unfold Py.startswith in Hslash. rewrite prefix_cons in Hslash.
  apply andb_true_iff in Hslash as [Hc _]. by apply bool_decide_eq_true in Hc as <-.
Qed.

(** Once the placeholder is expanded, no placeholder is left. *)
Lemma expanded_free pre pd post :
  Py.contains pre PLACEHOLDER = false →
  Py.contains post PLACEHOLDER = false →
  safe_dir pd →
  Py.contains (pre +:+ pd +:+ post) PLACEHOLDER = false.
Proof.
  intros Hpre Hpost Hpd.
  apply contains_app_false; [done| |].
  - apply contains_app_false; [by apply no_dollar_no_PLACEHOLDER, Hpd|done|].
    intros a1 a2 -> Hne.
    destruct (String.prefix PLACEHOLDER (a2 +:+ post)) eqn:Hp; [|done].
    apply PLACEHOLDER_prefix_dollar in Hp as [t Ht].
    destruct a2 as [|c a2]; [done|]. injection Ht as -> _.
    destruct Hpd as [_ Hd]. apply contains_false_suffix in Hd.
    by rewrite contains_cons, prefix_cons, prefix_nil in Hd.
  - intros a1 a2 -> Hne. apply PLACEHOLDER_not_across; [done| |].
    + by apply contains_false_suffix in Hpre.
    + by apply safe_dir_starts_nonword.
Qed.

(** *** One replacement pass *)

(** A character that does not occur in [x] starts no occurrence in [x]. *)
Lemma contains_skip q p x rest :
  Py.contains x (String q EmptyString) = false →
  Py.contains (x +:+ rest) (String q p) = Py.contains rest (String q p).
Proof.
  induction x as [|c x IH]; [done|].
  rewrite contains_cons. intros [Hc Hx]%orb_false_iff.
  rewrite str_app_cons, contains_cons, IH by done.
  rewrite prefix_cons, prefix_nil, andb_true_r in Hc.
  by rewrite prefix_cons, Hc.
Qed.

Lemma replace_quoted_absent q s pd :
  Py.contains s PLACEHOLDER = false → Py.replace s (quoted q) pd = s.
Proof.
  intros Hfree. rewrite replace_nonempty by done.
  by apply replace_go_absent, no_PLACEHOLDER_no_quoted.
Qed.

Lemma replace_placeholder_absent s pd :
  Py.contains s PLACEHOLDER = false → Py.replace s PLACEHOLDER pd = s.
Proof.
  intros Hfree. rewrite replace_nonempty by done. by apply replace_go_absent.
Qed.

(** The pass for the quoted form [q] on that form. *)
Lemma replace_quoted_hit q pre pd post :
  q ≠ "$"%char → Py.isword q = false →
  Py.contains pre PLACEHOLDER = false →
  Py.contains post PLACEHOLDER = false →
  Py.replace (pre +:+ quoted q +:+ post) (quoted q) pd = pre +:+ pd +:+ post.
Proof.
  intros Hq Hword Hpre Hpost. rewrite replace_nonempty by done.
  rewrite replace_go_pass.
  - rewrite replace_go_hit by done.
    by rewrite replace_go_absent by by apply no_PLACEHOLDER_no_quoted.
  - apply quoted_not_across; [done|exact Hword|]. intros _.
    unfold quoted, PLACEHOLDER. rewrite !str_app_cons, prefix_cons.
    by rewrite bool_decide_eq_false_2 by congruence.
Qed.

(** The pass for the quoted form [q] on the other quoted form. *)
Lemma replace_quoted_other q q' pre pd post :
  q ≠ q' → q' ≠ "$"%char → Py.isword q' = false →
  Py.contains PLACEHOLDER (String q EmptyString) = false →
  Py.contains pre PLACEHOLDER = false →
  Py.contains post PLACEHOLDER = false →
  Py.replace (pre +:+ quoted q' +:+ post) (quoted q) pd
  = pre +:+ quoted q' +:+ post.
Proof.
  intros Hne Hq' Hword Hq Hpre Hpost. rewrite replace_nonempty by done.
  apply replace_go_absent. apply contains_app_false.
  - by apply no_PLACEHOLDER_no_quoted.
  - unfold quoted at 1. rewrite str_app_cons, contains_cons.
    apply orb_false_iff. split.
    { unfold quoted. rewrite prefix_cons.
      by rewrite bool_decide_eq_false_2 by done. }
    rewrite str_app_assoc. unfold quoted at 1. rewrite contains_skip by done.
    rewrite str_app_cons, str_app_nil_l, contains_cons.
    apply orb_false_iff. split.
    { unfold quoted. rewrite prefix_cons.
      by rewrite bool_decide_eq_false_2 by done. }
    by apply no_PLACEHOLDER_no_quoted.
  - apply quoted_not_across; [done|exact Hword|]. intros _.
    unfold quoted, PLACEHOLDER. rewrite !str_app_cons, prefix_cons.
    by rewrite bool_decide_eq_false_2 by congruence.
Qed.

(** The pass for the quoted form [q] on the bare form, when the bare form
    is not wrapped in [q]. *)
Lemma replace_quoted_bare q pre pd post :
  Py.contains PLACEHOLDER (String q EmptyString) = false →
  Py.contains pre PLACEHOLDER = false →
  Py.contains post PLACEHOLDER = false →
  Py.endswith pre (String q EmptyString)
    && Py.startswith post (String q EmptyString) = false →
  Py.replace (pre +:+ PLACEHOLDER +:+ post) (quoted q) pd
  = pre +:+ PLACEHOLDER +:+ post.
Proof.
  intros Hq Hpre Hpost Hwrap. rewrite replace_nonempty by done.
  apply replace_go_absent. apply contains_app_false.
  - by apply no_PLACEHOLDER_no_quoted.
  - unfold quoted. rewrite contains_skip by done.
    by apply (no_PLACEHOLDER_no_quoted q).
  - apply quoted_not_across; [done|done|]. intros Hend.
    rewrite prefix_app_inv. rewrite Hend in Hwrap. exact Hwrap.
Qed.

(** The pass for the bare form on the bare form. *)
Lemma replace_bare_hit pre pd post :
  Py.contains pre PLACEHOLDER = false →
  Py.contains post PLACEHOLDER = false →
  Py.replace (pre +:+ PLACEHOLDER +:+ post) PLACEHOLDER pd = pre +:+ pd +:+ post.
Proof.
  intros Hpre Hpost. rewrite replace_nonempty by done.
  rewrite replace_go_pass.
  - rewrite replace_go_hit by done. by rewrite replace_go_absent.
  - intros a1 a2 -> Hne. apply PLACEHOLDER_not_across; [done| |done].
    by apply contains_false_suffix in Hpre.
Qed.

End Placeholder.

(** ** The expansion of a command with several placeholders *)

Section Holes.
Implicit Types (s t a text left rest pd old new : string) (q c : ascii).
Implicit Types (holes : list (Form * string)) (f : Form).






End Holes.

Section Passes.
Implicit Types (s t a text left full rest pd old new : string) (q c : ascii).
Implicit Types (holes : list (Form * string)) (f : Form).









End Passes.

Section Expansion.
Implicit Types (text full pd : string) (holes : list (Form * string)) (f : Form).









End Expansion.


(** ** The locator is invariant under the form of the placeholder *)


Lemma is_empty_app_form (pre post : string) (f : Form) :
  Py.is_empty (pre +:+ form_text f +:+ post) = false.
Proof. destruct pre; [by destruct f|done]. Qed.

Section FormInvariance.
Context (w1 w2 : World) (hook_name hook_abs project_dir : string).
Context (Hresolve : ∀ part, resolve w1 part = resolve w2 part).
Context (Hdir : safe_dir project_dir).






End FormInvariance.



(** The claim also takes a project directory given by a relative path.
    The project [DIR], the script [_DIR.py] beside it, and a command whose
    text runs up to the placeholder with [$CLAUDE_PROJECT_]: for a quoted
    form the directory put in completes that text to a placeholder, which
    the pass for the bare form replaces, and the script is not found; for
    the bare form the text stays and the script is found. *)
Lemma relative_project_dir_differs :
  let w (f : Form) :=
    Fixture.seen_from "/work"
      (Fixture.world ∅
         {[ Fixture.relative_settings :=
              Fixture.one_hook "PreToolUse" (Fixture.relative_command f) ]}
         None BashFileNotFound RunTimeoutExpired) in
  let settings_path := Fixture.path Fixture.relative_settings in
  same_up_to_form (Fixture.relative_command Double) (Fixture.relative_command Bare)
  ∧ Py.startswith (path_str Fixture.relative_dir) "/" = false
  ∧ Py.contains (path_str Fixture.relative_dir) "$" = false
  ∧ find_hook_in_settings (w Bare) settings_path Fixture.relative_py
      Fixture.relative_dir
    = (true, ["PreToolUse"], [])
  ∧ find_hook_in_settings (w Double) settings_path Fixture.relative_py
      Fixture.relative_dir
    = (false, [], []).
Proof.
  intros w settings_path. split.
  - exists "python3 $CLAUDE_PROJECT_", [(Double, ".py")], [(Bare, ".py")].
    repeat split; try done; try (vm_compute; reflexivity).
    repeat constructor.
  - repeat split; vm_compute; reflexivity.
Qed.

(** Why a placeholder directly between two quotes does not count as bare:
    there it is the quoted form.  The placeholder directly between two
    double quotes is found; with one more pair of double quotes around it
    the file name test sees a quote inside the file name, and the hook is
    not found. *)
Lemma wrapped_bare_form_differs :
  let w (f : Form) :=
    Fixture.world ∅
      {[ Fixture.nested_settings :=
           Fixture.one_hook "PreToolUse" (Fixture.sibling_command f) ]}
      None BashFileNotFound RunTimeoutExpired in
  let settings_path := Fixture.path Fixture.nested_settings in
  Fixture.sibling_command Bare = form_text Double +:+ ".py"
  ∧ Fixture.sibling_command Double
    = Py.dquote +:+ form_text Double +:+ Py.dquote +:+ ".py"
  ∧ find_hook_in_settings (w Bare) settings_path Fixture.sibling_py Fixture.nested_dir
    = (true, ["PreToolUse"], [])
  ∧ find_hook_in_settings (w Double) settings_path Fixture.sibling_py
      Fixture.nested_dir
    = (false, [], []).
Proof.
  intros w settings_path.
  repeat split; vm_compute; reflexivity.
Qed.



(** ** A script that is not executable *)

Section LaterSteps.
Context (w : World) (script_path project_dir : Path).

(** What each step after the second files, from an empty run. *)
Lemma check_shebang_findings (content : string) :
  let r4 := (check_shebang script_path content new_Run).2 in
  if Py.startswith (Py.first_line content) "#!" then
    "✓ Valid Python shebang" ∈ passed (result r4)
    ∨ "✓ Valid Bash shebang" ∈ passed (result r4)
    ∨ ("⚠️  Unusual shebang: " +:+ Py.first_line content) ∈ warnings (result r4)
  else MISSING_SHEBANG ∈ errors (result r4).
Proof.
  unfold check_shebang. destruct (Py.startswith _ "#!"); cbn [negb].
  - repeat case_match; cbn [snd];
      [left|right; left|right; right..]; find_finding.
  - find_finding.
Qed.

Lemma check_syntax_calls (content : string) (is_python is_bash : bool) :
  let r5 := (check_syntax w script_path content is_python is_bash new_Run).2 in
  (is_python = true → call_ast_parse ∈ trace r5)
  ∧ (is_python = false → is_bash = true → call_bash_n ∈ trace r5).
Proof.
  unfold check_syntax. split.
  - intros ->. case_match; find_finding.
  - intros -> ->. repeat case_match; find_finding.
Qed.

Lemma check_syntax_continues (content : string) (is_python is_bash : bool) :
  (is_python = true → ast_parse w content = None) →
  (check_syntax w script_path content is_python is_bash new_Run).1 = true.
Proof.
  intros Hparse. unfold check_syntax. destruct is_python.
  - by rewrite Hparse.
  - by repeat case_match.
Qed.

Lemma check_stdin_findings (content : string) (is_python is_bash : bool) :
  let r6 := check_stdin content is_python is_bash new_Run in
  (is_python = true →
     "✓ Handles JSON input from stdin" ∈ passed (result r6)
     ∨ "⚠️  No json.load(sys.stdin) found - may not handle input correctly"
       ∈ warnings (result r6))
  ∧ (is_python = false → is_bash = true →
     "✓ Reads input from stdin" ∈ passed (result r6)
     ∨ "⚠️  May not read input from stdin" ∈ warnings (result r6)).
Proof.
  unfold check_stdin. split.
  - intros ->. case_match; [left|right]; find_finding.
  - intros -> ->. case_match; [left|right]; find_finding.
Qed.

Lemma check_event_findings (event : option string) (content : string) :
  let r7 := check_event event content new_Run in
  if truthy event
  then ("✓ Detected event type: " +:+ default EmptyString event) ∈ passed (result r7)
  else "⚠️  Could not detect event type from script content" ∈ warnings (result r7).
Proof.
  unfold check_event. destruct (truthy event); [|find_finding].
  repeat case_match; find_finding.
Qed.

Lemma check_exit_codes_findings (content : string) (is_python is_bash : bool) :
  let r8 := check_exit_codes content is_python is_bash new_Run in
  (is_python = true → Py.contains content "sys.exit(2)" = true →
     "✓ Uses exit(2) for blocking" ∈ passed (result r8))
  ∧ (is_python = true → Py.contains content "sys.exit(0)" = true →
     "✓ Uses exit(0) for success" ∈ passed (result r8))
  ∧ (is_python = true → Py.contains content "sys.exit(1)" = true →
     "⚠️  Uses exit(1) - non-blocking error (logged only)" ∈ warnings (result r8))
  ∧ (is_python = false → is_bash = true → Py.contains content "exit 2" = true →
     "✓ Uses exit 2 for blocking" ∈ passed (result r8))
  ∧ (is_python = false → is_bash = true → Py.contains content "exit 0" = true →
     "✓ Uses exit 0 for success" ∈ passed (result r8)).
Proof.
  unfold check_exit_codes.
  repeat split; intros; subst; repeat case_match; try done; find_finding.
Qed.

Lemma runtime_test_calls (event : option string) (is_python is_bash : bool) :
  truthy event = true → is_python || is_bash = true →
  call_run_hook (if is_python then python3 else bash)
    (sample_input (default EmptyString event))
  ∈ trace (runtime_test w script_path project_dir event is_python is_bash new_Run).
Proof.
  intros Hevent Hlang. unfold runtime_test. rewrite Hevent, Hlang. cbn [andb].
  destruct (run_hook w _ script_path _ project_dir) as [proc| |e].
  - rewrite appends_classify_probe, trace_run_app. find_finding.
  - find_finding.
  - find_finding.
Qed.

End LaterSteps.

(** Membership in one summand is membership in the sum. *)
Ltac in_sum :=
  rewrite ?errors_run_app, ?warnings_run_app, ?passed_run_app, ?trace_run_app,
    ?elem_of_app; tauto.

(** C10: a script that exists and is not executable gets the error "Script
    is not executable", so its report fails, and the validation goes on
    as it does for an executable script.  Next to the report of the same
    script after [chmod +x], the report has this one error more and the
    pass "Script is executable" less, with the same other errors,
    warnings, passes, calls and installation record.  And the later steps
    do run: a script that cannot be read gets the read error; for a script
    that is read, the shebang finding is filed and the syntax check of its
    language is called; and unless the Python parser rejects the script,
    the stdin finding, the event finding and the exit-code findings are
    filed, the probe is run whenever an event is settled and the language
    is known, and the installation record is attached. *)
Theorem not_executable_is_an_error (w : World) (script_path project_dir : Path)
    (event_hint : option string) :
  exists_ w script_path = true →
  access_X_OK w script_path = false →
  let r := validate_hook_script w script_path project_dir event_hint in
  let r' := validate_hook_script (chmod_x w script_path) script_path project_dir
              event_hint in
  NOT_EXECUTABLE ∈ errors (result r)
  ∧ success (result r) = false
  ∧ errors (result r) = NOT_EXECUTABLE :: errors (result r')
  ∧ warnings (result r) = warnings (result r')
  ∧ (∃ rest,
       passed (result r) = ("✓ Script exists: " +:+ name script_path) :: rest
       ∧ passed (result r')
         = ("✓ Script exists: " +:+ name script_path)
             :: "✓ Script is executable" :: rest)
  ∧ trace r = trace r'
  ∧ installation (result r) = installation (result r')
  ∧ (∀ e, read_text w script_path = inr e →
          errors (result r) = [NOT_EXECUTABLE; "❌ Cannot read script: " +:+ e])
  ∧ (∀ content, read_text w script_path = inl content →
       let is_python := (check_shebang script_path content new_Run).1.1 in
       let is_bash := (check_shebang script_path content new_Run).1.2 in
       let event := settled_event script_path event_hint content in
       (if Py.startswith (Py.first_line content) "#!" then
          "✓ Valid Python shebang" ∈ passed (result r)
          ∨ "✓ Valid Bash shebang" ∈ passed (result r)
          ∨ ("⚠️  Unusual shebang: " +:+ Py.first_line content) ∈ warnings (result r)
        else MISSING_SHEBANG ∈ errors (result r))
       ∧ (is_python = true → call_ast_parse ∈ trace r)
       ∧ (is_python = false → is_bash = true → call_bash_n ∈ trace r)
       ∧ ((is_python = true → ast_parse w content = None) →
          (is_python = true →
             "✓ Handles JSON input from stdin" ∈ passed (result r)
             ∨ "⚠️  No json.load(sys.stdin) found - may not handle input correctly"
               ∈ warnings (result r))
          ∧ (is_python = false → is_bash = true →
             "✓ Reads input from stdin" ∈ passed (result r)
             ∨ "⚠️  May not read input from stdin" ∈ warnings (result r))
          ∧ (if truthy event
             then ("✓ Detected event type: " +:+ default EmptyString event)
                  ∈ passed (result r)
             else "⚠️  Could not detect event type from script content"
                  ∈ warnings (result r))
          ∧ (is_python = true → Py.contains content "sys.exit(2)" = true →
             "✓ Uses exit(2) for blocking" ∈ passed (result r))
          ∧ (is_python = true → Py.contains content "sys.exit(0)" = true →
             "✓ Uses exit(0) for success" ∈ passed (result r))
          ∧ (is_python = true → Py.contains content "sys.exit(1)" = true →
             "⚠️  Uses exit(1) - non-blocking error (logged only)"
             ∈ warnings (result r))
          ∧ (is_python = false → is_bash = true →
             Py.contains content "exit 2" = true →
             "✓ Uses exit 2 for blocking" ∈ passed (result r))
          ∧ (is_python = false → is_bash = true →
             Py.contains content "exit 0" = true →
             "✓ Uses exit 0 for success" ∈ passed (result r))
          ∧ (truthy event = true → is_python || is_bash = true →
             call_run_hook (if is_python then python3 else bash)
               (sample_input (default EmptyString event)) ∈ trace r)
          ∧ installation (result r)
            = Some (check_installation_status w script_path project_dir))).
Proof.
  intros Hex Hacc r r'.
  assert (NOT_EXECUTABLE ∈ errors (result r)
          ∧ success (result r) = false
          ∧ errors (result r) = NOT_EXECUTABLE :: errors (result r')
          ∧ warnings (result r) = warnings (result r')
          ∧ (∃ rest,
               passed (result r) = ("✓ Script exists: " +:+ name script_path) :: rest
               ∧ passed (result r')
                 = ("✓ Script exists: " +:+ name script_path)
                     :: "✓ Script is executable" :: rest)
          ∧ trace r = trace r'
          ∧ installation (result r) = installation (result r')) as Hchmod.
  { subst r r'.
    rewrite (validate_hook_script_exists w) by done.
    rewrite (validate_hook_script_exists (chmod_x w script_path)) by done.
    rewrite read_and_validate_chmod_x.
    unfold check_executable. rewrite Hacc.
    cbn [access_X_OK chmod_x]. rewrite decide_True by done.
    cbn [negb].
    set (rest := read_and_validate w script_path project_dir event_hint).
    unfold run_app, result_app, report, error, ok.
    cbn [result trace errors warnings passed installation new_Run
         new_ValidationResult app].
    repeat split; try done.
    - apply list_elem_of_here.
    - by eexists. }
  destruct Hchmod as (H1 & H2 & H3 & H4 & H5 & H6 & H7).
  do 7 (split; [done|]). clear H1 H2 H3 H4 H5 H6 H7.
  subst r. rewrite validate_hook_script_exists by done.
  unfold read_and_validate. split.
  { intros e ->. unfold check_executable. by rewrite Hacc. }
  intros content ->. rewrite validate_content_steps.
  pose proof (check_shebang_findings script_path content) as F4.
  destruct (check_shebang script_path content new_Run) as [[is_python is_bash] r4].
  pose proof (check_syntax_calls w script_path content is_python is_bash)
    as [F5p F5b].
  pose proof (check_syntax_continues w script_path content is_python is_bash)
    as Hcontinue.
  destruct (check_syntax w script_path content is_python is_bash new_Run)
    as [continue r5].
  cbn [fst snd] in *. cbv zeta in *.
  set (event := settled_event script_path event_hint content).
  split; [|split; [|split]].
  - destruct (Py.startswith (Py.first_line content) "#!").
    + destruct continue; destruct F4 as [F4|[F4|F4]];
        [left|right; left|right; right|left|right; left|right; right]; in_sum.
    + destruct continue; in_sum.
  - intros Hpy. specialize (F5p Hpy). destruct continue; in_sum.
  - intros Hpy Hbash. specialize (F5b Hpy Hbash). destruct continue; in_sum.
  - intros Hparse. rewrite (Hcontinue Hparse).
    destruct (check_stdin_findings content is_python is_bash) as [F6p F6b].
    pose proof (check_event_findings event content) as F7.
    destruct (check_exit_codes_findings content is_python is_bash)
      as (F8a & F8b & F8c & F8d & F8e).
    pose proof (runtime_test_calls w script_path project_dir event is_python
                  is_bash) as F9.
    cbv zeta in *.
    split; [|split; [|split; [|split; [|split; [|split; [|split; [|split;
      [|split]]]]]]]].
    + intros Hpy. destruct (F6p Hpy); [left|right]; in_sum.
    + intros Hpy Hbash. destruct (F6b Hpy Hbash); [left|right]; in_sum.
    + destruct (truthy event); in_sum.
    + intros Hpy Hc. specialize (F8a Hpy Hc). in_sum.
    + intros Hpy Hc. specialize (F8b Hpy Hc). in_sum.
    + intros Hpy Hc. specialize (F8c Hpy Hc). in_sum.
    + intros Hpy Hbash Hc. specialize (F8d Hpy Hbash Hc). in_sum.
    + intros Hpy Hbash Hc. specialize (F8e Hpy Hbash Hc). in_sum.
    + intros Hev Hlang. specialize (F9 Hev Hlang). in_sum.
    + reflexivity.
Qed.

(** The guard script without its execute bit: every other check passes,
    and every later step has left its mark. *)
Lemma not_executable_is_an_error_witness :
  let w := Fixture.world
             {[ path_str Fixture.guard_py :=
                  {| Fixture.executable := false;
                     Fixture.content := Fixture.guard_source |} ]}
             ∅ None BashFileNotFound
             (RunCompleted (Fixture.completed 0 EmptyString EmptyString)) in
  let r := validate_hook_script w Fixture.guard_py Fixture.project_dir None in
  errors (result r) = [NOT_EXECUTABLE]
  ∧ success (result r) = false
  ∧ "✓ Valid Python shebang" ∈ passed (result r)
  ∧ "✓ Handles JSON input from stdin" ∈ passed (result r)
  ∧ "✓ Detected event type: PreToolUse" ∈ passed (result r)
  ∧ "✓ Uses exit(2) for blocking" ∈ passed (result r)
  ∧ "✓ Uses exit(0) for success" ∈ passed (result r)
  ∧ trace r = [call_ast_parse; call_run_hook python3 (sample_input "PreToolUse")]
  ∧ installation (result r)
    = Some (check_installation_status w Fixture.guard_py Fixture.project_dir).
Proof.
  intros w r.
  pose proof (not_executable_is_an_error w Fixture.guard_py Fixture.project_dir None
                ltac:(vm_compute; reflexivity) ltac:(vm_compute; reflexivity))
    as (_ & Hfail & Herrors & _ & _ & _ & _ & _ & Hlater).
  destruct (Hlater Fixture.guard_source ltac:(vm_compute; reflexivity))
    as (_ & _ & _ & Hrest).
  destruct (Hrest ltac:(intros _; vm_compute; reflexivity))
    as (_ & _ & Hevent & Hexit2 & Hexit0 & _ & _ & _ & _ & Hinst).
  split; [subst r; rewrite Herrors; vm_compute; reflexivity|].
  split; [exact Hfail|].
  split; [by_compute|]. split; [by_compute|].
  split; [exact Hevent|].
  split; [exact (Hexit2 ltac:(vm_compute; reflexivity) ltac:(vm_compute; reflexivity))|].
  split; [exact (Hexit0 ltac:(vm_compute; reflexivity) ltac:(vm_compute; reflexivity))|].
  split; [vm_compute; reflexivity|exact Hinst].
Defined.

(** * Further properties *)

(** ** The installation locator as a list of registrations *)

Lemma record_all_nil (acc : Found) : record_all acc [] = acc.
Proof.
  destruct acc as [[found evs] ms]. unfold record_all. cbn.
  by rewrite orb_false_r, !app_nil_r.
Qed.

Lemma record_all_app (acc : Found) (r1 r2 : list (string * string)) :
  record_all (record_all acc r1) r2 = record_all acc (r1 ++ r2).
Proof.
  destruct acc as [[found evs] ms]. unfold record_all. cbn [fst snd].
  rewrite !fmap_app, filter_app, !app_assoc.
  replace (found || negb (bool_decide (r1 = [])) || negb (bool_decide (r2 = [])))
    with (found || negb (bool_decide (r1 ++ r2 = []))); [done|].
  rewrite <- orb_assoc. f_equal. by destruct r1, r2.
Qed.

Lemma record_match_record_all (event matcher : string) (acc : Found) :
  record_match event matcher acc = record_all acc [(event, matcher)].
Proof.
  destruct acc as [[found evs] ms]. unfold record_match, record_all.
  cbn [fst snd fmap list_fmap]. rewrite (bool_decide_eq_false_2 (_ = [])) by done.
  cbn [negb]. rewrite orb_true_r, filter_cons, filter_nil.
  destruct (decide (matcher ≠ "*")) as [Hne|Heq].
  - by rewrite bool_decide_eq_true_2.
  - rewrite bool_decide_eq_false_2 by done. by rewrite app_nil_r.
Qed.

Section Registrations.
Context (w : World) (hook_name hook_abs project_dir : string).

(** The token loop records one match when some token matches, none
    otherwise. *)
Lemma scan_parts_Exists (event matcher : string) (parts : list string) (acc : Found) :
  scan_parts w hook_name hook_abs event matcher parts acc
  = if bool_decide (Exists (token_matches w hook_name hook_abs) parts)
    then record_match event matcher acc else acc.
Proof.
  induction parts as [|part rest IH].
  - rewrite bool_decide_eq_false_2; [done|]. by intros ?%Exists_nil.
  - rewrite scan_parts_cons.
    destruct (decide (token_matches w hook_name hook_abs part)) as [Hm|Hm].
    + rewrite bool_decide_eq_true_2; [done|]. by left.
    + rewrite IH.
      rewrite (bool_decide_ext _
                 (Exists (token_matches w hook_name hook_abs) (part :: rest)));
        [done|].
      rewrite Exists_cons. tauto.
Qed.

Lemma scan_hook_registers (event matcher : string) (acc : Found) (hook : HookEntry) :
  scan_hook w hook_name hook_abs project_dir event matcher acc hook
  = record_all acc (if registers w hook_name hook_abs project_dir hook
                    then [(event, matcher)] else []).
Proof.
  unfold scan_hook, registers.
  destruct (decide (default "command" (h_type hook) = "command")) as [Ht|Ht].
  - rewrite (bool_decide_eq_false_2 (_ ≠ _)) by tauto.
    rewrite (bool_decide_eq_true_2 (_ = _)) by done.
    cbn [andb]. cbv zeta.
    destruct (Py.is_empty (default EmptyString (h_command hook)));
      cbn [negb andb]; [by rewrite record_all_nil|].
    destruct (Py.contains _ hook_name); cbn [andb]; [|by rewrite record_all_nil].
    rewrite scan_parts_Exists.
    destruct (bool_decide (Exists _ _));
      [apply record_match_record_all|by rewrite record_all_nil].
  - rewrite (bool_decide_eq_true_2 (_ ≠ _)) by done.
    rewrite (bool_decide_eq_false_2 (_ = _)) by done.
    by rewrite record_all_nil.
Qed.

Lemma scan_hooks_registers (event matcher : string) (hook_list : list HookEntry)
    (acc : Found) :
  fold_left (scan_hook w hook_name hook_abs project_dir event matcher) hook_list acc
  = record_all acc
      (hook ← hook_list;
       if registers w hook_name hook_abs project_dir hook
       then [(event, matcher)] else []).
Proof.
  revert acc. induction hook_list as [|hook rest IH]; intros acc.
  - by rewrite record_all_nil.
  - cbn [fold_left]. rewrite IH, scan_hook_registers, record_all_app.
    by rewrite bind_cons.
Qed.

Lemma scan_event_registers (acc : Found) (item : string * list HookConfig) :
  scan_event w hook_name hook_abs project_dir acc item
  = record_all acc (registrations w hook_name hook_abs project_dir [item]).
Proof.
  unfold scan_event, registrations. rewrite bind_cons.
  change (@nil (string * list HookConfig) ≫= _) with (@nil (string * string)).
  rewrite app_nil_r.
  destruct item as [event configs]. cbn [fst snd].
  revert acc. induction configs as [|config rest IH]; intros acc.
  - by rewrite record_all_nil.
  - cbn [fold_left]. rewrite IH. unfold scan_config.
    rewrite scan_hooks_registers, record_all_app. by rewrite bind_cons.
Qed.

Lemma registrations_app (h1 h2 : list (string * list HookConfig)) :
  registrations w hook_name hook_abs project_dir (h1 ++ h2)
  = registrations w hook_name hook_abs project_dir h1
    ++ registrations w hook_name hook_abs project_dir h2.
Proof. unfold registrations. by rewrite bind_app. Qed.

Lemma scan_events_registers (hooks_config : list (string * list HookConfig))
    (acc : Found) :
  fold_left (scan_event w hook_name hook_abs project_dir) hooks_config acc
  = record_all acc (registrations w hook_name hook_abs project_dir hooks_config).
Proof.
  revert acc. induction hooks_config as [|item rest IH]; intros acc.
  - by rewrite record_all_nil.
  - cbn [fold_left]. rewrite IH, scan_event_registers, record_all_app.
    by rewrite <- registrations_app.
Qed.

End Registrations.

(** What [find_hook_in_settings] returns on a settings file that is read. *)
Lemma find_hook_in_settings_read (w : World) (settings_path hook_script project_dir : Path)
    (settings : Settings) :
  exists_ w settings_path = true →
  read_settings w settings_path = inr settings →
  find_hook_in_settings w settings_path hook_script project_dir
  = record_all (false, [], [])
      (registrations w (name hook_script) (resolved hook_script)
         (path_str project_dir) (default [] (s_hooks settings))).
Proof.
  intros Hex Hread. unfold find_hook_in_settings. rewrite Hex, Hread. cbn [negb].
  destruct (default [] (s_hooks settings)) as [|item rest] eqn:Hhooks; [done|].
  apply scan_events_registers.
Qed.

(** X1: on a settings file that is read, the locator returns the
    registrations of the document: the events are the event keys of the
    registering command hooks in document order, one entry per registering
    hook however many of its tokens match; the matchers are those of their
    groups, without the wildcard; and the flag tells whether there is any
    registration. *)
Theorem find_hook_in_settings_registrations (w : World)
    (settings_path hook_script project_dir : Path) (settings : Settings) :
  exists_ w settings_path = true →
  read_settings w settings_path = inr settings →
  let regs :=
    registrations w (name hook_script) (resolved hook_script)
      (path_str project_dir) (default [] (s_hooks settings)) in
  find_hook_in_settings w settings_path hook_script project_dir
  = (bool_decide (regs ≠ []), regs.*1, filter (λ matcher, matcher ≠ "*") regs.*2).
Proof.
  intros Hex Hread regs.
  rewrite (find_hook_in_settings_read _ _ _ _ settings) by done.
  fold regs. unfold record_all. cbn [fst snd orb app]. f_equal. f_equal.
  destruct regs; [done|].
  rewrite bool_decide_eq_false_2 by done. by rewrite bool_decide_eq_true_2.
Qed.

(** The guard registered twice under PreToolUse, once for the Bash tool by
    a command that names the script twice, and once more under Stop. *)
Lemma find_hook_in_settings_registrations_witness :
  let settings :=
    {| s_hooks := Some [
         ("PreToolUse",
          [{| c_matcher := Some "Bash";
              c_hooks := Some [Fixture.command_hook
                                 "/proj/.claude/hooks/guard.py /proj/.claude/hooks/guard.py"] |};
           Fixture.config [Fixture.command_hook "python3 guard.py";
                           Fixture.prompt_hook "guard.py"]]);
         ("Stop", [Fixture.config [Fixture.command_hook "echo done"]]);
         ("PostToolUse",
          [{| c_matcher := Some "*";
              c_hooks := Some [Fixture.command_hook "guard.py"] |}])] |} in
  let w :=
    Fixture.world ∅ {[ Fixture.project_settings := settings ]}
      None BashFileNotFound RunTimeoutExpired in
  find_hook_in_settings w (Fixture.path Fixture.project_settings)
    Fixture.guard_py Fixture.project_dir
  = (true, ["PreToolUse"; "PreToolUse"; "PostToolUse"], ["Bash"]).
Proof.
  intros settings w.
  rewrite (find_hook_in_settings_registrations w _ _ _ settings);
    [|by vm_compute..].
  by vm_compute.
Defined.

(** The flag and the two lists of [record_all] agree. *)
Lemma record_all_consistent (regs : list (string * string)) :
  let r := record_all (false, [], []) regs in
  (r.1.1 = true ↔ r.1.2 ≠ [])
  ∧ (r.1.1 = false → r.1.2 = [] ∧ r.2 = [])
  ∧ length r.2 ≤ length r.1.2
  ∧ "*" ∉ r.2.
Proof.
  unfold record_all. cbn [fst snd orb app]. split; [|split; [|split]].
  - by destruct regs.
  - by destruct regs.
  - rewrite length_fmap, <- (length_fmap snd regs). apply length_filter.
  - intros [Hne _]%list_elem_of_filter. by apply Hne.
Qed.

Lemma registrations_keys (w : World) (hook_name hook_abs project_dir : string)
    (hooks_config : list (string * list HookConfig)) :
  (registrations w hook_name hook_abs project_dir hooks_config).*1 ⊆ hooks_config.*1.
Proof.
  intros event [[event' matcher] [-> Hin]]%list_elem_of_fmap. cbn [fst].
  unfold registrations in Hin.
  apply list_elem_of_bind in Hin as (item & Hin & Hitem).
  apply list_elem_of_bind in Hin as (config & Hin & _).
  apply list_elem_of_bind in Hin as (hook & Hin & _).
  case_match; [|by apply elem_of_nil in Hin].
  apply list_elem_of_singleton in Hin. injection Hin as -> _.
  by apply list_elem_of_fmap_2.
Qed.

(** What the locator returns in all cases. *)
Lemma find_hook_in_settings_cases (w : World)
    (settings_path hook_script project_dir : Path) :
  find_hook_in_settings w settings_path hook_script project_dir = (false, [], [])
  ∨ ∃ settings,
      exists_ w settings_path = true
      ∧ read_settings w settings_path = inr settings
      ∧ find_hook_in_settings w settings_path hook_script project_dir
        = record_all (false, [], [])
            (registrations w (name hook_script) (resolved hook_script)
               (path_str project_dir) (default [] (s_hooks settings))).
Proof.
  destruct (exists_ w settings_path) eqn:Hex;
    [|left; unfold find_hook_in_settings; by rewrite Hex].
  destruct (read_settings w settings_path) as [e|settings] eqn:Hread;
    [left; unfold find_hook_in_settings; by rewrite Hex, Hread|].
  right. exists settings. split; [done|]. split; [done|].
  by apply find_hook_in_settings_read.
Qed.

(** X2: whatever the settings file, the three values the locator returns
    agree with each other: the hook is reported found exactly when an event
    is listed, there are never more matchers than events, the wildcard is
    never listed as a matcher, and every listed event is an event key of
    the document. *)
Theorem find_hook_in_settings_consistent (w : World)
    (settings_path hook_script project_dir : Path) :
  let r := find_hook_in_settings w settings_path hook_script project_dir in
  (r.1.1 = true ↔ r.1.2 ≠ [])
  ∧ length r.2 ≤ length r.1.2
  ∧ ("*" ∉ r.2)
  ∧ ∀ settings, read_settings w settings_path = inr settings →
                r.1.2 ⊆ (default [] (s_hooks settings)).*1.
Proof.
  destruct (find_hook_in_settings_cases w settings_path hook_script project_dir)
    as [->|(settings & Hex & Hread & ->)].
  - cbn. split; [done|]. split; [lia|]. split; [by intros ?%elem_of_nil|].
    by intros settings _ event ?%elem_of_nil.
  - pose proof (record_all_consistent
                  (registrations w (name hook_script) (resolved hook_script)
                     (path_str project_dir) (default [] (s_hooks settings))))
      as (Hfound & _ & Hlen & Hstar).
    cbv zeta in *. split; [done|]. split; [done|]. split; [done|].
    intros settings' Hread'. rewrite Hread in Hread'. injection Hread' as <-.
    unfold record_all. cbn [fst snd app]. apply registrations_keys.
Qed.

(** ** The installation record *)

(** The locator returns nothing at all, or a positive flag with at least
    one event. *)
Lemma find_hook_in_settings_shape (w : World)
    (settings_path hook_script project_dir : Path) :
  find_hook_in_settings w settings_path hook_script project_dir = (false, [], [])
  ∨ ∃ event evs ms,
      find_hook_in_settings w settings_path hook_script project_dir
      = (true, event :: evs, ms).
Proof.
  destruct (find_hook_in_settings_cases w settings_path hook_script project_dir)
    as [->|(settings & _ & _ & ->)]; [by left|].
  destruct (registrations _ _ _ _ _) as [|[event matcher] regs]; [by left|].
  right. by eexists _, _, _.
Qed.

(** X3: the installation record holds, for each of the three levels,
    whether the locator found the hook there, and the events and matchers
    of the three lookups in the order project, local, user.  The hook
    counts as installed exactly when an event is listed, and it is
    announced to run in all projects exactly when the user-level lookup
    found it. *)
Theorem check_installation_status_levels (w : World) (hook_script project_dir : Path) :
  let info := check_installation_status w hook_script project_dir in
  let paths := get_settings_paths w project_dir in
  let at_project := find_hook_in_settings w (sp_project paths) hook_script project_dir in
  let at_local := find_hook_in_settings w (sp_local paths) hook_script project_dir in
  let at_user := find_hook_in_settings w (sp_user paths) hook_script project_dir in
  project info = at_project.1.1
  ∧ local info = at_local.1.1
  ∧ user info = at_user.1.1
  ∧ events info = at_project.1.2 ++ at_local.1.2 ++ at_user.1.2
  ∧ matchers info = at_project.2 ++ at_local.2 ++ at_user.2
  ∧ (is_installed info = true ↔ events info ≠ [])
  ∧ (scope_description info = "Will run in ALL projects" ↔ at_user.1.1 = true).
Proof.
  intros info paths at_project at_local at_user.
  pose proof (find_hook_in_settings_shape w (sp_project paths) hook_script
                project_dir) as Hp.
  pose proof (find_hook_in_settings_shape w (sp_local paths) hook_script
                project_dir) as Hl.
  pose proof (find_hook_in_settings_shape w (sp_user paths) hook_script
                project_dir) as Hu.
  subst info. unfold check_installation_status. cbv zeta.
  fold paths. fold at_project at_local at_user.
  fold at_project in Hp. fold at_local in Hl. fold at_user in Hu.
  clearbody at_project at_local at_user.
  destruct Hp as [->|(e1 & es1 & ms1 & ->)], Hl as [->|(e2 & es2 & ms2 & ->)],
    Hu as [->|(e3 & es3 & ms3 & ->)];
    cbn [register set_project set_local set_user new_InstallationInfo
         project local user events matchers app is_installed orb
         scope_description fst snd];
    rewrite ?app_nil_r, <- ?app_assoc; by repeat split.
Qed.

(** ** Event inference *)

Lemma detect_by_fields_range (content event : string) :
  detect_by_fields content = Some event → event ∈ heuristic_events.
Proof.
  unfold detect_by_fields, heuristic_events.
  repeat case_match; intros [= <-]; find_in_sum.
Qed.

Lemma detect_by_fields_Stop (content : string) :
  detect_by_fields content = Some "Stop" →
  Py.contains content "stop_hook_active" = true.
Proof. unfold detect_by_fields. by repeat case_match. Qed.

Lemma detect_hook_event_cases (script_path : Path) (content event : string) :
  detect_hook_event script_path content = Some event →
  (search_event content = Some event ∧ in_EVENT_SCHEMAS event = true)
  ∨ detect_by_fields content = Some event.
Proof.
  unfold detect_hook_event.
  destruct (search_event content) as [marked|]; [|by right].
  destruct (in_EVENT_SCHEMAS marked) eqn:Hin; [|by right].
  intros [= <-]. by left.
Qed.

(** X4: an inferred event is always a key of the schema registry, whether
    it comes from an [Event:] marker or from the field heuristics; and the
    events SubagentStop, PermissionRequest and PreCompact are inferred only
    from a marker that names them, never from the fields the script
    reads. *)
Theorem detect_hook_event_registered (script_path : Path) (content event : string) :
  detect_hook_event script_path content = Some event →
  in_EVENT_SCHEMAS event = true
  ∧ (event ∈ ["SubagentStop"; "PermissionRequest"; "PreCompact"] →
     search_event content = Some event).
Proof.
  intros [[Hmark Hin]|Hfields]%detect_hook_event_cases; [done|].
  apply detect_by_fields_range in Hfields. unfold heuristic_events in Hfields.
  repeat (apply elem_of_cons in Hfields as [->|Hfields];
          [split; [by vm_compute|];
           intros Hrare; exfalso;
           repeat (apply elem_of_cons in Hrare as [?|Hrare]; [done|]);
           by apply elem_of_nil in Hrare|]).
  by apply elem_of_nil in Hfields.
Qed.

(** A subagent hook that says so in its header and reads the fields of a
    tool call. *)
Lemma detect_hook_event_registered_witness :
  let content :=
    "#!/usr/bin/env python3" +:+ Fixture.LF
    +:+ "# Event: SubagentStop" +:+ Fixture.LF
    +:+ Fixture.guard_body in
  detect_hook_event Fixture.guard_py content = Some "SubagentStop"
  ∧ in_EVENT_SCHEMAS "SubagentStop" = true
  ∧ search_event content = Some "SubagentStop".
Proof.
  intros content.
  destruct (detect_hook_event_registered Fixture.guard_py content "SubagentStop"
              ltac:(vm_compute; reflexivity)) as [Hin Hmark].
  split; [vm_compute; reflexivity|]. split; [exact Hin|].
  apply Hmark. find_in_sum.
Defined.

(** ** The infinite-loop error *)

Lemma occurrences_zero (x : string) (l : list string) :
  occurrences x l = 0 → x ∉ l.
Proof.
  unfold occurrences. intros Hlen Hin.
  assert (x ∈ filter (λ y, y = x) l) as Hx by by apply list_elem_of_filter.
  destruct (filter _ l); [by apply elem_of_nil in Hx|done].
Qed.

Section LoopRisk.
Context (w : World) (script_path project_dir : Path) (event_hint : option string).

(** X5: the infinite-loop error is filed only for a script whose content
    never mentions [stop_hook_active] and whose event is settled as Stop
    or SubagentStop; without an event hint that event comes from an
    [Event:] marker in the script, never from the field heuristics. *)
Theorem loop_risk_needs_stop_event (content : string) :
  read_text w script_path = inl content →
  LOOP_RISK ∈ errors (result (validate_hook_script w script_path project_dir
                                event_hint)) →
  Py.contains content "stop_hook_active" = false
  ∧ (∃ event, event ∈ ["Stop"; "SubagentStop"]
              ∧ settled_event script_path event_hint content = Some event
              ∧ (truthy event_hint = false → search_event content = Some event)).
Proof.
  intros Hread Hin.
  destruct (exists_ w script_path) eqn:Hex.
  2: { rewrite validate_hook_script_missing in Hin by done.
       cbn in Hin. apply list_elem_of_singleton in Hin. discriminate. }
  rewrite validate_hook_script_exists in Hin by done.
  rewrite errors_run_app in Hin. apply elem_of_app in Hin as [Hin|Hin].
  { exfalso. revert Hin. apply occurrences_zero.
    by apply check_executable_errors. }
  unfold read_and_validate in Hin. rewrite Hread, validate_content_steps in Hin.
  pose proof (check_shebang_no_loop_risk script_path content) as H4.
  destruct (check_shebang script_path content new_Run) as [[is_python is_bash] r4].
  pose proof (check_syntax_no_loop_risk w script_path content is_python is_bash) as H5.
  destruct (check_syntax w script_path content is_python is_bash new_Run)
    as [continue r5].
  cbn [fst snd] in *. apply occurrences_zero in H4, H5.
  cbv zeta in Hin.
  assert (LOOP_RISK ∈ errors (result (check_event
            (settled_event script_path event_hint content) content new_Run)))
    as Hevent.
  { destruct continue; rewrite ?errors_run_app, ?elem_of_app in Hin.
    - rewrite check_stdin_errors, check_exit_codes_errors in Hin.
      destruct Hin as [[[[[[?|?]|Hin]|?]|Hin]|Hin]|Hin];
        try done; try (by apply elem_of_nil in Hin).
      exfalso. revert Hin. apply occurrences_zero, runtime_test_no_loop_risk.
    - by destruct Hin. }
  rewrite check_event_errors in Hevent.
  destruct (truthy (settled_event script_path event_hint content)) eqn:Htruthy;
    [|by apply elem_of_nil in Hevent].
  destruct (settled_event script_path event_hint content) as [event|] eqn:Hsettled;
    [|done].
  cbn [default andb] in Hevent. unfold id in Hevent.
  destruct (bool_decide (event ∈ ["Stop"; "SubagentStop"])) eqn:Hstop;
    [|by apply elem_of_nil in Hevent].
  apply bool_decide_eq_true in Hstop. cbn [andb] in Hevent.
  destruct (Py.contains content "stop_hook_active") eqn:Hguard;
    [by apply elem_of_nil in Hevent|].
  split; [done|]. exists event. split; [done|]. split; [done|].
  intros Hhint. unfold settled_event in Hsettled. rewrite Hhint in Hsettled.
  apply detect_hook_event_cases in Hsettled as [[Hmark _]|Hfields]; [done|].
  exfalso. apply elem_of_cons in Hstop as [->|Hstop].
  - apply detect_by_fields_Stop in Hfields. congruence.
  - apply list_elem_of_singleton in Hstop as ->.
    apply detect_by_fields_range in Hfields. unfold heuristic_events in Hfields.
    repeat (apply elem_of_cons in Hfields as [?|Hfields]; [done|]).
    by apply elem_of_nil in Hfields.
Qed.

End LoopRisk.

(** A hook marked as a Stop hook in its header, validated without a hint. *)
Lemma loop_risk_needs_stop_event_witness :
  let content :=
    "#!/usr/bin/env python3" +:+ Fixture.LF
    +:+ "# Event: Stop" +:+ Fixture.LF
    +:+ "import json, sys" +:+ Fixture.LF
    +:+ "sys.exit(2)" +:+ Fixture.LF in
  let w := Fixture.world
             {[ path_str Fixture.keep_going_py :=
                  {| Fixture.executable := true; Fixture.content := content |} ]}
             ∅ None BashFileNotFound
             (RunCompleted (Fixture.completed 2 EmptyString EmptyString)) in
  LOOP_RISK ∈ errors (result (validate_hook_script w Fixture.keep_going_py
                                Fixture.project_dir None))
  ∧ Py.contains content "stop_hook_active" = false
  ∧ search_event content = Some "Stop".
Proof.
  intros content w.
  assert (LOOP_RISK ∈ errors (result (validate_hook_script w Fixture.keep_going_py
                                        Fixture.project_dir None))) as Hin
    by by_compute.
  destruct (loop_risk_needs_stop_event w Fixture.keep_going_py Fixture.project_dir
              None content ltac:(vm_compute; reflexivity) Hin)
    as (Hguard & event & _ & Hsettled & Hmark).
  split; [exact Hin|]. split; [exact Hguard|].
  rewrite (Hmark eq_refl). rewrite <- Hsettled. vm_compute. reflexivity.
Defined.

(** ** The calls a validation makes on the script *)

Section Calls.
Context (w : World) (script_path project_dir : Path) (event_hint : option string).

Lemma check_shebang_trace (content : string) :
  trace (check_shebang script_path content new_Run).2 = [].
Proof. unfold check_shebang. by repeat case_match. Qed.

Lemma check_syntax_trace (content : string) (is_python is_bash : bool) :
  trace (check_syntax w script_path content is_python is_bash new_Run).2
  = if is_python || is_bash
    then [syntax_call (if is_python then python3 else bash)] else [].
Proof. unfold check_syntax. destruct is_python, is_bash; by repeat case_match. Qed.

Lemma check_syntax_stops (content : string) (is_python is_bash : bool) :
  (check_syntax w script_path content is_python is_bash new_Run).1 = false →
  is_python = true.
Proof. unfold check_syntax. by repeat case_match. Qed.

Lemma check_stdin_trace (content : string) (is_python is_bash : bool) :
  trace (check_stdin content is_python is_bash new_Run) = [].
Proof. unfold check_stdin. by repeat case_match. Qed.

Lemma check_exit_codes_trace (content : string) (is_python is_bash : bool) :
  trace (check_exit_codes content is_python is_bash new_Run) = [].
Proof. unfold check_exit_codes. by repeat case_match. Qed.

Lemma classify_probe_trace (proc : CompletedProcess) (run : Run) :
  trace (classify_probe w proc run) = trace run
  ∨ trace (classify_probe w proc run) = trace run ++ [call_json_loads].
Proof.
  unfold classify_probe, check_output. repeat case_match; simplify_eq; cbn; auto.
Qed.

Lemma runtime_test_trace (event : option string) (is_python is_bash : bool) :
  let run := runtime_test w script_path project_dir event is_python is_bash new_Run in
  let probe :=
    call_run_hook (if is_python then python3 else bash)
      (sample_input (default EmptyString event)) in
  if truthy event && (is_python || is_bash)
  then trace run = [probe] ∨ trace run = [probe; call_json_loads]
  else trace run = [].
Proof.
  unfold runtime_test. destruct (truthy event && (is_python || is_bash)); [|done].
  cbv zeta. destruct (run_hook w _ script_path _ project_dir) as [proc| |e];
    [|by left..].
  by destruct (classify_probe_trace proc
                 (call (call_run_hook (if is_python then python3 else bash)
                          (sample_input (default EmptyString event))) new_Run))
    as [->| ->]; [left|right].
Qed.

(** X6: what a validation does with the script itself.  The log holds the
    calls made on the script and on its output: [ast.parse], [bash -n], the
    run, and [json.loads] of the output of the run (the settings files that
    the installation check reads and parses afterwards are not calls on the
    script and are not in the log).  There is no such call at all, or the
    first is the syntax check of the script's language; the script is run
    at most once, only after that syntax check and by the interpreter of
    the same language, only when an event is settled, and on the sample
    payload of that event; and the output of the run is parsed as JSON at
    most once, directly after the run. *)
Theorem validate_hook_script_trace :
  let run := validate_hook_script w script_path project_dir event_hint in
  trace run = []
  ∨ ∃ interpreter,
      trace run = [syntax_call interpreter]
      ∨ ∃ content event,
          read_text w script_path = inl content
          ∧ settled_event script_path event_hint content = Some event
          ∧ event ≠ EmptyString
          ∧ (trace run = [syntax_call interpreter;
                          call_run_hook interpreter (sample_input event)]
             ∨ trace run = [syntax_call interpreter;
                            call_run_hook interpreter (sample_input event);
                            call_json_loads]).
Proof.
  cbv zeta. destruct (exists_ w script_path) eqn:Hex;
    [|left; by rewrite validate_hook_script_missing].
  rewrite validate_hook_script_exists by done. rewrite trace_run_app.
  replace (trace (check_executable w script_path _)) with (@nil Call)
    by (unfold check_executable; by case_match).
  cbn [app]. unfold read_and_validate.
  destruct (read_text w script_path) as [content|e] eqn:Hread; [|by left].
  rewrite validate_content_steps.
  pose proof (check_shebang_trace content) as H4.
  destruct (check_shebang script_path content new_Run) as [[is_python is_bash] r4].
  pose proof (check_syntax_trace content is_python is_bash) as H5.
  pose proof (check_syntax_stops content is_python is_bash) as Hstop.
  destruct (check_syntax w script_path content is_python is_bash new_Run)
    as [continue r5].
  cbn [fst snd] in *. cbv zeta.
  set (interpreter := if is_python then python3 else bash) in *.
  destruct continue.
  2: { rewrite trace_run_app, H4, H5, (Hstop eq_refl). cbn [orb app].
       right. exists interpreter. by left. }
  pose proof (runtime_test_trace (settled_event script_path event_hint content)
                is_python is_bash) as H9.
  cbv zeta in H9. fold interpreter in H9.
  rewrite !trace_run_app, H4, H5, check_stdin_trace, check_event_trace,
    check_exit_codes_trace.
  cbn [report trace new_Run app]. rewrite !app_nil_r.
  destruct (is_python || is_bash) eqn:Hlang.
  2: { rewrite andb_false_r in H9. rewrite H9. by left. }
  rewrite andb_true_r in H9. right. exists interpreter.
  destruct (truthy (settled_event script_path event_hint content)) eqn:Htruthy.
  2: { rewrite H9. by left. }
  destruct (settled_event script_path event_hint content) as [event|]
    eqn:Hsettled; [|done].
  right. exists content, event. split; [done|]. split; [done|].
  split; [by intros ->|].
  cbn [default] in H9. unfold id in H9. by destruct H9 as [-> | ->]; [left|right].
Qed.

End Calls.

(** ** A Python syntax error *)

(** X7: when the Python parser rejects the script, the validation ends
    there: the syntax error is the last error, after at most the error for
    a missing execute permission; the parser is the only thing called, so
    the script is never run; no installation record is attached; and the
    report fails. *)
Theorem python_syntax_error_ends_validation (w : World)
    (script_path project_dir : Path) (event_hint : option string)
    (content : string) (e : SyntaxError) :
  exists_ w script_path = true →
  read_text w script_path = inl content →
  (check_shebang script_path content new_Run).1.1 = true →
  ast_parse w content = Some e →
  let run := validate_hook_script w script_path project_dir event_hint in
  errors (result run)
  = (if access_X_OK w script_path then [] else [NOT_EXECUTABLE])
    ++ ["❌ Python syntax error: " +:+ msg e +:+ " (line " +:+ lineno_str e +:+ ")"]
  ∧ trace run = [call_ast_parse]
  ∧ installation (result run) = None
  ∧ success (result run) = false.
Proof.
  intros Hex Hread Hpy Hparse run. subst run.
  rewrite (python_syntax_error_stops w script_path project_dir event_hint content e)
    by done.
  pose proof (check_shebang_trace script_path content) as Htrace.
  assert (errors (result (check_shebang script_path content new_Run).2) = []
          ∧ installation (result (check_shebang script_path content new_Run).2)
            = None) as [Herr Hinst].
  { revert Hpy. unfold check_shebang. by repeat case_match. }
  destruct (check_shebang script_path content new_Run) as [[is_python is_bash] r4].
  cbn [fst snd] in *.
  assert (errors (result (check_executable w script_path
                    (report (ok ("Script exists: " +:+ name script_path)) new_Run)))
          = (if access_X_OK w script_path then [] else [NOT_EXECUTABLE])
          ∧ trace (check_executable w script_path
                     (report (ok ("Script exists: " +:+ name script_path)) new_Run))
            = []
          ∧ installation (result (check_executable w script_path
               (report (ok ("Script exists: " +:+ name script_path)) new_Run)))
            = None) as (Hx & Hxt & Hxi).
  { unfold check_executable. by destruct (access_X_OK w script_path). }
  split; [|split; [|split]].
  - rewrite !errors_run_app, Hx, Herr. by rewrite app_nil_r.
  - by rewrite !trace_run_app, Hxt, Htrace.
  - cbn [run_app result result_app installation report call error new_Run
         new_ValidationResult]. by rewrite Hinst, Hxi.
  - apply (success_false _ ("❌ Python syntax error: " +:+ msg e
                            +:+ " (line " +:+ lineno_str e +:+ ")")).
    rewrite !errors_run_app, !elem_of_app. right. by apply list_elem_of_singleton.
Qed.

(** A script that is not executable and whose third line opens a call it
    never closes. *)
Lemma python_syntax_error_ends_validation_witness :
  let w := Fixture.world
             {[ path_str Fixture.force_continue_py :=
                  {| Fixture.executable := false;
                     Fixture.content := Fixture.force_continue_source |} ]}
             ∅ (Some Fixture.never_closed) BashFileNotFound
             Fixture.never_closed_run in
  let run := validate_hook_script w Fixture.force_continue_py Fixture.project_dir
               None in
  errors (result run)
  = [NOT_EXECUTABLE; "❌ Python syntax error: '(' was never closed (line 3)"]
  ∧ trace run = [call_ast_parse]
  ∧ installation (result run) = None.
Proof.
  intros w run.
  destruct (python_syntax_error_ends_validation w Fixture.force_continue_py
              Fixture.project_dir None Fixture.force_continue_source
              Fixture.never_closed
              ltac:(vm_compute; reflexivity) ltac:(vm_compute; reflexivity)
              ltac:(vm_compute; reflexivity) ltac:(vm_compute; reflexivity))
    as (Herrors & Htrace & Hinst & _).
  split; [|split; [exact Htrace|exact Hinst]].
  subst run. rewrite Herrors. vm_compute. reflexivity.
Defined.

(** ** The verdict of a hook report *)

Section Verdict.
Context (w : World) (script_path project_dir : Path) (event_hint : option string).

Lemma check_syntax_stops_error (content : string) (is_python is_bash : bool) :
  (check_syntax w script_path content is_python is_bash new_Run).1 = false →
  errors (result (check_syntax w script_path content is_python is_bash
                    new_Run).2) ≠ [].
Proof. unfold check_syntax. by repeat case_match. Qed.

Lemma success_run_app (a b : Run) :
  success (result (a ⊕ b)) = success (result a) && success (result b).
Proof.
  unfold success. rewrite errors_run_app, length_app.
  by destruct (length (errors (result a))), (length (errors (result b))).
Qed.

(** A validation without an error has run to the end and carries the
    installation record. *)
Lemma success_installation :
  success (result (validate_hook_script w script_path project_dir event_hint)) = true →
  installation (result (validate_hook_script w script_path project_dir event_hint))
  = Some (check_installation_status w script_path project_dir).
Proof.
  destruct (exists_ w script_path) eqn:Hex;
    [|by rewrite validate_hook_script_missing].
  rewrite validate_hook_script_exists by done. rewrite success_run_app.
  intros [_ Hok]%andb_true_iff. revert Hok. unfold read_and_validate.
  destruct (read_text w script_path) as [content|e]; [|done].
  rewrite validate_content_steps.
  destruct (check_shebang script_path content new_Run) as [[is_python is_bash] r4].
  pose proof (check_syntax_stops_error content is_python is_bash) as Hstop.
  destruct (check_syntax w script_path content is_python is_bash new_Run)
    as [continue r5].
  cbn [fst snd] in *. cbv zeta. destruct continue; [done|].
  rewrite success_run_app. intros [_ Hok]%andb_true_iff.
  specialize (Hstop eq_refl). unfold success in Hok.
  by destruct (errors (result r5)).
Qed.

(** X8: the last three lines of a printed hook report are a blank line,
    the verdict and a blank line, and the verdict follows from the errors
    and the installation status: a report with an error is FAILED; a
    report without an error has run to the end and carries the
    installation record, and it is PASSED only when the hook is registered
    in some settings file, and otherwise SCRIPT VALID but NOT INSTALLED. *)
Theorem hook_report_verdict (title : string) :
  let r := result (validate_hook_script w script_path project_dir event_hint) in
  let info := check_installation_status w script_path project_dir in
  (∃ body, print_report r title
           = body ++ [Print EmptyString; Print (verdict_line r); Print EmptyString])
  ∧ verdict_line r
    = if success r then
        if is_installed info then
          "  ✅ PASSED (" +:+ pretty (length (passed r)) +:+ " checks, "
          +:+ pretty (length (warnings r)) +:+ " warnings)"
        else
          "  ⚠️  SCRIPT VALID but NOT INSTALLED ("
          +:+ pretty (length (passed r)) +:+ " checks passed)"
      else
        "  ❌ FAILED (" +:+ pretty (length (errors r)) +:+ " errors, "
        +:+ pretty (length (warnings r)) +:+ " warnings)".
Proof.
  intros r info. split.
  - unfold print_report. eexists. rewrite !app_assoc. reflexivity.
  - unfold verdict_line. destruct (success r) eqn:Hok; [|done].
    subst r. rewrite success_installation by done. fold info.
    cbn [from_option]. rewrite bool_decide_eq_true_2 by done.
    by destruct (is_installed info).
Qed.

End Verdict.

(** ** Settings validation: the expansion of the placeholder *)

Section SettingsExpansion.
Implicit Types (pre post pd : string) (q : ascii).

Lemma quote_regroup q pre x post :
  pre +:+ String q (x +:+ String q EmptyString) +:+ post
  = (pre +:+ String q EmptyString) +:+ x +:+ String q post.
Proof.
  rewrite !str_app_assoc, !str_app_cons, str_app_nil_l.
  by rewrite str_app_assoc, str_app_cons, str_app_nil_l.
Qed.

Lemma contains_quote_r q pre :
  Py.isword q = false →
  Py.contains (String q EmptyString) PLACEHOLDER = false →
  Py.contains pre PLACEHOLDER = false →
  Py.contains (pre +:+ String q EmptyString) PLACEHOLDER = false.
Proof.
  intros Hword Hq Hpre. apply contains_app_false; [done..|].
  intros a1 a2 -> Hne. apply PLACEHOLDER_not_across; [done| |done].
  by apply contains_false_suffix in Hpre.
Qed.

Lemma contains_quote_l q post :
  q ≠ "$"%char →
  Py.contains post PLACEHOLDER = false →
  Py.contains (String q post) PLACEHOLDER = false.
Proof.
  intros Hq Hpost. rewrite contains_cons, Hpost, orb_false_r.
  unfold PLACEHOLDER. rewrite prefix_cons.
  by rewrite bool_decide_eq_false_2 by congruence.
Qed.

(** The two passes of settings validation on a quoted placeholder: the
    bare pass expands it inside its quotes, and the pass for the
    double-quoted form finds nothing left to replace. *)
Lemma settings_passes_quoted q pre pd post :
  q ≠ "$"%char → Py.isword q = false →
  Py.contains (String q EmptyString) PLACEHOLDER = false →
  Py.contains pre PLACEHOLDER = false →
  Py.contains post PLACEHOLDER = false →
  safe_dir pd →
  Py.contains (pre +:+ String q (pd +:+ String q EmptyString) +:+ post) PLACEHOLDER
  = false
  ∧ Py.replace (pre +:+ quoted q +:+ post) PLACEHOLDER pd
    = pre +:+ String q (pd +:+ String q EmptyString) +:+ post.
Proof.
  intros Hq Hword Hq' Hpre Hpost Hpd.
  pose proof (contains_quote_r q pre Hword Hq' Hpre) as Hpre'.
  pose proof (contains_quote_l q post Hq Hpost) as Hpost'.
  unfold quoted. rewrite !quote_regroup. split.
  - by apply expanded_free.
  - by apply replace_bare_hit.
Qed.

Lemma settings_passes (f : Form) pre pd post :
  Py.contains pre PLACEHOLDER = false →
  Py.contains post PLACEHOLDER = false →
  safe_dir pd →
  Py.contains (pre +:+ kept_form f pd +:+ post) PLACEHOLDER = false
  ∧ Py.replace (pre +:+ form_text f +:+ post) PLACEHOLDER pd
    = pre +:+ kept_form f pd +:+ post.
Proof.
  intros Hpre Hpost Hpd. destruct f; cbn [form_text kept_form].
  - change (Py.dquote +:+ PLACEHOLDER +:+ Py.dquote) with (quoted "034").
    change (Py.dquote +:+ pd +:+ Py.dquote)
      with (String "034" (pd +:+ String "034" EmptyString)).
    by apply settings_passes_quoted.
  - change (Py.squote +:+ PLACEHOLDER +:+ Py.squote) with (quoted "039").
    change (Py.squote +:+ pd +:+ Py.squote)
      with (String "039" (pd +:+ String "039" EmptyString)).
    by apply settings_passes_quoted.
  - split; [by apply expanded_free|by apply replace_bare_hit].
Qed.

End SettingsExpansion.

(** X9: settings validation expands the placeholder inside its quotes.
    For a command with one placeholder and an absolute project directory
    without a dollar sign, the entry is validated exactly as if the
    command held the project directory with the quotes of the placeholder
    still around it: the pass for the bare form runs first and leaves the
    pass for the double-quoted form nothing to replace.  The installation
    locator removes those quotes; settings validation looks for the script
    under a path that contains them. *)
Theorem validate_hook_entry_keeps_quotes (w : World) (project_dir : Path)
    (schema : EventSpec) (event : string) (i j : nat) (f : Form)
    (pre post : string) (hook : HookEntry) (r : ValidationResult) :
  safe_dir (path_str project_dir) →
  Py.contains pre PLACEHOLDER = false →
  Py.contains post PLACEHOLDER = false →
  h_command hook = Some (pre +:+ form_text f +:+ post) →
  Py.replace (Py.replace (pre +:+ form_text f +:+ post) PLACEHOLDER
                (path_str project_dir))
    (form_text Double) (path_str project_dir)
  = pre +:+ kept_form f (path_str project_dir) +:+ post
  ∧ validate_hook_entry w project_dir schema event i j hook r
    = validate_hook_entry w project_dir schema event i j
        {| h_type := h_type hook;
           h_command := Some (pre +:+ kept_form f (path_str project_dir) +:+ post);
           h_prompt := h_prompt hook |} r.
Proof.
  intros Hpd Hpre Hpost Hcommand.
  destruct (settings_passes f pre (path_str project_dir) post Hpre Hpost Hpd)
    as [Hfree Hbare].
  split.
  { rewrite Hbare. by apply (replace_quoted_absent "034"). }
  unfold validate_hook_entry. rewrite Hcommand.
  cbn [h_type h_command h_prompt default]. unfold id.
  rewrite is_empty_app_form.
  replace (Py.is_empty (pre +:+ kept_form f (path_str project_dir) +:+ post))
    with false.
  2: { destruct Hpd as [Hslash _]. destruct pre; [|done].
       destruct f; [done|done|]. cbn [kept_form].
       by destruct (path_str project_dir). }
  rewrite Hbare.
  rewrite (replace_placeholder_absent (pre +:+ kept_form f _ +:+ post)) by done.
  done.
Qed.

(** The guard registered by a command with the double-quoted placeholder:
    the locator finds the script, settings validation does not. *)
Lemma validate_hook_entry_keeps_quotes_witness :
  let w :=
    Fixture.world
      {[ path_str Fixture.guard_py :=
           {| Fixture.executable := true;
              Fixture.content := Fixture.guard_source |} ]}
      {[ Fixture.project_settings := Fixture.guard_settings Double ]}
      None BashFileNotFound RunTimeoutExpired in
  (find_hook_in_settings w (Fixture.path Fixture.project_settings)
     Fixture.guard_py Fixture.project_dir).1.1 = true
  ∧ errors (validate_settings w (Fixture.path Fixture.project_settings)
              Fixture.project_dir "PROJECT")
    = ["❌ PreToolUse: Script not found: " +:+ Py.dquote +:+ "/proj" +:+ Py.dquote
       +:+ "/.claude/hooks/guard.py"].
Proof.
  intros w. split; [vm_compute; reflexivity|].
  pose proof (validate_hook_entry_keeps_quotes w Fixture.project_dir
                {| required := ["tool_name"; "tool_input"];
                   optional := ["tool_use_id"; "session_id"];
                   has_matcher := true; can_block := true |}
                "PreToolUse" 0 0 Double "python3 " "/.claude/hooks/guard.py"
                (Fixture.command_hook (Fixture.guard_command Double))
                (ok "PROJECT: 1 event type(s) configured"
                   (ok "PROJECT: Valid JSON" new_ValidationResult))
                ltac:(split; vm_compute; reflexivity)
                ltac:(vm_compute; reflexivity) ltac:(vm_compute; reflexivity)
                ltac:(reflexivity)) as [_ Hentry].
  transitivity
    (errors (validate_hook_entry w Fixture.project_dir
               {| required := ["tool_name"; "tool_input"];
                  optional := ["tool_use_id"; "session_id"];
                  has_matcher := true; can_block := true |}
               "PreToolUse" 0 0
               (Fixture.command_hook (Fixture.guard_command Double))
               (ok "PROJECT: 1 event type(s) configured"
                  (ok "PROJECT: Valid JSON" new_ValidationResult))));
    [vm_compute; reflexivity|].
  rewrite Hentry. vm_compute. reflexivity.
Defined.

(** ** Settings validation: one event key at a time *)

Section PerKey.
Context (w : World) (project_dir : Path).

Lemma success_result_app (a b : ValidationResult) :
  success (result_app a b) = success a && success b.
Proof.
  unfold success. cbn [result_app errors]. rewrite length_app.
  by destruct (length (errors a)), (length (errors b)).
Qed.

Lemma events_report_cons item hooks :
  events_report w project_dir (item :: hooks)
  = result_app (events_report w project_dir [item])
               (events_report w project_dir hooks).
Proof. apply (events_report_app w project_dir [item] hooks). Qed.

(** X10: the event keys of a settings document are judged one at a time.
    The errors and the warnings of the file are those of its keys, each
    validated on its own, in document order; so the file passes exactly
    when every one of its keys passes on its own, and a finding under one
    key neither hides nor causes a finding under another. *)
Theorem validate_settings_per_key (settings_path : Path) (level_name : string)
    (settings : Settings) :
  exists_ w settings_path = true →
  read_settings w settings_path = inr settings →
  let hooks := default [] (s_hooks settings) in
  let r := validate_settings w settings_path project_dir level_name in
  errors r = (item ← hooks; errors (events_report w project_dir [item]))
  ∧ warnings r = (item ← hooks; warnings (events_report w project_dir [item]))
  ∧ success r = forallb (λ item, success (events_report w project_dir [item])) hooks.
Proof.
  intros Hex Hread hooks r.
  assert (∀ l,
    errors (events_report w project_dir l)
    = (item ← l; errors (events_report w project_dir [item]))
    ∧ warnings (events_report w project_dir l)
      = (item ← l; warnings (events_report w project_dir [item]))
    ∧ success (events_report w project_dir l)
      = forallb (λ item, success (events_report w project_dir [item])) l)
    as Hkeys.
  { induction l as [|item rest (IHe & IHw & IHs)]; [done|].
    rewrite events_report_cons, success_result_app, !bind_cons.
    cbn [result_app errors warnings forallb]. by rewrite IHe, IHw, IHs. }
  destruct (Hkeys hooks) as (He & Hw & Hs).
  subst r. destruct (s_hooks settings) as [declared|] eqn:Hdeclared.
  - destruct (decide (declared = [])) as [->|Hne].
    + unfold validate_settings. by rewrite Hex, Hread, Hdeclared.
    + rewrite (validate_settings_hooks w project_dir settings_path level_name
                 settings declared) by done.
      rewrite success_result_app. cbn [result_app errors warnings ok
        new_ValidationResult app]. subst hooks. cbn [default] in *.
      unfold id in *. by rewrite He, Hw, Hs.
  - unfold validate_settings. by rewrite Hex, Hread, Hdeclared.
Qed.

End PerKey.

(** The document with the misspelt key between two well-formed ones: the
    only error of the file is the one of that key alone. *)
Lemma validate_settings_per_key_witness :
  let w :=
    Fixture.world
      {[ path_str Fixture.guard_py :=
           {| Fixture.executable := true;
              Fixture.content := Fixture.guard_source |} ]}
      {[ Fixture.project_settings := Fixture.misspelt_settings ]}
      None BashFileNotFound RunTimeoutExpired in
  let r := validate_settings w (Fixture.path Fixture.project_settings)
             Fixture.project_dir "PROJECT" in
  errors r = errors (events_report w Fixture.project_dir [Fixture.misspelt_entry])
  ∧ success r = false.
Proof.
  intros w r.
  destruct (validate_settings_per_key w Fixture.project_dir
              (Fixture.path Fixture.project_settings) "PROJECT"
              Fixture.misspelt_settings
              ltac:(vm_compute; reflexivity) ltac:(vm_compute; reflexivity))
    as (Herrors & _ & Hsuccess).
  split.
  - subst r. rewrite Herrors. vm_compute. reflexivity.
  - subst r. rewrite Hsuccess. vm_compute. reflexivity.
Defined.

(** ** Project validation and the command line *)

Lemma fold_all_passed {A : Type} (step : Printed bool → A → Printed bool)
    (P : A → bool) (l : list A) (st : Printed bool) :
  (∀ st x, (step st x).2 = st.2 && P x) →
  (fold_left step l st).2 = st.2 && forallb P l.
Proof.
  intros Hstep. revert st. induction l as [|x rest IH]; intros st.
  - by rewrite andb_true_r.
  - cbn [fold_left forallb]. by rewrite IH, Hstep, andb_assoc.
Qed.

Section Project.
Context (w : World) (ls : Listing) (project_dir : Path).

Lemma project_settings_step_verdict paths st l :
  (project_settings_step w project_dir paths st l).2
  = st.2 && success (validate_settings w (level_path paths l) project_dir
                       (level_display l)).
Proof.
  destruct st as [out all_passed]. unfold project_settings_step. cbn [snd].
  destruct (success _), all_passed; by case_match.
Qed.

Lemma project_hook_step_verdict st hook :
  (project_hook_step w project_dir st hook).2
  = st.2 && success (result (validate_hook_script w hook project_dir None)).
Proof.
  destruct st as [out all_passed]. unfold project_hook_step. cbn [snd].
  by destruct (success _), all_passed.
Qed.

(** X11: full project validation passes exactly when the three settings
    files pass and every hook script found in the hooks directory passes,
    each validated without an event hint.  A settings file that does not
    exist passes, so only files that are there can fail the project. *)
Theorem validate_project_verdict :
  let paths := get_settings_paths w project_dir in
  (validate_project w ls project_dir).2
  = forallb (λ l, success (validate_settings w (level_path paths l) project_dir
                             (level_display l))) levels
    && forallb (λ hook, success (result (validate_hook_script w hook project_dir
                                           None)))
         (find_all_hooks w ls project_dir)
  ∧ ∀ l, exists_ w (level_path paths l) = false →
         success (validate_settings w (level_path paths l) project_dir
                    (level_display l)) = true.
Proof.
  intros paths. split.
  - unfold validate_project. cbv zeta. fold paths.
    pose proof (fold_all_passed (project_settings_step w project_dir paths) _
                  levels
                  ([Print (PyText.LF +:+ PyText.repeat "#" 60);
                    Print ("  HOOK VALIDATION: " +:+ path_str project_dir);
                    Print (PyText.repeat "#" 60)]
                   ++ [Print (PyText.LF +:+ "📁 SETTINGS FILES");
                       Print (PyText.repeat "-" 40)], true)
                  (project_settings_step_verdict paths)) as Hsettings.
    destruct (fold_left (project_settings_step w project_dir paths) levels _)
      as [out1 passed1].
    cbn [snd andb] in Hsettings. subst passed1.
    destruct (find_all_hooks w ls project_dir) as [|hook hooks].
    + cbn [forallb]. rewrite andb_true_r. by case_match.
    + match goal with
      | |- context [fold_left ?step ?l ?st] =>
          pose proof (fold_all_passed step _ l st project_hook_step_verdict)
            as Hhooks;
          destruct (fold_left step l st) as [out2 passed2]
      end.
      cbn [snd] in Hhooks. subst passed2. by case_match.
  - intros l Hex. unfold validate_settings. by rewrite Hex.
Qed.

End Project.

Section Main.
Context (w : World) (ls : Listing).

Lemma main_settings_step_verdict project_dir paths st l :
  (main_settings_step w project_dir paths st l).2
  = st.2 && success (validate_settings w (level_path paths l) project_dir
                       (PyText.upper (level_key l))).
Proof.
  destruct st as [out all_passed]. unfold main_settings_step. cbn [snd].
  by destruct (success _), all_passed.
Qed.

Lemma main_hook_step_verdict project_dir event st hook :
  (main_hook_step w project_dir event st hook).2
  = st.2 && success (result (validate_hook_script w hook project_dir event)).
Proof.
  destruct st as [out all_passed]. unfold main_hook_step. cbn [snd].
  by destruct (success _), all_passed.
Qed.

(** *** What is printed *)

Lemma map_Print_is_print (f : string → string) (l : list string) :
  forallb is_print (map (λ x, Print (f x)) l) = true.
Proof. by induction l. Qed.

Lemma print_report_is_print (r : ValidationResult) (title : string) :
  forallb is_print (print_report r title) = true.
Proof.
  unfold print_report, installation_lines.
  rewrite !forallb_app, !map_Print_is_print. cbn [forallb is_print andb].
  destruct (installation r) as [inst|]; [|done].
  rewrite forallb_app. cbn [forallb is_print andb].
  destruct (is_installed inst); [|done].
  rewrite !forallb_app. by destruct (events inst), (matchers inst).
Qed.

Lemma fold_is_print {A : Type} (step : Printed bool → A → Printed bool)
    (l : list A) (st : Printed bool) :
  (∀ st x, forallb is_print st.1 = true → forallb is_print (step st x).1 = true) →
  forallb is_print st.1 = true →
  forallb is_print (fold_left step l st).1 = true.
Proof.
  intros Hstep. revert st. induction l as [|x rest IH]; intros st Hst; [done|].
  cbn [fold_left]. by apply IH, Hstep.
Qed.

Lemma project_settings_step_is_print project_dir paths st l :
  forallb is_print st.1 = true →
  forallb is_print (project_settings_step w project_dir paths st l).1 = true.
Proof.
  destruct st as [out all_passed]. unfold project_settings_step. cbn [fst].
  intros Hout. case_match; rewrite !forallb_app, ?map_Print_is_print, Hout; done.
Qed.

Lemma hook_step_is_print project_dir event st hook :
  forallb is_print st.1 = true →
  forallb is_print (main_hook_step w project_dir event st hook).1 = true.
Proof.
  destruct st as [out all_passed]. unfold main_hook_step. cbn [fst].
  intros Hout. by rewrite forallb_app, Hout, print_report_is_print.
Qed.

Lemma main_settings_step_is_print project_dir paths st l :
  forallb is_print st.1 = true →
  forallb is_print (main_settings_step w project_dir paths st l).1 = true.
Proof.
  destruct st as [out all_passed]. unfold main_settings_step. cbn [fst].
  intros Hout. by rewrite forallb_app, Hout, print_report_is_print.
Qed.

Lemma validate_project_is_print project_dir :
  forallb is_print (validate_project w ls project_dir).1 = true.
Proof.
  unfold validate_project. cbv zeta.
  match goal with
  | |- context [fold_left ?step levels ?st] =>
      pose proof (fold_is_print step levels st
                    (project_settings_step_is_print project_dir _) eq_refl)
        as Hsettings;
      destruct (fold_left step levels st) as [out1 passed1]
  end.
  cbn [fst] in Hsettings.
  destruct (find_all_hooks w ls project_dir) as [|hook hooks].
  - case_match; cbn [fst]; rewrite !forallb_app, Hsettings; done.
  - match goal with
    | |- context [fold_left ?step ?l ?st] =>
        pose proof (fold_is_print step l st
                      (hook_step_is_print project_dir None)) as Hhooks;
        destruct (fold_left step l st) as [out2 passed2]
    end.
    cbn [fst] in Hhooks. rewrite forallb_app, Hsettings in Hhooks.
    specialize (Hhooks eq_refl).
    case_match; cbn [fst]; rewrite !forallb_app, Hhooks; done.
Qed.

(** X12: once the arguments are parsed, [main] exits with 0 or with 1 and
    prints reports only: one of the four modes is always taken, so the
    usage text and the exit code 2 that follow them in the source are
    never reached. *)
Theorem main_exit_code (args : Args) :
  (main w ls args).2 ∈ [0; 1]%Z
  ∧ forallb is_print (main w ls args).1 = true.
Proof.
  unfold main. cbv zeta.
  set (project_dir := Path_ w (resolved (Path_ w (a_dir args)))).
  destruct (a_project args
            || negb (truthy (a_script args)) && negb (a_all args)
               && negb (a_settings args)) eqn:Hproject.
  { pose proof (validate_project_is_print project_dir) as Hprint.
    destruct (validate_project w ls project_dir) as [out passed].
    split; [|done]. destruct passed; find_in_sum. }
  apply orb_false_iff in Hproject as [_ Hmode].
  destruct (a_settings args).
  { match goal with
    | |- context [fold_left ?step levels ?st] =>
        pose proof (fold_is_print step levels st
                      (main_settings_step_is_print project_dir _) eq_refl)
          as Hprint;
        destruct (fold_left step levels st) as [out passed]
    end.
    split; [|done]. destruct passed; find_in_sum. }
  destruct (a_all args).
  { destruct (find_all_hooks w ls project_dir) as [|hook hooks].
    - split; [find_in_sum|done].
    - match goal with
      | |- context [fold_left ?step ?l ?st] =>
          pose proof (fold_is_print step l st
                        (hook_step_is_print project_dir (a_event args)) eq_refl)
            as Hprint;
          destruct (fold_left step l st) as [out passed]
      end.
      split; [|done]. destruct passed; find_in_sum. }
  rewrite !andb_true_r in Hmode. apply negb_false_iff in Hmode. rewrite Hmode.
  split; [|apply print_report_is_print].
  cbn [snd]. case_match; find_in_sum.
Qed.

End Main.

(** ** The sample payloads and the registry *)

(** X13: the table of sample payloads fits the schema registry.  Every
    registered event has a payload of its own, so the probe of a
    registered event never falls back to the payload named Unknown; the
    payload names the event in [hook_event_name] and carries every field
    the registry requires of the event; and no payload is kept for an
    event outside the registry. *)
Theorem sample_input_fits_registry :
  (∀ event spec, EVENT_SCHEMAS !! event = Some spec →
     TEST_INPUTS !! event = Some (sample_input event)
     ∧ json_field (sample_input event) "hook_event_name" = Some (JStr event)
     ∧ Forall (λ field, is_Some (json_field (sample_input event) field))
         (required spec))
  ∧ (∀ event, is_Some (TEST_INPUTS !! event) → in_EVENT_SCHEMAS event = true).
Proof.
  split.
  - intros event spec Hspec. apply EVENT_SCHEMAS_lookup_Some in Hspec.
    unfold EVENT_SCHEMAS_items in Hspec.
    repeat (apply elem_of_cons in Hspec as [Hspec|Hspec];
            [ injection Hspec as -> ->;
              split; [vm_compute; reflexivity|];
              split; [vm_compute; reflexivity|];
              cbn [required]; repeat constructor; vm_compute; by eexists | ]).
    by apply elem_of_nil in Hspec.
  - intros event [payload Hpayload]. unfold TEST_INPUTS in Hpayload.
    apply elem_of_list_to_map_2 in Hpayload.
    repeat (apply elem_of_cons in Hpayload as [Hpayload|Hpayload];
            [ injection Hpayload as -> _; vm_compute; reflexivity | ]).
    by apply elem_of_nil in Hpayload.
Qed.

(** The payload a Stop hook is probed with. *)
Lemma sample_input_fits_registry_witness :
  json_field (sample_input "Stop") "hook_event_name" = Some (JStr "Stop")
  ∧ is_Some (json_field (sample_input "Stop") "stop_hook_active").
Proof.
  destruct (proj1 sample_input_fits_registry "Stop"
              {| required := ["stop_hook_active"];
                 optional := ["transcript_path"; "session_id"];
                 has_matcher := false; can_block := true |}
              ltac:(vm_compute; reflexivity)) as (_ & Hname & Hfields).
  split; [exact Hname|]. by apply Forall_cons in Hfields as [? _].
Defined.

(** ** The descriptions of an installation record *)

(** X14: the level description names exactly the levels whose flag is
    set, and the three summaries of a record agree: the level description
    is NOT INSTALLED exactly when no flag is set, which is exactly when
    the scope description says that the hook will not run. *)
Theorem level_description_flags (i : InstallationInfo) :
  Py.contains (level_description i) "PROJECT" = project i
  ∧ Py.contains (level_description i) "LOCAL" = local i
  ∧ Py.contains (level_description i) "USER" = user i
  ∧ (level_description i = "NOT INSTALLED" ↔ is_installed i = false)
  ∧ (scope_description i = "Will NOT run (not registered in any settings file)"
     ↔ is_installed i = false).
Proof.
  destruct i as [[] [] [] evs ms];
    repeat split; try (vm_compute; reflexivity); vm_compute; discriminate.
Qed.
